(** * Time-stamp alignment of MagnaProbe and SMP records with an Emlid track

    Shallow embedding of [run_magna_gps_correction.py] and
    [run_smp_gps_correction.py].

    - Python strings are [string]; slices and [in] are written out.
    - A [pd.Timestamp] is the number of whole seconds since 1970-01-01T00:00:00
      (a [Z]); every instant of the two scripts is built from a text with
      whole seconds or shifted by whole seconds.  pandas keeps nanoseconds in
      a 64-bit integer, which spans 1677-09-21 .. 2262-04-11; the text parser
      below accepts the calendar years 1678 .. 2261, all of which lie well
      inside that span, and answers [None] elsewhere.
    - [NaT] is [None] in [option Timestamp].
    - Latitudes and longitudes are binary64 numbers ([float]), [NaN] included.
    - A data frame is the list of its rows.
    - [print] appends a line to a log; an exception ends the computation. *)

From Equations Require Import Equations.
From Stdlib Require Import ZArith List String Ascii Bool Lia Lqa Floats QArith Qabs.
Import ListNotations.

Local Open Scope string_scope.
Local Open Scope Z_scope.

(** ** Python strings *)

Module PyStr.

(** [s[:n]] *)
Definition slice_to (n : nat) (s : string) : string := substring 0 n s.

(** [s[a:b]] *)
Definition slice (a b : nat) (s : string) : string := substring a (b - a) s.

(** [s[a:]] *)
Definition slice_from (a : nat) (s : string) : string :=
  substring a (String.length s - a) s.

(** [s[-n:]]: the last [n] characters, the whole text when it is shorter. *)
Definition last_chars (n : nat) (s : string) : string :=
  substring (String.length s - n) n s.

(** [needle in hay] *)
Fixpoint str_in (needle hay : string) : bool :=
  prefix needle hay
  || match hay with
     | EmptyString => false
     | String _ rest => str_in needle rest
     end.

Definition digit_of_char (c : ascii) : option Z :=
  let n := Z.of_nat (nat_of_ascii c) in
  if (48 <=? n) && (n <=? 57) then Some (n - 48) else None.

Definition char_of_digit (d : Z) : ascii := ascii_of_nat (Z.to_nat (48 + d)).

Definition num2 (a b : ascii) : option Z :=
  match digit_of_char a, digit_of_char b with
  | Some x, Some y => Some (10 * x + y)
  | _, _ => None
  end.

Definition num4 (a b c d : ascii) : option Z :=
  match num2 a b, num2 c d with
  | Some x, Some y => Some (100 * x + y)
  | _, _ => None
  end.

(** ['%02d'] and ['%04d'] for values that fit the width. *)
Definition fmt2 (n : Z) : string :=
  String (char_of_digit (n / 10 mod 10)) (String (char_of_digit (n mod 10)) "").

Definition fmt4 (n : Z) : string := fmt2 (n / 100) ++ fmt2 (n mod 100).

Definition all_digits (s : string) : bool :=
  forallb (fun c => match digit_of_char c with Some _ => true | None => false end)
          (list_ascii_of_string s).

End PyStr.

(** ** Proleptic Gregorian calendar, as the date-time libraries compute it *)

Module Calendar.

Definition is_leap (y : Z) : bool :=
  ((y mod 4 =? 0) && negb (y mod 100 =? 0)) || (y mod 400 =? 0).

Definition days_in_month (y m : Z) : Z :=
  if m =? 2 then (if is_leap y then 29 else 28)
  else if (m =? 4) || (m =? 6) || (m =? 9) || (m =? 11) then 30 else 31.

Definition valid_date (y m d : Z) : bool :=
  (1 <=? m) && (m <=? 12) && (1 <=? d) && (d <=? days_in_month y m).

Definition valid_time (hh mi ss : Z) : bool :=
  (0 <=? hh) && (hh <? 24) && (0 <=? mi) && (mi <? 60) && (0 <=? ss) && (ss <? 60).

(** Day number of a civil date, day 0 being 1970-01-01. *)
Definition days_from_civil (y m d : Z) : Z :=
  let y' := if m <=? 2 then y - 1 else y in
  let era := y' / 400 in
  let yoe := y' - era * 400 in
  let mp := if 2 <? m then m - 3 else m + 9 in
  let doy := (153 * mp + 2) / 5 + d - 1 in
  let doe := yoe * 365 + yoe / 4 - yoe / 100 + doy in
  era * 146097 + doe - 719468.

(** Civil date of a day number. *)
Definition civil_from_days (z : Z) : Z * Z * Z :=
  let z' := z + 719468 in
  let era := z' / 146097 in
  let doe := z' - era * 146097 in
  let yoe := (doe - doe / 1460 + doe / 36524 - doe / 146096) / 365 in
  let y := yoe + era * 400 in
  let doy := doe - (365 * yoe + yoe / 4 - yoe / 100) in
  let mp := (5 * doy + 2) / 153 in
  let d := doy - (153 * mp + 2) / 5 + 1 in
  let m := if mp <? 10 then mp + 3 else mp - 9 in
  (if m <=? 2 then y + 1 else y, m, d).

End Calendar.

(** ** Exceptions and printed lines *)

Inductive exn : Set :=
| UnboundLocalError   (* a local name read before any assignment *)
| NameError           (* a free name of a lambda read before assignment *)
| IndexError          (* positional access out of bounds *)
| AttributeError      (* a column that the frame does not have *)
| TypeError           (* an operation on a cell that is [NaN], not a text *)
| ValueError.         (* a text that is no date or time; an empty [concat];
                         a frame assigned to a single column *)

(** A computation prints lines and then either raises or returns. *)
Definition Py (A : Type) : Type := list string * (exn + A).

Definition ret {A} (x : A) : Py A := ([], inr x).

Definition raise {A} (e : exn) : Py A := ([], inl e).

Definition print (line : string) : Py unit := ([line], inr tt).

Definition bind {A B} (c : Py A) (k : A -> Py B) : Py B :=
  match c with
  | (out, inl e) => (out, inl e)
  | (out, inr x) => let (out', r) := k x in ((out ++ out')%list, r)
  end.

Notation "x <- c ;; k" := (bind c (fun x => k))
  (at level 61, c at next level, right associativity).
Notation "c ;;; k" := (bind c (fun _ => k))
  (at level 61, right associativity).

(** [try: body  except: handler] with a bare [except]. *)
Definition try_except {A} (body handler : Py A) : Py A :=
  match body with
  | (out, inl _) => let (out', r) := handler in ((out ++ out')%list, r)
  | done => done
  end.

(** A value that a library call either produces or refuses with [e]. *)
Definition or_raise {A} (e : exn) (o : option A) : Py A :=
  match o with
  | Some x => ret x
  | None => raise e
  end.

(** [f] on every row, in row order; the first exception ends the whole loop.
    This is a [for] loop over the rows, and [DataFrame.apply(f, axis=1)] on a
    frame that has rows. *)
Fixpoint apply_rows {A B} (f : A -> Py B) (rows : list A) : Py (list B) :=
  match rows with
  | [] => ret []
  | r :: rest => y <- f r ;; ys <- apply_rows f rest ;; ret (y :: ys)
  end.

(** [df[c] = df.apply(f, axis=1)] (pandas 2).  On a frame without rows
    [apply] calls [f] once on a row of [NaN] cells, [probe] here, inside a
    [try]: when that call raises, [apply] hands back the empty frame instead
    of a column and the assignment refuses it with a [ValueError]; when it
    returns, the new column is empty. *)
Definition assign_apply {A B} (f : A -> Py B) (probe : Py B) (rows : list A) : Py (list B) :=
  match rows with
  | [] =>
      match probe with
      | (out, inl _) => (out, inl ValueError)
      | (out, inr _) => (out, inr [])
      end
  | _ => apply_rows f rows
  end.

Definition printed {A} (c : Py A) : list string := fst c.
Definition outcome {A} (c : Py A) : exn + A := snd c.

(** ** The pandas and dateutil calls that the scripts make *)

Module Pandas.

(** Whole seconds since 1970-01-01T00:00:00. *)
Abbreviation Timestamp := Z.

Definition Timedelta (seconds : Z) : Z := seconds.

Definition timestamp_of (y m d hh mi ss : Z) : Timestamp :=
  Calendar.days_from_civil y m d * 86400 + hh * 3600 + mi * 60 + ss.

Definition is_sep (seps : list ascii) (c : ascii) : bool :=
  existsb (Ascii.eqb c) seps.

(** A ten-character date [YYYY?MM?DD] with both separators from [seps]. *)
Definition read_date (seps : list ascii) (s : string) : option (Z * Z * Z) :=
  match list_ascii_of_string s with
  | [y1; y2; y3; y4; c1; m1; m2; c2; d1; d2] =>
      if is_sep seps c1 && is_sep seps c2 then
        match PyStr.num4 y1 y2 y3 y4, PyStr.num2 m1 m2, PyStr.num2 d1 d2 with
        | Some y, Some m, Some d =>
            if Calendar.valid_date y m d then Some (y, m, d) else None
        | _, _, _ => None
        end
      else None
  | _ => None
  end.

(** An eight-character clock time [HH:MM:SS]. *)
Definition read_time (s : string) : option (Z * Z * Z) :=
  match list_ascii_of_string s with
  | [h1; h2; c1; m1; m2; c2; s1; s2] =>
      if Ascii.eqb c1 ":" && Ascii.eqb c2 ":" then
        match PyStr.num2 h1 h2, PyStr.num2 m1 m2, PyStr.num2 s1 s2 with
        | Some hh, Some mi, Some ss =>
            if Calendar.valid_time hh mi ss then Some (hh, mi, ss) else None
        | _, _, _ => None
        end
      else None
  | _ => None
  end.

(** [pd.to_datetime(text)] and [pd.to_datetime(text, format='ISO8601')] on
    the ISO texts [YYYY-MM-DD], [YYYY-MM-DDTHH:MM:SS] and
    [YYYY-MM-DD HH:MM:SS], years 1678 to 2261.  [None]: the text is no such
    date (pandas raises) or lies outside what is modelled here. *)
Definition to_datetime (text : string) : option Timestamp :=
  match read_date ["-"%char] (PyStr.slice_to 10 text) with
  | Some (y, m, d) =>
      if (1678 <=? y) && (y <=? 2261) then
        match PyStr.slice_from 10 text with
        | EmptyString => Some (timestamp_of y m d 0 0 0)
        | String c clock =>
            if is_sep ["T"%char; " "%char] c then
              match read_time clock with
              | Some (hh, mi, ss) => Some (timestamp_of y m d hh mi ss)
              | None => None
              end
            else None
        end
      else None
  | None => None
  end.

(** [Timestamp.date()] *)
Definition date (t : Timestamp) : Z * Z * Z := Calendar.civil_from_days (t / 86400).

(** Seconds since midnight. *)
Definition time_of_day (t : Timestamp) : Z := t mod 86400.

(** [strftime('%Y-%m-%d')] *)
Definition strftime_Ymd (d : Z * Z * Z) : string :=
  let '(y, m, dd) := d in
  PyStr.fmt4 y ++ "-" ++ PyStr.fmt2 m ++ "-" ++ PyStr.fmt2 dd.

(** [strftime('%H:%M:%S')] *)
Definition strftime_HMS (t : Z * Z * Z) : string :=
  let '(hh, mi, ss) := t in
  PyStr.fmt2 hh ++ ":" ++ PyStr.fmt2 mi ++ ":" ++ PyStr.fmt2 ss.

(** [Timestamp.isoformat()] *)
Definition isoformat (t : Timestamp) : string :=
  let s := time_of_day t in
  strftime_Ymd (date t) ++ "T" ++ strftime_HMS (s / 3600, s / 60 mod 60, s mod 60).

(** Order of [datetime64] values against a search key: [NaT] sorts last. *)
Definition before_key (key : option Timestamp) (a : Timestamp) : bool :=
  match key with
  | Some k => a <? k
  | None => true
  end.

(** The binary search behind [Series.searchsorted(key)], [side='left']:
    the bounds close in on the first position whose entry is not before
    the key.  The column is not inspected for order. *)
Equations? binsearch_left (before : Timestamp -> bool) (arr : list Timestamp)
           (lo hi : nat) : nat by wf (hi - lo)%nat lt :=
  binsearch_left before arr lo hi with lt_dec lo hi := {
    | left _ =>
        if before (nth (lo + (hi - lo) / 2) arr 0)
        then binsearch_left before arr (S (lo + (hi - lo) / 2)) hi
        else binsearch_left before arr lo (lo + (hi - lo) / 2)
    | right _ => lo }.
Proof.
  all: change (fst (Nat.divmod (hi - lo) 1 0 1)) with ((hi - lo) / 2)%nat.
  all: assert ((hi - lo) / 2 < hi - lo)%nat by (apply Nat.div_lt; lia); lia.
Qed.

Definition searchsorted (column : list Timestamp) (key : option Timestamp) : nat :=
  binsearch_left (before_key key) column 0 (List.length column).

(** [Series.is_monotonic_increasing]: no entry is smaller than the one
    before it. *)
Fixpoint is_monotonic_increasing (column : list Timestamp) : bool :=
  match column with
  | a :: (b :: _) as rest => (a <=? b) && is_monotonic_increasing rest
  | _ => true
  end.

(** [df.iloc[i]] for [i >= 0] *)
Definition iloc {A} (rows : list A) (i : nat) : Py A :=
  or_raise IndexError (nth_error rows i).

(** [df.iloc[-1]] *)
Definition iloc_last {A} (rows : list A) : Py A :=
  or_raise IndexError (nth_error rows (List.length rows - 1)%nat).

(** [isnull] of one cell: [None] and [NaN] are null. *)
Definition isnull (cell : option float) : bool :=
  match cell with
  | None => true
  | Some x => PrimFloat.is_nan x
  end.

(** [Series.isnull().any()] *)
Definition any_null (cells : list (option float)) : bool := existsb isnull cells.

End Pandas.

Module Dateutil.

(** Calendar date and clock time of a [datetime.datetime]. *)
Record datetime : Set := mk_datetime {
  ymd : Z * Z * Z;
  hms : Z * Z * Z
}.

(** The day of the run; [parse] fills it in for a text that is a time only,
    and [row_to_time] never reads it. *)
Definition today : Z * Z * Z := (2024, 1, 1).

(** [dateutil.parser.parse(text)] on the texts of the two correction
    layouts: a date [YYYY-MM-DD] or [YYYY/MM/DD] (midnight), or a time
    [HH:MM:SS] with an optional fraction [.ddd], which [strftime] drops
    later on.  [None]: not such a text. *)
Definition parse (text : string) : option datetime :=
  match Pandas.read_date ["-"%char; "/"%char] text with
  | Some d => Some (mk_datetime d (0, 0, 0))
  | None =>
      match Pandas.read_time (PyStr.slice_to 8 text) with
      | Some t =>
          match PyStr.slice_from 8 text with
          | EmptyString => Some (mk_datetime today t)
          | String c frac =>
              if Ascii.eqb c "." && PyStr.all_digits frac
              then Some (mk_datetime today t) else None
          end
      | None => None
      end
  end.

End Dateutil.

(** ** Numbers under Python's arithmetic operators

    [degree_dms2dec] is written with [>=], [abs], [+], [/] and unary [-] only,
    so it runs on any number type.  The correction files give it binary64
    numbers; the rationals give the same text its exact reading. *)

Class PyNumber (A : Type) : Type := {
  num_lit : Z -> A;          (* an integer literal of the program text *)
  num_ge : A -> A -> bool;   (* [x >= y] *)
  num_abs : A -> A;          (* [abs(x)] *)
  num_add : A -> A -> A;     (* [x + y] *)
  num_div : A -> A -> A;     (* [x / y] *)
  num_neg : A -> A           (* [-x] *)
}.

(** The literals of the scripts are small and non-negative. *)
#[export] Instance float_PyNumber : PyNumber float := {|
  num_lit := fun n => PrimFloat.of_uint63 (Uint63.of_Z n);
  num_ge := fun x y => PrimFloat.leb y x;
  num_abs := PrimFloat.abs;
  num_add := PrimFloat.add;
  num_div := PrimFloat.div;
  num_neg := PrimFloat.opp
|}.

#[export] Instance Q_PyNumber : PyNumber Q := {|
  num_lit := inject_Z;
  num_ge := fun x y => Qle_bool y x;
  num_abs := Qabs;
  num_add := Qplus;
  num_div := Qdiv;
  num_neg := Qopp
|}.

(** The exact value of a finite binary64 number. *)
Definition Q_of_float (x : float) : option Q :=
  match Prim2SF x with
  | S754_zero _ => Some (0 # 1)
  | S754_finite s m e =>
      let v := (inject_Z (Z.pos m) * Qpower (2 # 1) e)%Q in
      Some (if s then Qopp v else v)
  | _ => None
  end.

(** ** The correction file *)

Module Emlid.

(** A row of [df_emlid], by the three columns that are read after loading. *)
Record reference_fix : Set := mk_fix {
  timestamp : Pandas.Timestamp;
  lat : float;
  lon : float
}.

(** A row of the PPK layout: columns 0, 1, 4 and 6, renamed. *)
Record ppk_row : Set := mk_ppk {
  date : string;
  time : string;
  ppk_lat : float;
  ppk_lon : float
}.

(** A row of the PPP layout, by the eight columns that are kept. *)
Record ppp_row : Set := mk_ppp {
  YEAR_MM_DD : string;
  HR_MN_SS_SS : string;
  LATDD : float;
  LATMN : float;
  LATSS : float;
  LONDD : float;
  LONMN : float;
  LONSS : float
}.

(** The file at [path_emlid], by what each of the two [read_csv] calls makes
    of it. *)
Record pos_file : Set := mk_pos_file {
  read_fixed : list ppk_row;     (* sep=' ', skiprows=9, usecols=[0,1,4,6] *)
  read_report : list ppp_row     (* delimiter='\s+', skiprows=3 *)
}.

Definition timestamps (df_emlid : list reference_fix) : list Pandas.Timestamp :=
  map timestamp df_emlid.

End Emlid.

(** ** run_magna_gps_correction.py *)

Module Magna.

Import Pandas.

Definition row_to_time (date_str time_str : string) : Py Timestamp :=
  date <- or_raise ValueError (Dateutil.parse date_str) ;;
  time <- or_raise ValueError (Dateutil.parse time_str) ;;
  or_raise ValueError
    (to_datetime (strftime_Ymd (Dateutil.ymd date) ++ "T" ++ strftime_HMS (Dateutil.hms time))).

Definition timestamp_magna (str_datetime thisUTCtime : string) : Py Timestamp :=
  let strtime := PyStr.slice_to 2 thisUTCtime ++ ":" ++ PyStr.slice 2 4 thisUTCtime
                 ++ ":" ++ PyStr.slice_from 4 thisUTCtime in
  parsed <- or_raise ValueError (to_datetime str_datetime) ;;
  let date := Pandas.date parsed in
  t <- or_raise ValueError (to_datetime (strftime_Ymd date ++ "T" ++ strtime)) ;;
  ret (t + Timedelta 18).

(** The key is an instant, or [NaT] when [apply] probes with a row of [NaN]
    cells. *)
Definition get_lat_emlid (timestamp_magna : option Timestamp) (df_emlid : list Emlid.reference_fix)
  : Py float :=
  row <- iloc df_emlid (searchsorted (Emlid.timestamps df_emlid) timestamp_magna) ;;
  ret (Emlid.lat row).

Definition get_lon_emlid (timestamp_magna : option Timestamp) (df_emlid : list Emlid.reference_fix)
  : Py float :=
  row <- iloc df_emlid (searchsorted (Emlid.timestamps df_emlid) timestamp_magna) ;;
  ret (Emlid.lon row).

Definition degree_dms2dec {A} `{PyNumber A} (dd mn ss : A) : A :=
  if num_ge dd (num_lit 0)
  then num_add (num_add dd (num_div mn (num_lit 60))) (num_div ss (num_lit 3600))
  else num_neg (num_add (num_add (num_abs dd) (num_div mn (num_lit 60)))
                        (num_div ss (num_lit 3600))).

(** A row of [df_magna], by the columns that the function reads; the other
    columns ride along untouched. *)
Record magna_row : Set := mk_magna_row {
  TIMESTAMP : string;
  ThisUTCtime : string;
  latitude_a : float;
  latitude_b : float;
  Longitude_a : float;
  Longitude_b : float
}.

(** A row handed to [to_csv]: the source row and the five added columns. *)
Record magna_out : Set := mk_magna_out {
  source : magna_row;
  timestamp_utc : Timestamp;
  lat_magna : float;
  lon_magna : float;
  lat_emlid : float;
  lon_emlid : float
}.

(** The PPK branch: the [timestamp] column is added to the rows as they
    are.  On the probe row [parse] gets a [NaN] and raises. *)
Definition load_fixed (rows : list Emlid.ppk_row) : Py (list Emlid.reference_fix) :=
  timestamp <- assign_apply (fun x => row_to_time (Emlid.date x) (Emlid.time x))
                            (raise TypeError) rows ;;
  ret (map (fun xt : Emlid.ppk_row * Timestamp =>
              Emlid.mk_fix (snd xt) (Emlid.ppk_lat (fst xt)) (Emlid.ppk_lon (fst xt)))
           (combine rows timestamp)).

(** The PPP branch: the [lat], [lon] and [timestamp] columns are added to the
    rows as they are.  On the probe row the conversion returns ([NaN]) and
    [parse] raises. *)
Definition load_report (rows : list Emlid.ppp_row) : Py (list Emlid.reference_fix) :=
  lat <- assign_apply
           (fun x => ret (degree_dms2dec (Emlid.LATDD x) (Emlid.LATMN x) (Emlid.LATSS x)))
           (ret (degree_dms2dec PrimFloat.nan PrimFloat.nan PrimFloat.nan)) rows ;;
  lon <- assign_apply
           (fun x => ret (degree_dms2dec (Emlid.LONDD x) (Emlid.LONMN x) (Emlid.LONSS x)))
           (ret (degree_dms2dec PrimFloat.nan PrimFloat.nan PrimFloat.nan)) rows ;;
  timestamp <- assign_apply
                 (fun x => row_to_time (Emlid.YEAR_MM_DD x) (Emlid.HR_MN_SS_SS x))
                 (raise TypeError) rows ;;
  ret (map (fun r : Timestamp * (float * float) =>
              Emlid.mk_fix (fst r) (fst (snd r)) (snd (snd r)))
           (combine timestamp (combine lat lon))).

(** The [if / elif / else] on [correction_file_type]; [None] is [df_emlid]
    left unassigned. *)
Definition read_correction (path_emlid : Emlid.pos_file) (correction_file_type : string)
  : Py (option (list Emlid.reference_fix)) :=
  if String.eqb correction_file_type "PPK_correction" then
    df <- load_fixed (Emlid.read_fixed path_emlid) ;; ret (Some df)
  else if String.eqb correction_file_type "PPP_correction" then
    df <- load_report (Emlid.read_report path_emlid) ;; ret (Some df)
  else
    print "enter a valid correction file" ;;; ret None.

(** [df_magna[(timestamp_utc > begin) & (timestamp_utc < end)]] *)
Definition trim (begin end_ : Timestamp) (df_magna : list (magna_row * Timestamp))
  : list (magna_row * Timestamp) :=
  filter (fun x => (begin <? snd x) && (snd x <? end_)) df_magna.

(** [except ValueError]: only that class is caught. *)
Definition except_ValueError {A} (body handler : Py A) : Py A :=
  match body with
  | (out, inl ValueError) => let (out', r) := handler in ((out ++ out')%list, r)
  | other => other
  end.

(** The text of the [ValueError] that the last [try] can meet. *)
Definition cannot_set_frame : string :=
  "Cannot set a DataFrame with multiple columns to the single column lat_emlid".

(** [path_magna] stands for the frame that [read_csv(...).dropna()] makes of
    the file.  The result is what [to_csv] wrote; [None] when the function
    returned without writing. *)
Definition magnaprobe_get_gps_correction
  (path_magna : list magna_row) (path_emlid : Emlid.pos_file)
  (output_csv_name correction_file_type : string) : Py (option (list magna_out)) :=
  let df_magna := path_magna in
  assigned <- read_correction path_emlid correction_file_type ;;
  df_emlid <- or_raise UnboundLocalError assigned ;;
  first <- iloc (Emlid.timestamps df_emlid) 0 ;;
  let begin := first in
  last <- iloc_last (Emlid.timestamps df_emlid) ;;
  let end_ := last in
  timestamp_utc <- assign_apply (fun x => timestamp_magna (TIMESTAMP x) (ThisUTCtime x))
                                (raise TypeError) df_magna ;;
  let df_magna := combine df_magna timestamp_utc in
  trimmed <- try_except (ret (Some (trim begin end_ df_magna)))
      (print "begin and end time of emlid do not match magnaprobe time" ;;; ret None) ;;
  df_magna_trim <- or_raise UnboundLocalError trimmed ;;
  except_ValueError
    (lats <- assign_apply (fun x => get_lat_emlid (Some (snd x)) df_emlid)
                          (get_lat_emlid None df_emlid) df_magna_trim ;;
     lons <- assign_apply (fun x => get_lon_emlid (Some (snd x)) df_emlid)
                          (get_lon_emlid None df_emlid) df_magna_trim ;;
     let df_magna_clean :=
       map (fun r : (magna_row * Timestamp) * (float * float) =>
              let '((x, t), (la, lo)) := r in
              mk_magna_out x t
                (latitude_a x + latitude_b x / 60)%float
                (Longitude_a x + Longitude_b x / 60)%float
                la lo)
           (combine df_magna_trim (combine lats lons)) in
     print ("output csv file named : " ++ output_csv_name) ;;;
     ret (Some df_magna_clean))
    (print "failed to retrieve lat/lon /n" ;;;
     print ("Error found : " ++ cannot_set_frame) ;;;
     ret None).

End Magna.

(** ** run_smp_gps_correction.py *)

Module Smp.

Import Pandas.

(** [row_to_time] and [degree_dms2dec] have the same text in both scripts. *)
Definition row_to_time : string -> string -> Py Timestamp := Magna.row_to_time.

Definition degree_dms2dec {A} `{PyNumber A} : A -> A -> A -> A := Magna.degree_dms2dec.

Definition get_lat_emlid (timestamp_magna : option Timestamp) (df_emlid : list Emlid.reference_fix)
  : Py (option float) :=
  try_except
    (row <- iloc df_emlid (searchsorted (Emlid.timestamps df_emlid) timestamp_magna) ;;
     ret (Some (Emlid.lat row)))
    (ret None).

Definition get_lon_emlid (timestamp_magna : option Timestamp) (df_emlid : list Emlid.reference_fix)
  : Py (option float) :=
  try_except
    (row <- iloc df_emlid (searchsorted (Emlid.timestamps df_emlid) timestamp_magna) ;;
     ret (Some (Emlid.lon row)))
    (ret None).

(** An entry of [os.listdir(path_smp_dir)] with what [Profile.load] reads
    from it: the instant of the measurement ([None]: no instant) and the
    probe's own coordinates, when it has them. *)
Record profile : Set := mk_profile {
  file : string;
  p_timestamp : option Timestamp;
  coordinates : option (float * float)
}.

(** A row of [smp_df]. *)
Record smp_row : Set := mk_smp_row {
  name : string;
  timestamp : option Timestamp;
  lat : option float;
  lon : option float
}.

(** A row of [df_smp_excel] once the two looked-up columns are set. *)
Record smp_out : Set := mk_smp_out {
  event : smp_row;
  lat_emlid : option float;
  lon_emlid : option float
}.

(** The spreadsheet at [output_csv_file]: its path and its [file] column,
    every cell under [str]. *)
Record excel_file : Set := mk_excel_file {
  path : string;
  files : list string
}.

(** What [to_excel] writes: the catalogue rows and, beside them from the top,
    the matched rows. *)
Record improved : Set := mk_improved {
  written_to : string;
  left_columns : list string;
  right_columns : list smp_out
}.

(** The loop over [os.listdir]. *)
Definition load_profiles (path_smp_dir : list profile) : list smp_row :=
  map (fun p =>
         mk_smp_row (file p)
           (option_map (fun t => t + Timedelta 18) (p_timestamp p))
           (option_map fst (coordinates p))
           (option_map snd (coordinates p)))
      (filter (fun p => PyStr.str_in ".PNT" (file p) || PyStr.str_in ".pnt" (file p))
              path_smp_dir).

(** The two tests on [correction_file_type]: an [if], then an [if / else]. *)
Definition read_correction (path_emlid : Emlid.pos_file) (correction_file_type : string)
  : Py (option (list Emlid.reference_fix)) :=
  after_first <-
    (if String.eqb correction_file_type "PPK_correction" then
       df <- Magna.load_fixed (Emlid.read_fixed path_emlid) ;; ret (Some df)
     else ret None) ;;
  if String.eqb correction_file_type "PPP_correction" then
    df <- Magna.load_report (Emlid.read_report path_emlid) ;; ret (Some df)
  else
    print "enter a valid correction file" ;;; ret after_first.

(** [smp_df[[str(row.file) in name[-8:] for name in smp_df.name.values]]];
    a frame made from no rows has no [name] column. *)
Definition matching_row (smp_df : list smp_row) (row_file : string) : Py (list smp_row) :=
  match smp_df with
  | [] => raise AttributeError
  | _ => ret (filter (fun r => PyStr.str_in row_file (PyStr.last_chars 8 (name r))) smp_df)
  end.

(** [pd.concat(list_rows, ignore_index=True)] *)
Definition pd_concat (list_rows : list (list smp_row)) : Py (list smp_row) :=
  match list_rows with
  | [] => raise ValueError
  | _ => ret (List.concat list_rows)
  end.

Definition when (b : bool) (line : string) : Py unit :=
  if b then print line else ret tt.

Definition smp_get_gps_correction
  (path_smp_dir : list profile) (path_emlid : Emlid.pos_file)
  (output_csv_file : excel_file) (correction_file_type : string) : Py improved :=
  let smp_df := load_profiles path_smp_dir in
  assigned <- read_correction path_emlid correction_file_type ;;
  let df_excel := files output_csv_file in
  list_rows <- apply_rows (matching_row smp_df) df_excel ;;
  df_smp_excel <- pd_concat list_rows ;;
  when (negb (Nat.eqb (List.length df_smp_excel) (List.length df_excel)))
       "Some files from the excel sheet are missing in the directory, check files!" ;;;
  lats <- assign_apply
            (fun x => df_emlid <- or_raise NameError assigned ;;
                      get_lat_emlid (timestamp x) df_emlid)
            (df_emlid <- or_raise NameError assigned ;; get_lat_emlid None df_emlid)
            df_smp_excel ;;
  lons <- assign_apply
            (fun x => df_emlid <- or_raise NameError assigned ;;
                      get_lon_emlid (timestamp x) df_emlid)
            (df_emlid <- or_raise NameError assigned ;; get_lon_emlid None df_emlid)
            df_smp_excel ;;
  when (any_null lats || any_null lats)
       "Some position could not be matched, check excel file" ;;;
  let df_update :=
    mk_improved
      (PyStr.slice_to (String.length (path output_csv_file) - 5) (path output_csv_file)
       ++ "_improved.xlsx")
      df_excel
      (map (fun r : smp_row * (option float * option float) =>
              mk_smp_out (fst r) (fst (snd r)) (snd (snd r)))
           (combine df_smp_excel (combine lats lons))) in
  print ("the excel file : " ++ path output_csv_file ++ " was created with updated position") ;;;
  ret df_update.

End Smp.

(** ** Closed forms

    What the loops and [apply] calls of the two main functions compute, written
    without the exception plumbing; the properties below relate the functions
    to these. *)

Module Closed.

(** The row that a look-up reads, if there is one. *)
Definition nearest (df_emlid : list Emlid.reference_fix) (key : option Z)
  : option Emlid.reference_fix :=
  nth_error df_emlid (Pandas.searchsorted (Emlid.timestamps df_emlid) key).

(** The key is [NaT] or later than every fix of the track. *)
Definition beyond_track (df_emlid : list Emlid.reference_fix) (key : option Z) : bool :=
  match key with
  | None => true
  | Some q => forallb (fun f => Emlid.timestamp f <? q) df_emlid
  end.

(** The events that an entry of the catalogue selects. *)
Definition selected (smp_df : list Smp.smp_row) (row_file : string) : list Smp.smp_row :=
  filter (fun r => PyStr.str_in row_file (PyStr.last_chars 8 (Smp.name r))) smp_df.

(** [df_smp_excel]: the selections of all entries, one after the other. *)
Definition df_smp_excel (smp_df : list Smp.smp_row) (df_excel : list string)
  : list Smp.smp_row :=
  List.concat (map (selected smp_df) df_excel).

(** A row of [df_smp_excel] with its two looked-up cells. *)
Definition looked_up (df_emlid : list Emlid.reference_fix) (x : Smp.smp_row) : Smp.smp_out :=
  Smp.mk_smp_out x
    (option_map Emlid.lat (nearest df_emlid (Smp.timestamp x)))
    (option_map Emlid.lon (nearest df_emlid (Smp.timestamp x))).

(** The track of the PPK branch for rows whose instants are [ts]. *)
Definition fixes_fixed (rows : list Emlid.ppk_row) (ts : list Z) : list Emlid.reference_fix :=
  map (fun xt : Emlid.ppk_row * Z =>
         Emlid.mk_fix (snd xt) (Emlid.ppk_lat (fst xt)) (Emlid.ppk_lon (fst xt)))
      (combine rows ts).

(** The track of the PPP branch for rows whose instants are [ts]. *)
Definition fixes_report (rows : list Emlid.ppp_row) (ts : list Z) : list Emlid.reference_fix :=
  map (fun xt : Emlid.ppp_row * Z =>
         let x := fst xt in
         Emlid.mk_fix (snd xt)
           (Magna.degree_dms2dec (Emlid.LATDD x) (Emlid.LATMN x) (Emlid.LATSS x))
           (Magna.degree_dms2dec (Emlid.LONDD x) (Emlid.LONMN x) (Emlid.LONSS x)))
      (combine rows ts).

(** The two lines that the stream script prints when its last [try] meets
    a [ValueError]. *)
Definition failed_lines : list string :=
  ["failed to retrieve lat/lon /n"; "Error found : " ++ Magna.cannot_set_frame].

(** The record and instant that a written row carries. *)
Definition record_of (o : Magna.magna_out) : Magna.magna_row * Z :=
  (Magna.source o, Magna.timestamp_utc o).

Definition output_named (output_csv_name : string) : string :=
  "output csv file named : " ++ output_csv_name.

(** A six-digit [HHMMSS] text of a valid clock time, read as hours, minutes
    and seconds. *)
Definition hhmmss (text : string) : option (Z * Z * Z) :=
  match list_ascii_of_string text with
  | [h1; h2; m1; m2; s1; s2] =>
      match PyStr.num2 h1 h2, PyStr.num2 m1 m2, PyStr.num2 s1 s2 with
      | Some hh, Some mi, Some ss =>
          if Calendar.valid_time hh mi ss then Some (hh, mi, ss) else None
      | _, _, _ => None
      end
  | _ => None
  end.

Definition missing_files : string :=
  "Some files from the excel sheet are missing in the directory, check files!".

Definition not_matched : string :=
  "Some position could not be matched, check excel file".

Definition created (path : string) : string :=
  "the excel file : " ++ path ++ " was created with updated position".

Definition improved_name (path : string) : string :=
  PyStr.slice_to (String.length path - 5) path ++ "_improved.xlsx".

Definition lines_if (b : bool) (line : string) : list string :=
  if b then [line] else [].

End Closed.

(** ** Sample inputs *)

Module Sample.

(** Two fixes, at 10:00:00 and 10:00:10 of 1970-01-01. *)
Definition track_10h : list Emlid.reference_fix :=
  [Emlid.mk_fix 36000 45%float (-75)%float; Emlid.mk_fix 36010 45.5%float (-75.5)%float].

(** A PPK file of two rows, 17:11:00 and 17:12:00 of 2023-12-15. *)
Definition pos_ppk : Emlid.pos_file :=
  Emlid.mk_pos_file
    [Emlid.mk_ppk "2023/12/15" "17:11:00.000" 45%float (-75)%float;
     Emlid.mk_ppk "2023/12/15" "17:12:00.200" 45.5%float (-75.5)%float]
    [].

(** The track that the PPK branch makes of [pos_ppk]. *)
Definition track_ppk : list Emlid.reference_fix :=
  [Emlid.mk_fix 1702660260 45%float (-75)%float;
   Emlid.mk_fix 1702660320 45.5%float (-75.5)%float].

(** Three measurement files: one taken at 17:11:19, inside the track, one
    taken hours later, and one without an instant. *)
Definition profiles : list Smp.profile :=
  [Smp.mk_profile "S43M0001.pnt" (Some 1702660279) None;
   Smp.mk_profile "S43M0002.pnt" (Some 1702670000) None;
   Smp.mk_profile "S43M0003.pnt" None None].

Definition catalogue : Smp.excel_file :=
  Smp.mk_excel_file "smp.xlsx" ["0001"; "0002"; "0003"].

(** A PPP file of the same two instants, coordinates in degrees, minutes
    and seconds. *)
Definition pos_ppp : Emlid.pos_file :=
  Emlid.mk_pos_file
    []
    [Emlid.mk_ppp "2023-12-15" "17:11:00.00" 45%float 0%float 0%float
                  (-75)%float 0%float 0%float;
     Emlid.mk_ppp "2023-12-15" "17:12:00.00" 45%float 30%float 0%float
                  (-75)%float 30%float 0%float].

(** Two measurement files whose names end alike, and a catalogue of two
    entries: the first entry selects both files, the second none. *)
Definition profiles_alike : list Smp.profile :=
  [Smp.mk_profile "S43M0001.pnt" (Some 1702660279) None;
   Smp.mk_profile "S44M0001.pnt" (Some 1702660289) None].

Definition catalogue_two : Smp.excel_file :=
  Smp.mk_excel_file "smp.xlsx" ["0001"; "0002"].

(** A PPK file whose second row has an empty longitude field, which
    [read_csv] reads as [NaN]. *)
Definition pos_ppk_blank : Emlid.pos_file :=
  Emlid.mk_pos_file
    [Emlid.mk_ppk "2023/12/15" "17:11:00.000" 45%float (-75)%float;
     Emlid.mk_ppk "2023/12/15" "17:12:00.200" 45.5%float PrimFloat.nan]
    [].

Definition profile_one : list Smp.profile :=
  [Smp.mk_profile "S43M0001.pnt" (Some 1702660279) None].

Definition catalogue_one : Smp.excel_file :=
  Smp.mk_excel_file "smp.xlsx" ["0001"].

(** Four stream records of 2023-12-15 whose instants, 18 seconds added, are
    17:11:00 (the first fix), 17:11:37, 17:12:00 (the last fix) and
    17:12:07. *)
Definition stream : list Magna.magna_row :=
  [Magna.mk_magna_row "2023-12-15 17:10:40" "171042" 45%float 30%float 75%float 30%float;
   Magna.mk_magna_row "2023-12-15 17:11:17" "171119" 45%float 30%float 75%float 30%float;
   Magna.mk_magna_row "2023-12-15 17:11:40" "171142" 45%float 30%float 75%float 30%float;
   Magna.mk_magna_row "2023-12-15 17:11:47" "171149" 45%float 30%float 75%float 30%float].

(** The two rows of [pos_ppk] and of [pos_ppp] in the opposite order. *)
Definition pos_backwards : Emlid.pos_file :=
  Emlid.mk_pos_file
    [Emlid.mk_ppk "2023/12/15" "17:12:00.200" 45.5%float (-75.5)%float;
     Emlid.mk_ppk "2023/12/15" "17:11:00.000" 45%float (-75)%float]
    [Emlid.mk_ppp "2023-12-15" "17:12:00.00" 45%float 30%float 0%float
                  (-75)%float 30%float 0%float;
     Emlid.mk_ppp "2023-12-15" "17:11:00.00" 45%float 0%float 0%float
                  (-75)%float 0%float 0%float].

End Sample.

(** ** More closed forms *)

Module Closed2.

(** The computation ended by returning, not by raising. *)
Definition returned {A} (c : Py A) : bool :=
  match outcome c with inr _ => true | inl _ => false end.

(** What the bare [except] of a [__main__] block makes of the outcome of the
    function it wraps. *)
Definition as_ValueError {A} (r : exn + A) : exn + A :=
  match r with inl _ => inl ValueError | inr x => inr x end.

End Closed2.

(** ** The two scripts run from the command line *)

Module Script.

(** The [__main__] block of [run_magna_gps_correction.py]; [filemagna] is the
    path given with [-m] and [path_magna] what is read there. *)
Definition magna_main
  (filemagna : string) (path_magna : list Magna.magna_row) (filepos : Emlid.pos_file)
  (newfile correction : string) : Py (option (list Magna.magna_out)) :=
  print ("processing the file " ++ filemagna) ;;;
  try_except
    (Magna.magnaprobe_get_gps_correction path_magna filepos newfile correction)
    (raise ValueError).

(** The [__main__] block of [run_smp_gps_correction.py]; [dir] is the path
    given with [-d] and [path_smp_dir] what is found there. *)
Definition smp_main
  (dir : string) (path_smp_dir : list Smp.profile) (filepos : Emlid.pos_file)
  (excel : Smp.excel_file) (correction : string) : Py Smp.improved :=
  print ("processing the directory " ++ dir) ;;;
  try_except
    (Smp.smp_get_gps_correction path_smp_dir filepos excel correction)
    (raise ValueError).

End Script.

(** ** More sample inputs *)

Module Sample2.

(** Three fixes in ascending order. *)
Definition track_three : list Emlid.reference_fix :=
  [Emlid.mk_fix 100 45%float (-75)%float;
   Emlid.mk_fix 110 45.5%float (-75.5)%float;
   Emlid.mk_fix 120 46%float (-76)%float].

(** Two measurement files and a catalogue that names each of them once. *)
Definition profiles_two : list Smp.profile :=
  [Smp.mk_profile "S43M0001.pnt" (Some 1702660279) None;
   Smp.mk_profile "S43M0002.pnt" (Some 1702660289) None].

Definition catalogue_each : Smp.excel_file :=
  Smp.mk_excel_file "smp.xlsx" ["0001"; "0002"].

(** A PPK file with one row. *)
Definition pos_single : Emlid.pos_file :=
  Emlid.mk_pos_file
    [Emlid.mk_ppk "2023/12/15" "17:11:00.000" 45%float (-75)%float]
    [].

(** Two fixes, the later one first. *)
Definition track_backwards : list Emlid.reference_fix :=
  [Emlid.mk_fix 1702660320 45.5%float (-75.5)%float;
   Emlid.mk_fix 1702660260 45%float (-75)%float].

(** Three fixes in ascending order, the first two of one instant, as two
    fixes logged within one second are once the fraction is dropped. *)
Definition track_ties : list Emlid.reference_fix :=
  [Emlid.mk_fix 10 45%float (-75)%float;
   Emlid.mk_fix 10 46%float (-76)%float;
   Emlid.mk_fix 20 47%float (-77)%float].

End Sample2.

(** * Properties *)

(** ** Printing and raising *)

Lemma bind_ret {A B} (x : A) (k : A -> Py B) : bind (ret x) k = k x.
Proof. unfold bind, ret. destruct (k x) as [out r]. reflexivity. Qed.

Lemma bind_returned {A B} out (x : A) (k : A -> Py B) :
  bind (out, inr x) k = ((out ++ fst (k x))%list, snd (k x)).
Proof. unfold bind. destruct (k x). reflexivity. Qed.

Lemma apply_rows_ret {A B} (f : A -> Py B) (g : A -> B) rows :
  (forall x, In x rows -> f x = ret (g x)) ->
  apply_rows f rows = ret (map g rows).
Proof.
  induction rows as [| r rest IH]; intros Hf; [reflexivity |].
  cbn [apply_rows map]. rewrite (Hf r) by (left; reflexivity).
  rewrite bind_ret, IH by (intros x Hx; apply Hf; right; exact Hx).
  rewrite !bind_ret. reflexivity.
Qed.

Lemma apply_rows_Forall2 {A B} (f : A -> Py B) rows ys :
  Forall2 (fun x y => f x = ret y) rows ys -> apply_rows f rows = ret ys.
Proof.
  induction 1 as [| x y rows ys Hxy _ IH]; [reflexivity |].
  cbn [apply_rows]. rewrite Hxy, bind_ret, IH, !bind_ret. reflexivity.
Qed.

Lemma apply_rows_raises {A B} (f : A -> Py B) rows e :
  rows <> [] -> (forall x, f x = raise e) -> apply_rows f rows = raise e.
Proof.
  destruct rows as [| r rest]; [congruence |]. intros _ Hf.
  cbn [apply_rows]. rewrite Hf. reflexivity.
Qed.

Lemma assign_apply_rows {A B} (f : A -> Py B) probe rows :
  rows <> [] -> assign_apply f probe rows = apply_rows f rows.
Proof. destruct rows; [congruence | reflexivity]. Qed.

Lemma assign_apply_ret {A B} (f : A -> Py B) (g : A -> B) probe v rows :
  probe = ret v ->
  (forall x, In x rows -> f x = ret (g x)) ->
  assign_apply f probe rows = ret (map g rows).
Proof.
  intros Hp Hf. destruct rows as [| r rest]; [rewrite Hp; reflexivity |].
  rewrite assign_apply_rows by discriminate. apply apply_rows_ret. exact Hf.
Qed.

Lemma assign_apply_Forall2 {A B} (f : A -> Py B) probe rows ys :
  rows <> [] ->
  Forall2 (fun x y => f x = ret y) rows ys -> assign_apply f probe rows = ret ys.
Proof.
  intros Hne H. rewrite assign_apply_rows by exact Hne. apply apply_rows_Forall2. exact H.
Qed.

Lemma combine_map_pair {A B C} (f : A -> B) (g : A -> C) (l : list A) :
  combine l (combine (map f l) (map g l)) = map (fun x => (x, (f x, g x))) l.
Proof. induction l as [| a l IH]; [reflexivity |]. cbn. rewrite IH. reflexivity. Qed.

(** ** Dates and day numbers *)

(** The year of a 400-year era is recovered from the day of the era. *)
Lemma yoe_of_doe yoe doy :
  0 <= yoe < 400 -> 0 <= doy ->
  doy <= 364 + (if ((yoe mod 4 =? 3) && negb (yoe mod 100 =? 99)) || (yoe =? 399)
                then 1 else 0) ->
  let doe := yoe * 365 + yoe / 4 - yoe / 100 + doy in
  (doe - doe / 1460 + doe / 36524 - doe / 146096) / 365 = yoe.
Proof.
  intros Hy Hd Hd' doe. subst doe.
  destruct (yoe mod 4 =? 3) eqn:E4; destruct (yoe mod 100 =? 99) eqn:E100;
  destruct (yoe =? 399) eqn:E399; cbn in Hd'.
  all: Z.to_euclidean_division_equations; lia.
Qed.

(** Month (counted from March) and day of the month are recovered from the
    day of the year (counted from 1 March). *)
Lemma mp_of_doy mp d :
  0 <= mp < 12 -> 1 <= d <= 31 ->
  (mp = 1 \/ mp = 3 \/ mp = 6 \/ mp = 8 -> d <= 30) ->
  (mp = 11 -> d <= 29) ->
  let doy := (153 * mp + 2) / 5 + d - 1 in
  (5 * doy + 2) / 153 = mp /\ doy - (153 * mp + 2) / 5 + 1 = d.
Proof.
  intros Hmp Hd H30 H29 doy. subst doy.
  assert (Hc : mp = 0 \/ mp = 1 \/ mp = 2 \/ mp = 3 \/ mp = 4 \/ mp = 5 \/ mp = 6
               \/ mp = 7 \/ mp = 8 \/ mp = 9 \/ mp = 10 \/ mp = 11) by lia.
  repeat (destruct Hc as [Hc | Hc]); subst mp;
    (split; [Z.to_euclidean_division_equations; lia | lia]).
Qed.

(** The civil date of the day number of a valid date is that date. *)
Lemma civil_roundtrip y m d :
  Calendar.valid_date y m d = true ->
  Calendar.civil_from_days (Calendar.days_from_civil y m d) = (y, m, d).
Proof.
  unfold Calendar.valid_date. intros H.
  apply andb_prop in H. destruct H as [H H0].
  apply andb_prop in H. destruct H as [H H1].
  apply andb_prop in H. destruct H as [H H2].
  apply Z.leb_le in H, H0, H1, H2.
  unfold Calendar.days_from_civil.
  set (y' := if m <=? 2 then y - 1 else y).
  set (era := y' / 400).
  set (yoe := y' - era * 400).
  set (mp := if 2 <? m then m - 3 else m + 9).
  set (doy := (153 * mp + 2) / 5 + d - 1).
  set (doe := yoe * 365 + yoe / 4 - yoe / 100 + doy).
  assert (Hyoe : 0 <= yoe < 400) by (subst yoe era; Z.to_euclidean_division_equations; lia).
  assert (Hmp : 0 <= mp < 12 /\ (if mp <? 10 then mp + 3 else mp - 9) = m).
  { subst mp. destruct (2 <? m) eqn:E; [apply Z.ltb_lt in E | apply Z.ltb_ge in E].
    - destruct (m - 3 <? 10) eqn:E'; [apply Z.ltb_lt in E' | apply Z.ltb_ge in E']; lia.
    - destruct (m + 9 <? 10) eqn:E'; [apply Z.ltb_lt in E' | apply Z.ltb_ge in E']; lia. }
  destruct Hmp as (Hmp & Hm).
  assert (Hdim : 1 <= d <= 31 /\ (mp = 1 \/ mp = 3 \/ mp = 6 \/ mp = 8 -> d <= 30)
                 /\ (mp = 11 -> d <= 28 + (if Calendar.is_leap y then 1 else 0))).
  { unfold Calendar.days_in_month in H0. subst mp.
    destruct (2 <? m) eqn:E; [apply Z.ltb_lt in E | apply Z.ltb_ge in E].
    - destruct (m =? 2) eqn:E2; [apply Z.eqb_eq in E2; lia|].
      destruct ((m =? 4) || (m =? 6) || (m =? 9) || (m =? 11)) eqn:E3.
      + repeat split; try lia.
      + repeat split; try lia.
    - destruct (m =? 2) eqn:E2; [apply Z.eqb_eq in E2 | apply Z.eqb_neq in E2].
      + subst m. destruct (Calendar.is_leap y); repeat split; lia.
      + assert (m = 1) by lia. subst m. cbn in H0. repeat split; lia. }
  destruct Hdim as (Hd & H30 & H29).
  assert (Hleap : mp = 11 ->
                  Calendar.is_leap y
                  = (((yoe mod 4 =? 3) && negb (yoe mod 100 =? 99)) || (yoe =? 399))).
  { intros Hc. assert (m = 2) as Hm2.
    { unfold mp in Hc.
      destruct (2 <? m) eqn:E; [apply Z.ltb_lt in E | apply Z.ltb_ge in E]; lia. }
    unfold yoe, era, y'. rewrite Hm2. change (2 <=? 2) with true. cbv iota.
    unfold Calendar.is_leap.
    apply eq_true_iff_eq.
    rewrite !orb_true_iff, !andb_true_iff, !negb_true_iff, !Z.eqb_eq, !Z.eqb_neq.
    Z.to_euclidean_division_equations; lia. }
  destruct (mp_of_doy mp d Hmp Hd H30) as [Hmp' Hd'].
  { intros Hc. specialize (H29 Hc). destruct (Calendar.is_leap y); lia. }
  fold doy in Hmp', Hd'.
  assert (Hdoy : 0 <= doy /\ doy <= 364 +
     (if ((yoe mod 4 =? 3) && negb (yoe mod 100 =? 99)) || (yoe =? 399) then 1 else 0)).
  { assert (mp = 11 \/ mp <= 10) as [Hc | Hc] by lia.
    - rewrite <- (Hleap Hc). specialize (H29 Hc). subst doy. rewrite Hc.
      change ((153 * 11 + 2) / 5) with 337. destruct (Calendar.is_leap y); lia.
    - assert (0 <= doy <= 364).
      { subst doy. clear - Hmp Hc Hd. Z.to_euclidean_division_equations; lia. }
      destruct ((yoe mod 4 =? 3) && negb (yoe mod 100 =? 99) || (yoe =? 399)); lia. }
  destruct Hdoy as [Hdoy0 Hdoy1].
  pose proof (yoe_of_doe yoe doy Hyoe Hdoy0 Hdoy1) as Hy. cbv zeta in Hy. fold doe in Hy.
  assert (Hdoe : 0 <= doe < 146097).
  { subst doe. clear - Hyoe Hdoy0 Hdoy1.
    destruct ((yoe mod 4 =? 3) && negb (yoe mod 100 =? 99) || (yoe =? 399)) eqn:E.
    - Z.to_euclidean_division_equations; lia.
    - Z.to_euclidean_division_equations; lia. }
  unfold Calendar.civil_from_days.
  replace (era * 146097 + doe - 719468 + 719468) with (doe + era * 146097) by lia.
  rewrite Z.div_add by lia. rewrite (Z.div_small doe) by lia.
  replace (doe + era * 146097 - (0 + era) * 146097) with doe by lia.
  rewrite Hy.
  replace (doe - (365 * yoe + yoe / 4 - yoe / 100)) with doy by (subst doe; lia).
  rewrite Hmp', Hd', Hm.
  f_equal. f_equal. subst yoe y'. destruct (m <=? 2); lia.
Qed.

(** ** Texts and instants *)

Lemma digit_roundtrip d :
  0 <= d <= 9 -> PyStr.digit_of_char (PyStr.char_of_digit d) = Some d.
Proof.
  intros H.
  assert (E : d = 0 \/ d = 1 \/ d = 2 \/ d = 3 \/ d = 4 \/ d = 5 \/ d = 6 \/ d = 7
              \/ d = 8 \/ d = 9) by lia.
  repeat (destruct E as [E | E]); subst d; reflexivity.
Qed.

Lemma num2_fmt2 n :
  0 <= n < 100 ->
  PyStr.num2 (PyStr.char_of_digit (n / 10 mod 10)) (PyStr.char_of_digit (n mod 10)) = Some n.
Proof.
  intros H. unfold PyStr.num2.
  rewrite !digit_roundtrip by (Z.to_euclidean_division_equations; lia).
  f_equal. Z.to_euclidean_division_equations; lia.
Qed.

Lemma num4_fmt4 n :
  0 <= n < 10000 ->
  PyStr.num4 (PyStr.char_of_digit (n / 100 / 10 mod 10)) (PyStr.char_of_digit (n / 100 mod 10))
             (PyStr.char_of_digit (n mod 100 / 10 mod 10))
             (PyStr.char_of_digit (n mod 100 mod 10)) = Some n.
Proof.
  intros H. unfold PyStr.num4.
  rewrite !num2_fmt2 by (Z.to_euclidean_division_equations; lia).
  f_equal. Z.to_euclidean_division_equations; lia.
Qed.

Lemma valid_date_bounds y m d :
  Calendar.valid_date y m d = true -> 1 <= m <= 12 /\ 1 <= d <= 31.
Proof.
  unfold Calendar.valid_date, Calendar.days_in_month. intros H.
  repeat (apply andb_prop in H; destruct H as [H ?]).
  apply Z.leb_le in H, H0, H1, H2.
  destruct (m =? 2); [destruct (Calendar.is_leap y) |
                      destruct ((m =? 4) || (m =? 6) || (m =? 9) || (m =? 11))]; lia.
Qed.

Lemma valid_time_bounds hh mi ss :
  Calendar.valid_time hh mi ss = true -> 0 <= hh < 24 /\ 0 <= mi < 60 /\ 0 <= ss < 60.
Proof.
  unfold Calendar.valid_time. intros H.
  repeat (apply andb_prop in H; destruct H as [H ?]).
  apply Z.leb_le in H, H1, H3. apply Z.ltb_lt in H0, H2, H4. lia.
Qed.

(** The date of an instant built from a date and a clock time is that date. *)
Lemma date_timestamp_of y m d hh mi ss :
  Calendar.valid_date y m d = true ->
  Calendar.valid_time hh mi ss = true ->
  Pandas.date (Pandas.timestamp_of y m d hh mi ss) = (y, m, d)
  /\ Pandas.time_of_day (Pandas.timestamp_of y m d hh mi ss) = hh * 3600 + mi * 60 + ss.
Proof.
  intros Hd Ht. apply valid_time_bounds in Ht.
  unfold Pandas.date, Pandas.time_of_day, Pandas.timestamp_of.
  set (n := Calendar.days_from_civil y m d).
  assert (E : (n * 86400 + hh * 3600 + mi * 60 + ss) / 86400 = n)
    by (Z.to_euclidean_division_equations; lia).
  rewrite E. split; [apply civil_roundtrip; exact Hd |].
  Z.to_euclidean_division_equations; lia.
Qed.

(** The ISO text of a date and a clock time reads back as their instant. *)
Lemma to_datetime_of_text y m d h1 h2 m1 m2 s1 s2 hh mi ss :
  Calendar.valid_date y m d = true ->
  1678 <= y <= 2261 ->
  PyStr.num2 h1 h2 = Some hh -> PyStr.num2 m1 m2 = Some mi -> PyStr.num2 s1 s2 = Some ss ->
  Calendar.valid_time hh mi ss = true ->
  Pandas.to_datetime
    (Pandas.strftime_Ymd (y, m, d) ++ "T"
     ++ String h1 (String h2 (String ":" (String m1 (String m2
          (String ":" (String s1 (String s2 ""))))))))
  = Some (Pandas.timestamp_of y m d hh mi ss).
Proof.
  intros Hd Hy Hh Hm Hs Ht.
  pose proof (valid_date_bounds y m d Hd) as Hb.
  unfold Pandas.to_datetime, Pandas.strftime_Ymd, PyStr.fmt4, PyStr.fmt2,
    PyStr.slice_to, PyStr.slice_from.
  cbn [String.append substring String.length Nat.sub list_ascii_of_string
       Pandas.read_date Pandas.read_time].
  change (Pandas.is_sep ["-"%char] "-") with true.
  change (Pandas.is_sep ["T"%char; " "%char] "T") with true.
  change (Ascii.eqb ":" ":") with true.
  cbn [andb].
  rewrite num4_fmt4 by lia. rewrite !num2_fmt2 by lia.
  rewrite Hd.
  replace ((1678 <=? y) && (y <=? 2261)) with true
    by (symmetry; apply andb_true_iff; split; apply Z.leb_le; lia).
  rewrite Hh, Hm, Hs, Ht. reflexivity.
Qed.

Lemma read_date_valid seps s y m d :
  Pandas.read_date seps s = Some (y, m, d) -> Calendar.valid_date y m d = true.
Proof.
  unfold Pandas.read_date.
  destruct (list_ascii_of_string s) as [| y1 l]; [discriminate |].
  do 9 (destruct l as [| ? l]; [discriminate |]).
  destruct l; [| discriminate].
  destruct (_ && _); [| discriminate].
  destruct (PyStr.num4 _ _ _ _); [| discriminate].
  destruct (PyStr.num2 _ _); [| discriminate].
  destruct (PyStr.num2 _ _); [| discriminate].
  destruct (Calendar.valid_date _ _ _) eqn:E; [| discriminate].
  intros H. inversion H; subst. exact E.
Qed.

Lemma read_time_valid s hh mi ss :
  Pandas.read_time s = Some (hh, mi, ss) -> Calendar.valid_time hh mi ss = true.
Proof.
  unfold Pandas.read_time.
  destruct (list_ascii_of_string s) as [| h1 l]; [discriminate |].
  do 7 (destruct l as [| ? l]; [discriminate |]).
  destruct l; [| discriminate].
  destruct (_ && _); [| discriminate].
  destruct (PyStr.num2 _ _); [| discriminate].
  destruct (PyStr.num2 _ _); [| discriminate].
  destruct (PyStr.num2 _ _); [| discriminate].
  destruct (Calendar.valid_time _ _ _) eqn:E; [| discriminate].
  intros H. inversion H; subst. exact E.
Qed.

(** A text that [to_datetime] accepts starts with a valid date of the years
    1678 to 2261, and the instant falls on that date. *)
Lemma to_datetime_date text t0 :
  Pandas.to_datetime text = Some t0 ->
  exists y m d,
    Pandas.read_date ["-"%char] (PyStr.slice_to 10 text) = Some (y, m, d)
    /\ Calendar.valid_date y m d = true
    /\ 1678 <= y <= 2261
    /\ Pandas.date t0 = (y, m, d).
Proof.
  unfold Pandas.to_datetime.
  destruct (Pandas.read_date _ _) as [[[y m] d] |] eqn:Hd; [| discriminate].
  pose proof (read_date_valid _ _ _ _ _ Hd) as Hv.
  destruct ((1678 <=? y) && (y <=? 2261)) eqn:Hy; [| discriminate].
  apply andb_prop in Hy. destruct Hy as [Hy1 Hy2]. apply Z.leb_le in Hy1, Hy2.
  intros H. exists y, m, d. split; [reflexivity |]. split; [exact Hv |]. split; [lia |].
  destruct (PyStr.slice_from 10 text) as [| c clock].
  - inversion H; subst. apply date_timestamp_of; [exact Hv | reflexivity].
  - destruct (Pandas.is_sep _ c); [| discriminate].
    destruct (Pandas.read_time clock) as [[[hh mi] ss] |] eqn:Ht; [| discriminate].
    inversion H; subst.
    apply date_timestamp_of; [exact Hv | exact (read_time_valid _ _ _ _ Ht)].
Qed.

Lemma hhmmss_text text hh mi ss :
  Closed.hhmmss text = Some (hh, mi, ss) ->
  exists h1 h2 m1 m2 s1 s2,
    text = String h1 (String h2 (String m1 (String m2 (String s1 (String s2 "")))))
    /\ PyStr.num2 h1 h2 = Some hh /\ PyStr.num2 m1 m2 = Some mi /\ PyStr.num2 s1 s2 = Some ss
    /\ Calendar.valid_time hh mi ss = true.
Proof.
  unfold Closed.hhmmss. intros H.
  rewrite <- (string_of_list_ascii_of_string text).
  destruct (list_ascii_of_string text) as [| h1 l]; [discriminate |].
  do 5 (destruct l as [| ? l]; [discriminate |]).
  destruct l; [| discriminate].
  destruct (PyStr.num2 h1 _) as [x |] eqn:E1; [| discriminate].
  destruct (PyStr.num2 _ _) as [x0 |] eqn:E2 in H; [| discriminate].
  destruct (PyStr.num2 _ _) as [x1 |] eqn:E3 in H; [| discriminate].
  destruct (Calendar.valid_time _ _ _) eqn:E; [| discriminate].
  inversion H; subst. do 6 eexists. split; [reflexivity |]. auto.
Qed.

(** C2.  For a date text that [to_datetime] accepts and a six-digit text
    [HHMMSS] of a valid clock time, [timestamp_magna] returns the instant of the
    date written in the date text at [HH:MM:SS], moved forward by exactly 18
    seconds.  If the 18 seconds stay before midnight the date is unchanged and
    the time of day is [HH:MM:SS] plus 18 seconds; otherwise the date is the
    next day and the time of day is what is left over.  Date [2023-12-15] with
    [171119] gives 2023-12-15T17:11:37. *)
Theorem timestamp_magna_adds_18_seconds :
  (forall (str_datetime thisUTCtime : string) (t0 hh mi ss : Z),
      Pandas.to_datetime str_datetime = Some t0 ->
      Closed.hhmmss thisUTCtime = Some (hh, mi, ss) ->
      exists y m d t,
        Pandas.read_date ["-"%char] (PyStr.slice_to 10 str_datetime) = Some (y, m, d)
        /\ Magna.timestamp_magna str_datetime thisUTCtime = ret t
        /\ t = Pandas.timestamp_of y m d hh mi ss + 18
        /\ (hh * 3600 + mi * 60 + ss + 18 < 86400 ->
            Pandas.date t = (y, m, d)
            /\ Pandas.time_of_day t = hh * 3600 + mi * 60 + ss + 18)
        /\ (86400 <= hh * 3600 + mi * 60 + ss + 18 ->
            Pandas.date t = Calendar.civil_from_days (Calendar.days_from_civil y m d + 1)
            /\ Pandas.time_of_day t = hh * 3600 + mi * 60 + ss + 18 - 86400))
  /\ (exists t, Magna.timestamp_magna "2023-12-15" "171119" = ret t
                /\ Pandas.isoformat t = "2023-12-15T17:11:37").
Proof.
  split; [| exists 1702660297; split; vm_compute; reflexivity].
  intros str_datetime thisUTCtime t0 hh mi ss Hdt Hclock.
  destruct (to_datetime_date _ _ Hdt) as (y & m & d & Hread & Hvd & Hy & Hdate).
  destruct (hhmmss_text _ _ _ _ Hclock)
    as (h1 & h2 & m1 & m2 & s1 & s2 & -> & Hh & Hm & Hs & Hvt).
  exists y, m, d, (Pandas.timestamp_of y m d hh mi ss + 18).
  split; [exact Hread |]. split; [| split; [reflexivity |]].
  - unfold Magna.timestamp_magna. rewrite Hdt. cbn [or_raise]. rewrite bind_ret.
    cbv zeta. rewrite Hdate.
    unfold PyStr.slice_to, PyStr.slice, PyStr.slice_from.
    cbn [substring String.length Nat.sub].
    change (String h1 (String h2 "") ++ ":" ++ String m1 (String m2 "") ++ ":"
            ++ String s1 (String s2 ""))%string
      with (String h1 (String h2 (String ":" (String m1 (String m2
              (String ":" (String s1 (String s2 "")))))))).
    rewrite (to_datetime_of_text y m d h1 h2 m1 m2 s1 s2 hh mi ss Hvd Hy Hh Hm Hs Hvt).
    cbn [or_raise]. rewrite bind_ret. reflexivity.
  - apply valid_time_bounds in Hvt.
    unfold Pandas.date, Pandas.time_of_day, Pandas.timestamp_of.
    set (n := Calendar.days_from_civil y m d).
    split; intros Hcarry.
    + assert (E : (n * 86400 + hh * 3600 + mi * 60 + ss + 18) / 86400 = n)
        by (Z.to_euclidean_division_equations; lia).
      rewrite E. split; [apply civil_roundtrip; exact Hvd |].
      Z.to_euclidean_division_equations; lia.
    + assert (E : (n * 86400 + hh * 3600 + mi * 60 + ss + 18) / 86400 = n + 1)
        by (Z.to_euclidean_division_equations; lia).
      rewrite E. split; [reflexivity |].
      Z.to_euclidean_division_equations; lia.
Qed.

Lemma timestamp_magna_adds_18_seconds_witness :
  exists y m d t,
    Pandas.read_date ["-"%char] (PyStr.slice_to 10 "2023-12-31 23:59:50") = Some (y, m, d)
    /\ Magna.timestamp_magna "2023-12-31 23:59:50" "235950" = ret t
    /\ t = Pandas.timestamp_of y m d 23 59 50 + 18
    /\ (23 * 3600 + 59 * 60 + 50 + 18 < 86400 ->
        Pandas.date t = (y, m, d)
        /\ Pandas.time_of_day t = 23 * 3600 + 59 * 60 + 50 + 18)
    /\ (86400 <= 23 * 3600 + 59 * 60 + 50 + 18 ->
        Pandas.date t = Calendar.civil_from_days (Calendar.days_from_civil y m d + 1)
        /\ Pandas.time_of_day t = 23 * 3600 + 59 * 60 + 50 + 18 - 86400).
Proof.
  apply (proj1 timestamp_magna_adds_18_seconds
           "2023-12-31 23:59:50" "235950" 1704067190 23 59 50).
  - vm_compute. reflexivity.
  - vm_compute. reflexivity.
Defined.

(** ** Degrees, minutes and seconds *)

Lemma float_abs_nonneg (x : float) :
  PrimFloat.leb 0 x = true -> x <> (-0)%float -> PrimFloat.abs x = x.
Proof.
  intros H Hz. rewrite leb_spec in H.
  apply Prim2SF_inj. rewrite abs_spec.
  destruct (Prim2SF x) as [s | s | | s m e] eqn:E; cbn in *; try discriminate.
  - destruct s; [| reflexivity].
    exfalso. apply Hz. apply Prim2SF_inj. rewrite E. reflexivity.
  - destruct s; [discriminate | reflexivity].
  - destruct s; [discriminate | reflexivity].
Qed.

Lemma dms_Q_eq (dd mn ss : Q) :
  (Magna.degree_dms2dec dd mn ss
   == (if Qle_bool 0 dd then 1 else -1) * (Qabs dd + mn / 60 + ss / 3600))%Q.
Proof.
  unfold Magna.degree_dms2dec. cbn [num_ge num_lit num_add num_div num_neg num_abs Q_PyNumber].
  change (inject_Z 0) with 0%Q. change (inject_Z 60) with 60%Q.
  change (inject_Z 3600) with 3600%Q.
  destruct (Qle_bool 0 dd) eqn:E.
  - apply Qle_bool_iff in E. rewrite (Qabs_pos dd E). ring.
  - ring.
Qed.

Lemma dms_Q_sign (dd mn ss : Q) :
  (0 <= mn)%Q -> (0 <= ss)%Q ->
  ((0 <= dd)%Q -> (0 <= Magna.degree_dms2dec dd mn ss)%Q)
  /\ ((0 < dd)%Q -> (0 < Magna.degree_dms2dec dd mn ss)%Q)
  /\ ((dd < 0)%Q -> (Magna.degree_dms2dec dd mn ss < 0)%Q).
Proof.
  intros Hmn Hss. rewrite (dms_Q_eq dd mn ss).
  assert (Hm : (0 <= mn / 60)%Q) by (apply Qle_shift_div_l; [reflexivity | lra]).
  assert (Hs : (0 <= ss / 3600)%Q) by (apply Qle_shift_div_l; [reflexivity | lra]).
  pose proof (Qabs_nonneg dd) as Ha.
  repeat split; intros Hdd.
  - assert (E : Qle_bool 0 dd = true) by (apply Qle_bool_iff; exact Hdd).
    rewrite E. lra.
  - assert (E : Qle_bool 0 dd = true) by (apply Qle_bool_iff; lra).
    rewrite E. rewrite (Qabs_pos dd) by lra. lra.
  - destruct (Qle_bool 0 dd) eqn:E; [apply Qle_bool_iff in E; lra |].
    rewrite (Qabs_neg dd) by lra. lra.
Qed.

(** *** The sign of a rounded sum and of a rounded quotient

    The binary64 operations are specified on [spec_float]: an operation
    computes an integer mantissa and [binary_round_aux] shifts and rounds it.
    Shifting and rounding to nearest keep a mantissa that is not negative
    that way, and keep one that has a bit set from vanishing as long as the
    exponent is not below the least one. *)

Section SignOfRounding.

Variables prec emax : Z.

Lemma shr_1_nonneg (mrs : shr_record) : 0 <= shr_m mrs -> 0 <= shr_m (shr_1 mrs).
Proof.
  destruct mrs as [m r s]. cbn [shr_m].
  destruct m as [| p | p]; [| destruct p | lia]; cbn; lia.
Qed.

Lemma iter_shr_1_nonneg (p : positive) :
  forall mrs, 0 <= shr_m mrs -> 0 <= shr_m (SpecFloat.iter_pos shr_1 p mrs).
Proof.
  induction p as [p IH | p IH |]; intros mrs H; cbn [SpecFloat.iter_pos].
  - apply IH, IH, shr_1_nonneg, H.
  - apply IH, IH, H.
  - apply shr_1_nonneg, H.
Qed.

Lemma shr_fexp_nonneg (m e : Z) (l : location) :
  0 <= m -> 0 <= shr_m (fst (shr_fexp prec emax m e l)).
Proof.
  intros H. unfold shr_fexp, shr.
  assert (H0 : 0 <= shr_m (shr_record_of_loc m l))
    by (destruct l as [| []]; exact H).
  destruct (fexp prec emax (Zdigits2 m + e) - e) as [| p | p]; cbn [fst];
    [exact H0 | apply iter_shr_1_nonneg, H0 | exact H0].
Qed.

Lemma round_nearest_even_nonneg (m : Z) (l : location) :
  0 <= m -> 0 <= round_nearest_even m l.
Proof.
  intros H. unfold round_nearest_even.
  destruct l as [| []]; [lia | destruct (Z.even m); lia | lia | lia].
Qed.

Lemma binary_round_aux_nonneg (m e : Z) (l : location) :
  0 <= m -> SFleb (S754_zero false) (binary_round_aux prec emax false m e l) = true.
Proof.
  intros H. unfold binary_round_aux.
  pose proof (shr_fexp_nonneg m e l H) as H1.
  destruct (shr_fexp prec emax m e l) as [mrs' e']. cbn [fst] in H1.
  pose proof (shr_fexp_nonneg _ e' loc_Exact
                (round_nearest_even_nonneg _ (loc_of_shr_record mrs') H1)) as H2.
  destruct (shr_fexp prec emax (round_nearest_even (shr_m mrs') (loc_of_shr_record mrs')) e'
              loc_Exact) as [mrs'' e'']. cbn [fst] in H2.
  destruct (shr_m mrs'') as [| p | p]; [reflexivity | | lia].
  destruct (e'' <=? emax - prec); reflexivity.
Qed.

Lemma SFadd_nonneg (x y : spec_float) :
  SFleb (S754_zero false) x = true -> SFleb (S754_zero false) y = true ->
  SFleb (S754_zero false) (SFadd prec emax x y) = true.
Proof.
  destruct x as [sx | [] | | [] mx ex]; try discriminate;
    destruct y as [sy | [] | | [] my ey]; try discriminate; intros _ _;
    try reflexivity.
  - destruct sx, sy; reflexivity.
  - cbn [SFadd cond_Zopp]. cbn [Z.add binary_normalize].
    unfold binary_round.
    destruct (shl_align _ _ _) as [mz ez].
    apply binary_round_aux_nonneg. lia.
Qed.

Lemma SFdiv_nonneg (x : spec_float) (my : positive) (ey : Z) :
  SFleb (S754_zero false) x = true ->
  SFleb (S754_zero false) (SFdiv prec emax x (S754_finite false my ey)) = true.
Proof.
  destruct x as [sx | [] | | [] mx ex]; try discriminate; intros _.
  - destruct sx; reflexivity.
  - reflexivity.
  - cbn [SFdiv xorb]. unfold SFdiv_core_binary.
    set (s := ex - ey - _).
    set (m' := match s with 0 => Z.pos mx | Z.pos _ => Z.shiftl (Z.pos mx) s | Z.neg _ => 0 end).
    assert (Hm : 0 <= m').
    { subst m'. destruct s; [lia | apply Z.shiftl_nonneg; lia | lia]. }
    pose proof (Z.div_pos m' (Z.pos my) Hm ltac:(lia)) as Hq.
    unfold Z.div in Hq.
    destruct (Z.div_eucl m' (Z.pos my)) as [q r].
    apply binary_round_aux_nonneg, Hq.
Qed.

Lemma digits2_pos_le (p : positive) : 2 ^ (Z.pos (digits2_pos p) - 1) <= Z.pos p.
Proof.
  induction p as [p IH | p IH |]; cbn [digits2_pos]; [| | cbn; lia].
  - rewrite Pos2Z.inj_succ. replace (Z.succ (Z.pos (digits2_pos p)) - 1)
      with (Z.succ (Z.pos (digits2_pos p) - 1)) by lia.
    rewrite Z.pow_succ_r by lia. lia.
  - rewrite Pos2Z.inj_succ. replace (Z.succ (Z.pos (digits2_pos p)) - 1)
      with (Z.succ (Z.pos (digits2_pos p) - 1)) by lia.
    rewrite Z.pow_succ_r by lia. lia.
Qed.

Lemma shr_1_pow (mrs : shr_record) (k : Z) :
  0 <= k -> 2 ^ (k + 1) <= shr_m mrs -> 2 ^ k <= shr_m (shr_1 mrs).
Proof.
  intros Hk. rewrite Z.add_1_r, Z.pow_succ_r by exact Hk.
  pose proof (Z.pow_pos_nonneg 2 k ltac:(lia) Hk) as Hp.
  destruct mrs as [m r s]. cbn [shr_m].
  destruct m as [| p | p]; [lia | destruct p | lia]; cbn [shr_1 shr_m]; lia.
Qed.

Lemma iter_shr_1_pow (p : positive) :
  forall mrs k, 0 <= k -> 2 ^ (k + Z.pos p) <= shr_m mrs ->
                2 ^ k <= shr_m (SpecFloat.iter_pos shr_1 p mrs).
Proof.
  induction p as [p IH | p IH |]; intros mrs k Hk H; cbn [SpecFloat.iter_pos].
  - apply IH; [exact Hk |]. apply IH; [lia |]. apply shr_1_pow; [lia |].
    replace (k + Z.pos p + Z.pos p + 1) with (k + Z.pos p~1) by lia. exact H.
  - apply IH; [exact Hk |]. apply IH; [lia |].
    replace (k + Z.pos p + Z.pos p) with (k + Z.pos p~0) by lia. exact H.
  - apply shr_1_pow; assumption.
Qed.

Hypothesis Hprec : 0 < prec.

Lemma shr_fexp_pos (m e : Z) (l : location) :
  1 <= m -> SpecFloat.emin prec emax <= e ->
  1 <= shr_m (fst (shr_fexp prec emax m e l))
  /\ SpecFloat.emin prec emax <= snd (shr_fexp prec emax m e l).
Proof.
  intros Hm He. unfold shr_fexp, shr.
  assert (H0 : shr_m (shr_record_of_loc m l) = m) by (destruct l as [| []]; reflexivity).
  destruct m as [| p | p]; [lia | | lia]. cbn [Zdigits2].
  pose proof (digits2_pos_le p) as Hd.
  unfold fexp.
  destruct (Z.max (Z.pos (digits2_pos p) + e - prec) (SpecFloat.emin prec emax) - e)
    as [| n | n] eqn:En; cbn [fst snd]; [rewrite H0; lia | | rewrite H0; lia].
  split; [| lia].
  change 1 with (2 ^ 0). apply iter_shr_1_pow; [lia |]. rewrite H0.
  transitivity (2 ^ (Z.pos (digits2_pos p) - 1)); [| exact Hd].
  apply Z.pow_le_mono_r; lia.
Qed.

Lemma round_nearest_even_pos (m : Z) (l : location) :
  1 <= m -> 1 <= round_nearest_even m l.
Proof.
  intros H. unfold round_nearest_even.
  destruct l as [| []]; [lia | destruct (Z.even m); lia | lia | lia].
Qed.

Lemma binary_round_aux_pos (m e : Z) (l : location) :
  1 <= m -> SpecFloat.emin prec emax <= e ->
  SFltb (S754_zero false) (binary_round_aux prec emax false m e l) = true.
Proof.
  intros Hm He. unfold binary_round_aux.
  destruct (shr_fexp_pos m e l Hm He) as [H1 H1'].
  destruct (shr_fexp prec emax m e l) as [mrs' e']. cbn [fst snd] in H1, H1'.
  destruct (shr_fexp_pos _ e' loc_Exact
              (round_nearest_even_pos _ (loc_of_shr_record mrs') H1) H1') as [H2 _].
  destruct (shr_fexp prec emax (round_nearest_even (shr_m mrs') (loc_of_shr_record mrs')) e'
              loc_Exact) as [mrs'' e'']. cbn [fst] in H2.
  destruct (shr_m mrs'') as [| p | p]; [lia | | lia].
  destruct (e'' <=? emax - prec); reflexivity.
Qed.

Lemma binary_round_pos (m : positive) (e : Z) :
  SpecFloat.emin prec emax <= e ->
  SFltb (S754_zero false) (binary_round prec emax false m e) = true.
Proof.
  intros He. unfold binary_round, shl_align.
  destruct (fexp prec emax (Z.pos (digits2_pos m) + e) - e) eqn:E;
    apply binary_round_aux_pos; try lia.
  unfold fexp. lia.
Qed.

Lemma valid_finite_emin (s : bool) (m : positive) (e : Z) :
  SpecFloat.valid_binary prec emax (S754_finite s m e) = true ->
  SpecFloat.emin prec emax <= e.
Proof.
  cbn [SpecFloat.valid_binary]. unfold bounded, canonical_mantissa, fexp.
  intros H. apply andb_true_iff in H. destruct H as [H _].
  apply Z.eqb_eq in H. lia.
Qed.

Lemma SFadd_pos (x y : spec_float) :
  SpecFloat.valid_binary prec emax x = true -> SpecFloat.valid_binary prec emax y = true ->
  SFltb (S754_zero false) x = true -> SFleb (S754_zero false) y = true ->
  SFltb (S754_zero false) (SFadd prec emax x y) = true.
Proof.
  intros Vx Vy.
  destruct x as [sx | [] | | [] mx ex]; try discriminate;
    destruct y as [sy | [] | | [] my ey]; try discriminate; intros _ _;
    try reflexivity.
  cbn [SFadd cond_Zopp]. cbn [Z.add binary_normalize].
  apply binary_round_pos.
  apply valid_finite_emin in Vx, Vy. lia.
Qed.

End SignOfRounding.

Lemma SFopp_pos (x : spec_float) :
  SFltb (S754_zero false) x = true -> SFltb (SFopp x) (S754_zero false) = true.
Proof. destruct x as [s | [] | | [] m e]; try discriminate; reflexivity. Qed.

Lemma SFabs_of_negative (x : spec_float) :
  SFltb x (S754_zero false) = true ->
  SFleb (S754_zero false) x = false /\ SFltb (S754_zero false) (SFabs x) = true.
Proof. destruct x as [s | [] | | [] m e]; try discriminate; split; reflexivity. Qed.

Lemma SFltb_SFleb (x : spec_float) :
  SFltb (S754_zero false) x = true -> SFleb (S754_zero false) x = true.
Proof. destruct x as [s | [] | | [] m e]; try discriminate; reflexivity. Qed.

(** A sum of a binary64 number above zero and one not below zero is above
    zero: it cannot round to zero. *)
Lemma float_add_pos (x y : float) :
  PrimFloat.ltb 0 x = true -> PrimFloat.leb 0 y = true -> PrimFloat.ltb 0 (x + y) = true.
Proof.
  rewrite !ltb_spec, leb_spec, add_spec. change (Prim2SF 0) with (S754_zero false).
  apply SFadd_pos; [reflexivity | apply Prim2SF_valid | apply Prim2SF_valid].
Qed.

Lemma float_add_nonneg (x y : float) :
  PrimFloat.leb 0 x = true -> PrimFloat.leb 0 y = true -> PrimFloat.leb 0 (x + y) = true.
Proof.
  rewrite !leb_spec, add_spec. change (Prim2SF 0) with (S754_zero false).
  apply SFadd_nonneg.
Qed.

Lemma float_div_60_nonneg (x : float) :
  PrimFloat.leb 0 x = true -> PrimFloat.leb 0 (x / 60) = true.
Proof.
  rewrite !leb_spec, div_spec. change (Prim2SF 0) with (S754_zero false).
  change (Prim2SF 60) with (S754_finite false 8444249301319680 (-47)).
  apply SFdiv_nonneg.
Qed.

Lemma float_div_3600_nonneg (x : float) :
  PrimFloat.leb 0 x = true -> PrimFloat.leb 0 (x / 3600) = true.
Proof.
  rewrite !leb_spec, div_spec. change (Prim2SF 0) with (S754_zero false).
  change (Prim2SF 3600) with (S754_finite false 7916483719987200 (-41)).
  apply SFdiv_nonneg.
Qed.

Lemma float_ltb_leb (x : float) : PrimFloat.ltb 0 x = true -> PrimFloat.leb 0 x = true.
Proof.
  rewrite ltb_spec, leb_spec. change (Prim2SF 0) with (S754_zero false). apply SFltb_SFleb.
Qed.

(** The binary64 result has the sign of the degrees when the minutes and the
    seconds are not below zero. *)
Lemma dms_float_sign (dd mn ss : float) :
  PrimFloat.leb 0 mn = true -> PrimFloat.leb 0 ss = true ->
  (PrimFloat.leb 0 dd = true -> PrimFloat.leb 0 (Magna.degree_dms2dec dd mn ss) = true)
  /\ (PrimFloat.ltb 0 dd = true -> PrimFloat.ltb 0 (Magna.degree_dms2dec dd mn ss) = true)
  /\ (PrimFloat.ltb dd 0 = true -> PrimFloat.ltb (Magna.degree_dms2dec dd mn ss) 0 = true).
Proof.
  intros Hmn Hss.
  apply float_div_60_nonneg in Hmn. apply float_div_3600_nonneg in Hss.
  unfold Magna.degree_dms2dec.
  cbn [num_ge num_lit num_add num_div num_neg num_abs float_PyNumber].
  change (of_uint63 (Uint63.of_Z 0)) with 0%float.
  change (of_uint63 (Uint63.of_Z 60)) with 60%float.
  change (of_uint63 (Uint63.of_Z 3600)) with 3600%float.
  split; [| split]; intros Hdd.
  - rewrite Hdd. apply float_add_nonneg; [apply float_add_nonneg |]; assumption.
  - rewrite (float_ltb_leb dd Hdd).
    apply float_add_pos; [apply float_add_pos |]; assumption.
  - assert (Hneg : PrimFloat.leb 0 dd = false
                   /\ PrimFloat.ltb 0 (abs dd) = true).
    { rewrite ltb_spec in Hdd. rewrite leb_spec, ltb_spec, abs_spec.
      change (Prim2SF 0) with (S754_zero false) in *. apply SFabs_of_negative, Hdd. }
    destruct Hneg as [Hge Habs]. rewrite Hge.
    assert (Hsum : PrimFloat.ltb 0 (abs dd + mn / 60 + ss / 3600) = true)
      by (apply float_add_pos; [apply float_add_pos |]; assumption).
    rewrite ltb_spec in Hsum. rewrite ltb_spec, opp_spec.
    change (Prim2SF 0) with (S754_zero false) in *. apply SFopp_pos, Hsum.
Qed.

(** C7, as the code has it.  In exact arithmetic [degree_dms2dec] is
    [s * (|dd| + mn/60 + ss/3600)] with [s = 1] for [dd >= 0] and [s = -1]
    otherwise.  When the minutes and the seconds are not negative, the result
    has the sign of the degrees, in exact arithmetic and on binary64 numbers
    alike: not negative for [dd >= 0], positive for [dd > 0], negative for
    [dd < 0].  On binary64 numbers the function is the same expression in
    rounded arithmetic, defined for every input.  [degree_dms2dec(45, 30, 15)]
    is the number printed 45.50416666666667 and [degree_dms2dec(-45, 30, 15)]
    is its opposite, both within 1e-9 of the exact 45.5041666... = 10921/240. *)
Theorem degree_dms2dec_value :
  (forall dd mn ss : Q,
      (Magna.degree_dms2dec dd mn ss
       == (if Qle_bool 0 dd then 1 else -1) * (Qabs dd + mn / 60 + ss / 3600))%Q)
  /\ (forall dd mn ss : Q,
         (0 <= mn)%Q -> (0 <= ss)%Q ->
         ((0 <= dd)%Q -> (0 <= Magna.degree_dms2dec dd mn ss)%Q)
         /\ ((0 < dd)%Q -> (0 < Magna.degree_dms2dec dd mn ss)%Q)
         /\ ((dd < 0)%Q -> (Magna.degree_dms2dec dd mn ss < 0)%Q))
  /\ (forall dd mn ss : float,
         PrimFloat.leb 0 mn = true -> PrimFloat.leb 0 ss = true ->
         (PrimFloat.leb 0 dd = true ->
          PrimFloat.leb 0 (Magna.degree_dms2dec dd mn ss) = true)
         /\ (PrimFloat.ltb 0 dd = true ->
             PrimFloat.ltb 0 (Magna.degree_dms2dec dd mn ss) = true)
         /\ (PrimFloat.ltb dd 0 = true ->
             PrimFloat.ltb (Magna.degree_dms2dec dd mn ss) 0 = true))
  /\ (forall dd mn ss : float,
         (PrimFloat.leb 0 dd = true -> dd <> (-0)%float ->
          Magna.degree_dms2dec dd mn ss = (abs dd + mn / 60 + ss / 3600)%float)
         /\ (PrimFloat.leb 0 dd = false ->
             Magna.degree_dms2dec dd mn ss = (- (abs dd + mn / 60 + ss / 3600))%float))
  /\ (exists v : Q,
         Magna.degree_dms2dec 45%float 30%float 15%float = 0x1.6c08888888889p+5%float
         /\ Q_of_float (Magna.degree_dms2dec 45%float 30%float 15%float) = Some v
         /\ (Qabs (v - (10921 # 240)) <= (1 # 1000000000))%Q
         /\ Magna.degree_dms2dec (-45)%float 30%float 15%float = (-0x1.6c08888888889p+5)%float
         /\ Q_of_float (Magna.degree_dms2dec (-45)%float 30%float 15%float) = Some (- v)%Q
         /\ (Magna.degree_dms2dec (45 # 1) (30 # 1) (15 # 1) == (10921 # 240))%Q
         /\ (Magna.degree_dms2dec (- (45 # 1)) (30 # 1) (15 # 1) == - (10921 # 240))%Q).
Proof.
  split; [exact dms_Q_eq |]. split; [exact dms_Q_sign |].
  split; [exact dms_float_sign |]. split.
  - intros dd mn ss. unfold Magna.degree_dms2dec.
    cbn [num_ge num_lit num_add num_div num_neg num_abs float_PyNumber].
    change (of_uint63 (Uint63.of_Z 0)) with 0%float.
    change (of_uint63 (Uint63.of_Z 60)) with 60%float.
    change (of_uint63 (Uint63.of_Z 3600)) with 3600%float.
    split.
    + intros H Hz. rewrite H, (float_abs_nonneg dd H Hz). reflexivity.
    + intros H. rewrite H. reflexivity.
  - exists (6404142126368905 # 140737488355328)%Q.
    split; [vm_compute; reflexivity |].
    split; [vm_compute; reflexivity |].
    split; [vm_compute; discriminate |].
    split; [vm_compute; reflexivity |].
    split; [vm_compute; reflexivity |].
    split; vm_compute; reflexivity.
Qed.

Lemma degree_dms2dec_value_witness :
  PrimFloat.ltb (Magna.degree_dms2dec (-45)%float 30%float 15%float) 0 = true
  /\ (0 < Magna.degree_dms2dec (45 # 1) (30 # 1) (15 # 1))%Q.
Proof.
  split.
  - refine (proj2 (proj2 (proj1 (proj2 (proj2 degree_dms2dec_value))
                            (-45)%float 30%float 15%float _ _)) _);
      vm_compute; reflexivity.
  - refine (proj1 (proj2 (proj1 (proj2 degree_dms2dec_value)
                            (45 # 1) (30 # 1) (15 # 1) _ _)) _)%Q.
    + vm_compute. discriminate.
    + vm_compute. discriminate.
    + vm_compute. reflexivity.
Defined.

(** C7 as stated fails: the sign of the result is not always that of the
    degrees.  With zero degrees and minus thirty minutes the degrees pass the
    test [dd >= 0] and the result is -0.5, on binary64 numbers and in exact
    arithmetic; with minus one degree and minus 120 minutes the result is 1. *)
Lemma negative_minutes_turn_the_sign :
  PrimFloat.leb 0 0 = true
  /\ Magna.degree_dms2dec 0%float (-30)%float 0%float = (-0.5)%float
  /\ PrimFloat.ltb (Magna.degree_dms2dec 0%float (-30)%float 0%float) 0 = true
  /\ (Magna.degree_dms2dec 0 (- (30 # 1)) 0 == - (1 # 2))%Q
  /\ PrimFloat.ltb (-1) 0 = true
  /\ Magna.degree_dms2dec (-1)%float (-120)%float 0%float = 1%float
  /\ (Magna.degree_dms2dec (- (1 # 1)) (- (120 # 1)) 0 == 1)%Q.
Proof. repeat split; vm_compute; reflexivity. Qed.

(** ** The binary search *)

Section BinarySearch.

Variable before : Pandas.Timestamp -> bool.
Variable arr : list Pandas.Timestamp.

(** What the loop guarantees on any column, ordered or not: the entry left
    of the answer is before the key and the entry at the answer is not. *)
Lemma binsearch_left_local lo hi :
  let r := Pandas.binsearch_left before arr lo hi in
  (lo <= hi -> lo <= r <= hi)%nat
  /\ ((lo < r)%nat -> before (nth (r - 1) arr 0) = true)
  /\ ((r < hi)%nat -> before (nth r arr 0) = false).
Proof.
  cbv zeta. funelim (Pandas.binsearch_left before arr lo hi).
  - clear Heqcall Heq.
    assert (Hmid : (lo <= lo + (hi - lo) / 2 < hi)%nat).
    { assert ((hi - lo) / 2 < hi - lo)%nat by (apply Nat.div_lt; lia). lia. }
    destruct (before (nth (lo + (hi - lo) / 2) arr 0)) eqn:Hb.
    + destruct H as (Hr & Hl & Hh).
      repeat split; try lia.
      * intros _.
        destruct (Nat.eq_dec (Pandas.binsearch_left before arr (S (lo + (hi - lo) / 2)) hi)
                             (S (lo + (hi - lo) / 2))) as [E | E].
        -- rewrite E. replace (S (lo + (hi - lo) / 2) - 1)%nat with (lo + (hi - lo) / 2)%nat by lia.
           exact Hb.
        -- apply Hl. lia.
      * exact Hh.
    + destruct H0 as (Hr & Hl & Hh).
      repeat split; try lia.
      * exact Hl.
      * intros Hlt.
        destruct (Nat.eq_dec (Pandas.binsearch_left before arr lo (lo + (hi - lo) / 2))
                             (lo + (hi - lo) / 2)) as [E | E].
        -- rewrite E. exact Hb.
        -- apply Hh. lia.
  - repeat split; intros; lia.
Qed.

End BinarySearch.

(** ** Ordered columns *)

Lemma monotonic_tail a col :
  Pandas.is_monotonic_increasing (a :: col) = true ->
  Pandas.is_monotonic_increasing col = true.
Proof.
  destruct col as [| b col]; [reflexivity |].
  cbn [Pandas.is_monotonic_increasing]. intros H. apply andb_prop in H. apply H.
Qed.

Lemma monotonic_head_le a col j :
  Pandas.is_monotonic_increasing (a :: col) = true ->
  (j < List.length col)%nat -> a <= nth j col 0.
Proof.
  revert a j. induction col as [| b col IH]; intros a j H Hj; [cbn in Hj; lia |].
  cbn [Pandas.is_monotonic_increasing] in H. apply andb_prop in H. destruct H as [Hab Hs].
  apply Z.leb_le in Hab. destruct j as [| j]; [exact Hab |].
  cbn [nth]. cbn [List.length] in Hj.
  specialize (IH b j Hs ltac:(lia)). lia.
Qed.

Lemma monotonic_nth col :
  Pandas.is_monotonic_increasing col = true ->
  forall i j, (i <= j < List.length col)%nat -> nth i col 0 <= nth j col 0.
Proof.
  induction col as [| a col IH]; intros H i j Hij; [cbn in Hij; lia |].
  destruct i as [| i]; destruct j as [| j]; cbn [nth]; try lia.
  - apply (monotonic_head_le a col j H). cbn [List.length] in Hij. lia.
  - apply IH; [exact (monotonic_tail a col H) | cbn [List.length] in Hij; lia].
Qed.

(** On an ordered column the search returns the insertion point: everything
    left of it is earlier than the key, nothing from it on is. *)
Lemma searchsorted_insertion_point col q :
  Pandas.is_monotonic_increasing col = true ->
  let r := Pandas.searchsorted col (Some q) in
  (r <= List.length col)%nat
  /\ (forall j, (j < r)%nat -> nth j col 0 < q)
  /\ (forall j, (r <= j < List.length col)%nat -> q <= nth j col 0).
Proof.
  intros Hs r. unfold Pandas.searchsorted in r.
  destruct (binsearch_left_local (Pandas.before_key (Some q)) col 0 (List.length col))
    as (Hr & Hl & Hh).
  fold r in Hr, Hl, Hh.
  specialize (Hr ltac:(lia)). cbn [Pandas.before_key] in Hl, Hh.
  split; [lia |]. split.
  - intros j Hj. specialize (Hl ltac:(lia)). apply Z.ltb_lt in Hl.
    pose proof (monotonic_nth col Hs j (r - 1)%nat ltac:(lia)). lia.
  - intros j Hj. specialize (Hh ltac:(lia)). apply Z.ltb_ge in Hh.
    pose proof (monotonic_nth col Hs r j ltac:(lia)). lia.
Qed.

(** A key that every entry is before lands past the end, whatever the order
    of the column. *)
Lemma searchsorted_past_the_end col key :
  (forall a, In a col -> Pandas.before_key key a = true) ->
  Pandas.searchsorted col key = List.length col.
Proof.
  intros Hall. unfold Pandas.searchsorted.
  destruct (binsearch_left_local (Pandas.before_key key) col 0 (List.length col))
    as (Hr & _ & Hh).
  specialize (Hr ltac:(lia)).
  destruct (Nat.eq_dec (Pandas.binsearch_left (Pandas.before_key key) col 0 (List.length col))
                       (List.length col)) as [E | E]; [exact E |].
  specialize (Hh ltac:(lia)).
  rewrite Hall in Hh by (apply nth_In; lia). discriminate.
Qed.

(** A key that the last entry is not before lands inside, whatever the order
    of the column. *)
Lemma searchsorted_inside col key :
  col <> [] ->
  Pandas.before_key key (nth (List.length col - 1) col 0) = false ->
  (Pandas.searchsorted col key < List.length col)%nat.
Proof.
  intros Hne Hlast. unfold Pandas.searchsorted.
  destruct (binsearch_left_local (Pandas.before_key key) col 0 (List.length col))
    as (Hr & Hl & _).
  specialize (Hr ltac:(lia)).
  destruct (Nat.eq_dec (Pandas.binsearch_left (Pandas.before_key key) col 0 (List.length col))
                       (List.length col)) as [E | E]; [| lia].
  assert (0 < List.length col)%nat by (destruct col; [congruence | cbn; lia]).
  specialize (Hl ltac:(lia)). rewrite E in Hl. congruence.
Qed.

Lemma nth_timestamps df j g :
  nth_error df j = Some g -> nth j (Emlid.timestamps df) 0 = Emlid.timestamp g.
Proof.
  intros H. unfold Emlid.timestamps.
  change 0 with (Emlid.timestamp (Emlid.mk_fix 0 0%float 0%float)).
  rewrite map_nth. f_equal. apply nth_error_nth. exact H.
Qed.

Lemma length_timestamps df : List.length (Emlid.timestamps df) = List.length df.
Proof. apply length_map. Qed.

(** ** The look-up functions *)

(** Both scripts read the row at [searchsorted]; the first raises past the
    end, the second answers [None] there. *)
Lemma magna_get_lat_emlid_eq key df :
  Magna.get_lat_emlid key df =
  match nth_error df (Pandas.searchsorted (Emlid.timestamps df) key) with
  | Some row => ret (Emlid.lat row)
  | None => raise IndexError
  end.
Proof.
  unfold Magna.get_lat_emlid, Pandas.iloc.
  destruct (nth_error df _); reflexivity.
Qed.

Lemma magna_get_lon_emlid_eq key df :
  Magna.get_lon_emlid key df =
  match nth_error df (Pandas.searchsorted (Emlid.timestamps df) key) with
  | Some row => ret (Emlid.lon row)
  | None => raise IndexError
  end.
Proof.
  unfold Magna.get_lon_emlid, Pandas.iloc.
  destruct (nth_error df _); reflexivity.
Qed.

Lemma smp_get_lat_emlid_eq key df :
  Smp.get_lat_emlid key df =
  ret (option_map Emlid.lat (nth_error df (Pandas.searchsorted (Emlid.timestamps df) key))).
Proof.
  unfold Smp.get_lat_emlid, Pandas.iloc.
  destruct (nth_error df _); reflexivity.
Qed.

Lemma smp_get_lon_emlid_eq key df :
  Smp.get_lon_emlid key df =
  ret (option_map Emlid.lon (nth_error df (Pandas.searchsorted (Emlid.timestamps df) key))).
Proof.
  unfold Smp.get_lon_emlid, Pandas.iloc.
  destruct (nth_error df _); reflexivity.
Qed.

(** C1, as the code has it.  On a track in ascending order of instants and
    for a query no later than the last fix, [get_lat_emlid] and
    [get_lon_emlid] return the latitude and longitude of the fix at the
    insertion point, the first fix whose instant is not earlier than the
    query: every fix before it is strictly earlier.  A query strictly between
    the instants of two neighbouring fixes gets the later of the two.  A
    query equal to the instant of a fix gets a fix of exactly that instant,
    the first such one in the track, which is that very fix when no earlier
    fix shares its instant. *)
Theorem nearest_fix_is_insertion_point :
  forall (df : list Emlid.reference_fix) (q : Z) (last : Emlid.reference_fix),
    Pandas.is_monotonic_increasing (Emlid.timestamps df) = true ->
    nth_error df (List.length df - 1) = Some last ->
    q <= Emlid.timestamp last ->
    exists (i : nat) (f : Emlid.reference_fix),
      i = Pandas.searchsorted (Emlid.timestamps df) (Some q)
      /\ nth_error df i = Some f
      /\ Magna.get_lat_emlid (Some q) df = ret (Emlid.lat f)
      /\ Magna.get_lon_emlid (Some q) df = ret (Emlid.lon f)
      /\ q <= Emlid.timestamp f
      /\ (forall j g, (j < i)%nat -> nth_error df j = Some g -> Emlid.timestamp g < q)
      /\ (forall j a b,
             nth_error df j = Some a -> nth_error df (S j) = Some b ->
             Emlid.timestamp a < q < Emlid.timestamp b -> i = S j /\ f = b)
      /\ (forall j g,
             nth_error df j = Some g -> Emlid.timestamp g = q ->
             Emlid.timestamp f = q /\ (i <= j)%nat)
      /\ (forall j g,
             nth_error df j = Some g -> Emlid.timestamp g = q ->
             (forall k h, (k < j)%nat -> nth_error df k = Some h -> Emlid.timestamp h < q) ->
             i = j /\ f = g).
Proof.
  intros df q last Hs Hlast Hq.
  destruct (searchsorted_insertion_point (Emlid.timestamps df) q Hs) as (Hr & Hlo & Hhi).
  set (i := Pandas.searchsorted (Emlid.timestamps df) (Some q)) in *.
  rewrite length_timestamps in Hr, Hhi.
  assert (Hlen : (0 < List.length df)%nat).
  { destruct df; [discriminate | cbn; lia]. }
  assert (Hin : (i < List.length df)%nat).
  { destruct (Nat.eq_dec i (List.length df)) as [E | E]; [| lia].
    specialize (Hlo (List.length df - 1)%nat ltac:(lia)).
    rewrite (nth_timestamps df _ last Hlast) in Hlo. lia. }
  destruct (nth_error df i) as [f |] eqn:Hf;
    [| apply nth_error_None in Hf; lia].
  assert (Hqf : q <= Emlid.timestamp f).
  { rewrite <- (nth_timestamps df i f Hf). apply Hhi. lia. }
  assert (Hbefore : forall j g, (j < i)%nat -> nth_error df j = Some g -> Emlid.timestamp g < q).
  { intros j g Hj Hg. rewrite <- (nth_timestamps df j g Hg). apply Hlo. exact Hj. }
  assert (Hafter : forall j g, (i <= j)%nat -> nth_error df j = Some g -> q <= Emlid.timestamp g).
  { intros j g Hj Hg. rewrite <- (nth_timestamps df j g Hg). apply Hhi.
    split; [exact Hj |]. apply nth_error_Some. congruence. }
  exists i, f. split; [reflexivity |]. split; [exact Hf |].
  split; [rewrite magna_get_lat_emlid_eq; fold i; rewrite Hf; reflexivity |].
  split; [rewrite magna_get_lon_emlid_eq; fold i; rewrite Hf; reflexivity |].
  split; [exact Hqf |]. split; [exact Hbefore |]. split; [| split].
  - intros j a b Ha Hb Hab.
    assert (i = S j) as E.
    { destruct (Nat.lt_ge_cases j i) as [Hji | Hji].
      - destruct (Nat.lt_ge_cases (S j) i) as [Hsji | Hsji]; [| lia].
        specialize (Hbefore (S j) b Hsji Hb). lia.
      - specialize (Hafter j a Hji Ha). lia. }
    split; [exact E |]. rewrite E in Hf. congruence.
  - intros j g Hg Hgq.
    assert (Hij : (i <= j)%nat).
    { destruct (Nat.lt_ge_cases j i) as [Hji | Hji]; [| exact Hji].
      specialize (Hbefore j g Hji Hg). lia. }
    split; [| exact Hij].
    pose proof (monotonic_nth (Emlid.timestamps df) Hs i j) as Hm.
    rewrite length_timestamps in Hm.
    assert (j < List.length df)%nat by (apply nth_error_Some; congruence).
    specialize (Hm ltac:(lia)).
    rewrite (nth_timestamps df i f Hf), (nth_timestamps df j g Hg) in Hm. lia.
  - intros j g Hg Hgq Hfirst.
    assert (i = j) as E.
    { destruct (Nat.lt_trichotomy i j) as [Hij | [Hij | Hij]]; [| exact Hij |].
      - specialize (Hfirst i f Hij Hf). lia.
      - specialize (Hbefore j g Hij Hg). lia. }
    split; [exact E |]. rewrite E in Hf. congruence.
Qed.

Lemma nearest_fix_is_insertion_point_witness :
  exists (i : nat) (f : Emlid.reference_fix),
    i = Pandas.searchsorted (Emlid.timestamps Sample.track_10h) (Some 36005)
    /\ nth_error Sample.track_10h i = Some f
    /\ Magna.get_lat_emlid (Some 36005) Sample.track_10h = ret (Emlid.lat f)
    /\ Magna.get_lon_emlid (Some 36005) Sample.track_10h = ret (Emlid.lon f)
    /\ 36005 <= Emlid.timestamp f
    /\ (forall j g, (j < i)%nat -> nth_error Sample.track_10h j = Some g -> Emlid.timestamp g < 36005)
    /\ (forall j a b,
           nth_error Sample.track_10h j = Some a -> nth_error Sample.track_10h (S j) = Some b ->
           Emlid.timestamp a < 36005 < Emlid.timestamp b -> i = S j /\ f = b)
    /\ (forall j g,
           nth_error Sample.track_10h j = Some g -> Emlid.timestamp g = 36005 ->
           Emlid.timestamp f = 36005 /\ (i <= j)%nat)
    /\ (forall j g,
           nth_error Sample.track_10h j = Some g -> Emlid.timestamp g = 36005 ->
           (forall k h, (k < j)%nat -> nth_error Sample.track_10h k = Some h -> Emlid.timestamp h < 36005) ->
           i = j /\ f = g).
Proof.
  apply (nearest_fix_is_insertion_point Sample.track_10h 36005
           (Emlid.mk_fix 36010 45.5%float (-75.5)%float)).
  - reflexivity.
  - reflexivity.
  - simpl. lia.
Defined.

(** C1 as stated fails for a query equal to the instant of a fix: on a track
    in ascending order whose first two fixes share the instant 10, the query
    10 is the instant of the second fix and is not later than the last fix,
    and both look-ups return the first fix, whose latitude and longitude are
    not those of the second. *)
Lemma equal_instant_returns_an_earlier_fix :
  Pandas.is_monotonic_increasing (Emlid.timestamps Sample2.track_ties) = true
  /\ nth_error Sample2.track_ties 1 = Some (Emlid.mk_fix 10 46%float (-76)%float)
  /\ nth_error Sample2.track_ties (List.length Sample2.track_ties - 1)
     = Some (Emlid.mk_fix 20 47%float (-77)%float)
  /\ Pandas.searchsorted (Emlid.timestamps Sample2.track_ties) (Some 10) = 0%nat
  /\ Magna.get_lat_emlid (Some 10) Sample2.track_ties = ret 45%float
  /\ Magna.get_lon_emlid (Some 10) Sample2.track_ties = ret (-75)%float
  /\ Smp.get_lat_emlid (Some 10) Sample2.track_ties = ret (Some 45%float)
  /\ Smp.get_lon_emlid (Some 10) Sample2.track_ties = ret (Some (-75)%float)
  /\ PrimFloat.eqb 45 46 = false
  /\ PrimFloat.eqb (-75) (-76) = false.
Proof. repeat split; vm_compute; reflexivity. Qed.

(** C10.  Whenever the latitude look-up succeeds, the longitude look-up of the
    same instant on the same track succeeds too and reads the same row, the
    one at [searchsorted] of that instant: latitude and longitude of a record
    come from one fix.  This holds for the look-ups of both scripts. *)
Theorem lat_and_lon_from_the_same_fix :
  forall (df_emlid : list Emlid.reference_fix) (key : option Z) (out : list string) (la : float),
    Smp.get_lat_emlid key df_emlid = (out, inr (Some la)) ->
    exists f,
      nth_error df_emlid (Pandas.searchsorted (Emlid.timestamps df_emlid) key) = Some f
      /\ la = Emlid.lat f
      /\ Smp.get_lon_emlid key df_emlid = ret (Some (Emlid.lon f))
      /\ forall q, key = Some q ->
                   Magna.get_lat_emlid (Some q) df_emlid = ret (Emlid.lat f)
                   /\ Magna.get_lon_emlid (Some q) df_emlid = ret (Emlid.lon f).
Proof.
  intros df key out la H.
  rewrite smp_get_lat_emlid_eq in H.
  destruct (nth_error df (Pandas.searchsorted (Emlid.timestamps df) key)) as [f |] eqn:Hf;
    [| discriminate].
  cbn in H. exists f. split; [reflexivity |].
  split; [inversion H; reflexivity |].
  split; [rewrite smp_get_lon_emlid_eq, Hf; reflexivity |].
  intros q ->. rewrite magna_get_lat_emlid_eq, magna_get_lon_emlid_eq, Hf.
  split; reflexivity.
Qed.

Lemma lat_and_lon_from_the_same_fix_witness :
  exists f,
    nth_error Sample.track_10h
      (Pandas.searchsorted (Emlid.timestamps Sample.track_10h) (Some 36005)) = Some f
    /\ 45.5%float = Emlid.lat f
    /\ Smp.get_lon_emlid (Some 36005) Sample.track_10h = ret (Some (Emlid.lon f))
    /\ forall q, Some 36005 = Some q ->
                 Magna.get_lat_emlid (Some q) Sample.track_10h = ret (Emlid.lat f)
                 /\ Magna.get_lon_emlid (Some q) Sample.track_10h = ret (Emlid.lon f).
Proof.
  apply (lat_and_lon_from_the_same_fix Sample.track_10h (Some 36005) [] 45.5%float).
  vm_compute. reflexivity.
Defined.

(** A key beyond the track finds no row. *)
Lemma beyond_track_past_the_end df key :
  Closed.beyond_track df key = true -> Closed.nearest df key = None.
Proof.
  intros Hb. unfold Closed.nearest.
  rewrite searchsorted_past_the_end.
  - rewrite length_timestamps. apply nth_error_None. lia.
  - intros a Ha. unfold Emlid.timestamps in Ha. apply in_map_iff in Ha.
    destruct Ha as (f & <- & Hf).
    destruct key as [q |]; [| reflexivity].
    cbn [Closed.beyond_track Pandas.before_key] in *.
    rewrite forallb_forall in Hb. apply Hb. exact Hf.
Qed.

(** ** Loading the track *)

Lemma load_fixed_eq rows ts :
  rows <> [] ->
  Forall2 (fun x t => Magna.row_to_time (Emlid.date x) (Emlid.time x) = ret t) rows ts ->
  Magna.load_fixed rows = ret (Closed.fixes_fixed rows ts).
Proof.
  intros Hne H. unfold Magna.load_fixed, Closed.fixes_fixed.
  rewrite (assign_apply_Forall2 _ _ rows ts Hne H), bind_ret. reflexivity.
Qed.

Lemma combine_columns {A B C} (f : A -> B) (g : A -> C) (rows : list A) (ts : list Z) :
  combine ts (combine (map f rows) (map g rows))
  = map (fun xt : A * Z => (snd xt, (f (fst xt), g (fst xt)))) (combine rows ts).
Proof.
  revert ts. induction rows as [| x rows IH]; intros [| t ts]; cbn; try reflexivity.
  rewrite IH. reflexivity.
Qed.

Lemma load_report_eq rows ts :
  rows <> [] ->
  Forall2 (fun x t => Magna.row_to_time (Emlid.YEAR_MM_DD x) (Emlid.HR_MN_SS_SS x) = ret t)
          rows ts ->
  Magna.load_report rows = ret (Closed.fixes_report rows ts).
Proof.
  intros Hne H. unfold Magna.load_report, Closed.fixes_report.
  rewrite (assign_apply_ret _
             (fun x => Magna.degree_dms2dec (Emlid.LATDD x) (Emlid.LATMN x) (Emlid.LATSS x))
             _ _ rows eq_refl) by reflexivity.
  rewrite bind_ret.
  rewrite (assign_apply_ret _
             (fun x => Magna.degree_dms2dec (Emlid.LONDD x) (Emlid.LONMN x) (Emlid.LONSS x))
             _ _ rows eq_refl) by reflexivity.
  rewrite bind_ret.
  rewrite (assign_apply_Forall2 _ _ rows ts Hne H), bind_ret.
  rewrite combine_columns, map_map. reflexivity.
Qed.

(** A correction file without rows gives no track: the assignment of the
    [timestamp] column raises. *)
Lemma empty_correction_file_raises pos :
  Emlid.read_fixed pos = [] -> Emlid.read_report pos = [] ->
  Magna.read_correction pos "PPK_correction" = raise ValueError
  /\ Magna.read_correction pos "PPP_correction" = raise ValueError.
Proof.
  intros Hf Hr. unfold Magna.read_correction, Magna.load_fixed, Magna.load_report.
  rewrite Hf, Hr. split; reflexivity.
Qed.

Lemma map_snd_combine {A B} (l : list A) (l' : list B) :
  List.length l = List.length l' -> map snd (combine l l') = l'.
Proof.
  revert l'. induction l as [| a l IH]; intros [| b l'] H; cbn in *; try congruence.
  f_equal. apply IH. lia.
Qed.

Lemma timestamps_fixes_fixed rows ts :
  List.length rows = List.length ts ->
  Emlid.timestamps (Closed.fixes_fixed rows ts) = ts.
Proof.
  intros H. unfold Emlid.timestamps, Closed.fixes_fixed.
  rewrite map_map. cbn [Emlid.timestamp]. apply map_snd_combine. exact H.
Qed.

Lemma timestamps_fixes_report rows ts :
  List.length rows = List.length ts ->
  Emlid.timestamps (Closed.fixes_report rows ts) = ts.
Proof.
  intros H. unfold Emlid.timestamps, Closed.fixes_report.
  rewrite map_map. cbn [Emlid.timestamp]. apply map_snd_combine. exact H.
Qed.

Lemma nth_error_last {A} (l : list A) (d : A) :
  l <> [] -> nth_error l (List.length l - 1) = Some (List.last l d).
Proof.
  induction l as [| a l IH]; [congruence |]. intros _.
  destruct l as [| b l]; [reflexivity |].
  cbn [List.length Nat.sub] in *. rewrite Nat.sub_0_r in *.
  change (List.last (a :: b :: l) d) with (List.last (b :: l) d).
  cbn [nth_error]. apply IH. discriminate.
Qed.

Lemma begin_and_end (ts : list Z) b rest :
  ts = b :: rest ->
  Pandas.iloc ts 0 = ret b /\ Pandas.iloc_last ts = ret (List.last ts b).
Proof.
  intros ->. split; [reflexivity |].
  unfold Pandas.iloc_last. rewrite (nth_error_last _ b) by discriminate. reflexivity.
Qed.

(** The event script tests the two names with an [if] and then an
    [if / else], so the PPK name falls into the [else] as well: the track is
    loaded and the invalid-mode message is printed all the same. *)
Lemma smp_ppk_also_prints_invalid pos df :
  Magna.load_fixed (Emlid.read_fixed pos) = ret df ->
  Smp.read_correction pos "PPK_correction"
  = (["enter a valid correction file"], inr (Some df)).
Proof.
  intros H. unfold Smp.read_correction.
  change (String.eqb "PPK_correction" "PPK_correction") with true.
  change (String.eqb "PPK_correction" "PPP_correction") with false.
  cbv iota. rewrite H. reflexivity.
Qed.

(** C3, as the code has it.  In both modes, when the file has rows and their
    date and time texts read as the instants [ts], the track has one fix per
    row in the order of the rows, with instants [ts] as they come: nothing
    sorts them.  [begin] is the instant of the first row and [end] that of the
    last row.  So the track is in non-decreasing order exactly when the rows
    are. *)
Theorem track_keeps_row_order :
  forall (pos : Emlid.pos_file) (ts : list Z) (b : Z) (rest : list Z),
    ts = b :: rest ->
    (Forall2 (fun x t => Magna.row_to_time (Emlid.date x) (Emlid.time x) = ret t)
             (Emlid.read_fixed pos) ts ->
     let df_emlid := Closed.fixes_fixed (Emlid.read_fixed pos) ts in
     Magna.read_correction pos "PPK_correction" = ret (Some df_emlid)
     /\ outcome (Smp.read_correction pos "PPK_correction") = inr (Some df_emlid)
     /\ Emlid.timestamps df_emlid = ts
     /\ Pandas.iloc (Emlid.timestamps df_emlid) 0 = ret b
     /\ Pandas.iloc_last (Emlid.timestamps df_emlid) = ret (List.last ts b)
     /\ Pandas.is_monotonic_increasing (Emlid.timestamps df_emlid)
        = Pandas.is_monotonic_increasing ts)
    /\ (Forall2 (fun x t => Magna.row_to_time (Emlid.YEAR_MM_DD x) (Emlid.HR_MN_SS_SS x) = ret t)
                (Emlid.read_report pos) ts ->
        let df_emlid := Closed.fixes_report (Emlid.read_report pos) ts in
        Magna.read_correction pos "PPP_correction" = ret (Some df_emlid)
        /\ outcome (Smp.read_correction pos "PPP_correction") = inr (Some df_emlid)
        /\ Emlid.timestamps df_emlid = ts
        /\ Pandas.iloc (Emlid.timestamps df_emlid) 0 = ret b
        /\ Pandas.iloc_last (Emlid.timestamps df_emlid) = ret (List.last ts b)
        /\ Pandas.is_monotonic_increasing (Emlid.timestamps df_emlid)
           = Pandas.is_monotonic_increasing ts).
Proof.
  intros pos ts b rest Ets. split; intros H df_emlid.
  - assert (Hne : Emlid.read_fixed pos <> []).
    { intros E. rewrite E in H. inversion H. congruence. }
    assert (Hts : Emlid.timestamps df_emlid = ts)
      by (apply timestamps_fixes_fixed, (Forall2_length H)).
    rewrite Hts. destruct (begin_and_end ts b rest Ets) as [Hb He].
    split; [| split; [| repeat split; assumption]].
    + unfold Magna.read_correction.
      change (String.eqb "PPK_correction" "PPK_correction") with true. cbv iota.
      rewrite (load_fixed_eq _ _ Hne H), bind_ret. reflexivity.
    + rewrite (smp_ppk_also_prints_invalid pos df_emlid (load_fixed_eq _ _ Hne H)).
      reflexivity.
  - assert (Hne : Emlid.read_report pos <> []).
    { intros E. rewrite E in H. inversion H. congruence. }
    assert (Hts : Emlid.timestamps df_emlid = ts)
      by (apply timestamps_fixes_report, (Forall2_length H)).
    rewrite Hts. destruct (begin_and_end ts b rest Ets) as [Hb He].
    split; [| split; [| repeat split; assumption]].
    + unfold Magna.read_correction.
      change (String.eqb "PPP_correction" "PPK_correction") with false.
      change (String.eqb "PPP_correction" "PPP_correction") with true. cbv iota.
      rewrite (load_report_eq _ _ Hne H), bind_ret. reflexivity.
    + unfold Smp.read_correction.
      change (String.eqb "PPP_correction" "PPK_correction") with false.
      change (String.eqb "PPP_correction" "PPP_correction") with true. cbv iota.
      rewrite bind_ret, (load_report_eq _ _ Hne H), bind_ret. reflexivity.
Qed.

Lemma track_keeps_row_order_witness :
  Emlid.timestamps (Closed.fixes_fixed (Emlid.read_fixed Sample.pos_backwards)
                                        [1702660320; 1702660260])
  = [1702660320; 1702660260].
Proof.
  refine (proj1 (proj2 (proj2 (proj1 (track_keeps_row_order Sample.pos_backwards
                                         [1702660320; 1702660260] 1702660320 [1702660260]
                                         eq_refl) _)))).
  constructor; [vm_compute; reflexivity |].
  constructor; [vm_compute; reflexivity |].
  constructor.
Defined.

(** C3 as stated fails: rows that arrive latest first give, in either mode,
    a track that is not in non-decreasing order, whose [begin] is later than
    its [end]. *)
Lemma track_of_unordered_rows_is_unordered :
  let ts := [1702660320; 1702660260] in
  (exists df_emlid,
      Magna.read_correction Sample.pos_backwards "PPK_correction" = ret (Some df_emlid)
      /\ Emlid.timestamps df_emlid = ts)
  /\ (exists df_emlid,
         Magna.read_correction Sample.pos_backwards "PPP_correction" = ret (Some df_emlid)
         /\ Emlid.timestamps df_emlid = ts)
  /\ Pandas.is_monotonic_increasing ts = false
  /\ Pandas.iloc ts 0 = ret 1702660320
  /\ Pandas.iloc_last ts = ret 1702660260.
Proof.
  cbv zeta. split; [| split; [| split; [| split]]].
  - eexists. split; vm_compute; reflexivity.
  - eexists. split; vm_compute; reflexivity.
  - reflexivity.
  - reflexivity.
  - reflexivity.
Qed.

(** ** The stream path as a whole *)

Lemma trim_In b e stamped x :
  In x (Magna.trim b e stamped) <-> In x stamped /\ b < snd x < e.
Proof.
  unfold Magna.trim. rewrite filter_In, andb_true_iff, !Z.ltb_lt. tauto.
Qed.

(** A record that survives the trimming is earlier than the last fix, so its
    look-up lands inside the track, ordered or not. *)
Lemma nearest_of_trimmed df b rest t :
  Emlid.timestamps df = b :: rest ->
  t < List.last (Emlid.timestamps df) b ->
  exists f, Closed.nearest df (Some t) = Some f.
Proof.
  intros Hts Ht. unfold Closed.nearest.
  assert (Hne : Emlid.timestamps df <> []) by (rewrite Hts; discriminate).
  assert (Hin : (Pandas.searchsorted (Emlid.timestamps df) (Some t)
                 < List.length (Emlid.timestamps df))%nat).
  { apply searchsorted_inside; [exact Hne |].
    cbn [Pandas.before_key]. apply Z.ltb_ge.
    pose proof (nth_error_last (Emlid.timestamps df) b Hne) as Hl.
    apply (nth_error_nth _ _ 0) in Hl. rewrite Hl. lia. }
  rewrite length_timestamps in Hin.
  destruct (nth_error df _) as [f |] eqn:E; [exists f; reflexivity |].
  apply nth_error_None in E. lia.
Qed.

(** The probe of [apply] looks up [NaT], which lands past the end of any
    track. *)
Lemma magna_probe_raises df :
  Magna.get_lat_emlid None df = raise IndexError
  /\ Magna.get_lon_emlid None df = raise IndexError.
Proof.
  rewrite magna_get_lat_emlid_eq, magna_get_lon_emlid_eq.
  fold (Closed.nearest df None).
  rewrite (beyond_track_past_the_end df None eq_refl). split; reflexivity.
Qed.

(** With a track loaded and every record stamped, the function either writes
    the trimmed records with their looked-up coordinates or, when the trimming
    leaves no record, prints that it failed and writes nothing. *)
Lemma magna_run rows pos output_csv_name mode out0 df b rest ts :
  Magna.read_correction pos mode = (out0, inr (Some df)) ->
  Emlid.timestamps df = b :: rest ->
  rows <> [] ->
  Forall2 (fun x t => Magna.timestamp_magna (Magna.TIMESTAMP x) (Magna.ThisUTCtime x) = ret t)
          rows ts ->
  let kept := Magna.trim b (List.last (Emlid.timestamps df) b) (combine rows ts) in
  (kept = [] ->
   Magna.magnaprobe_get_gps_correction rows pos output_csv_name mode
   = ((out0 ++ Closed.failed_lines)%list, inr None))
  /\ (kept <> [] ->
      exists written,
        Magna.magnaprobe_get_gps_correction rows pos output_csv_name mode
        = ((out0 ++ [Closed.output_named output_csv_name])%list, inr (Some written))
        /\ map Closed.record_of written = kept
        /\ forall o, In o written ->
             exists f, Closed.nearest df (Some (Magna.timestamp_utc o)) = Some f
                       /\ Magna.lat_emlid o = Emlid.lat f
                       /\ Magna.lon_emlid o = Emlid.lon f).
Proof.
  intros Hread Hts Hrows Hstamp kept.
  set (e := List.last (Emlid.timestamps df) b) in *.
  destruct (begin_and_end _ b rest Hts) as [Hb He]. fold e in He.
  split; intros Hkept.
  - unfold Magna.magnaprobe_get_gps_correction.
    rewrite Hread, bind_returned. cbn [or_raise]. rewrite bind_ret.
    rewrite Hb, bind_ret, He, bind_ret.
    rewrite (assign_apply_Forall2 _ _ rows ts Hrows Hstamp), bind_ret.
    cbv zeta. cbn [try_except ret]. rewrite bind_ret. cbn [or_raise]. rewrite bind_ret.
    fold kept. rewrite Hkept. cbn [assign_apply].
    rewrite (proj1 (magna_probe_raises df)).
    reflexivity.
  - set (row_of := fun x : Magna.magna_row * Z =>
           match Closed.nearest df (Some (snd x)) with
           | Some f => f
           | None => Emlid.mk_fix 0 0%float 0%float
           end).
    assert (Hnear : forall x, In x kept -> Closed.nearest df (Some (snd x)) = Some (row_of x)).
    { intros x Hx. apply trim_In in Hx. destruct Hx as [_ [_ Hlt]].
      destruct (nearest_of_trimmed df b rest (snd x) Hts Hlt) as [f Hf].
      unfold row_of. rewrite Hf. reflexivity. }
    exists (map (fun x => Magna.mk_magna_out (fst x) (snd x)
                            (Magna.latitude_a (fst x) + Magna.latitude_b (fst x) / 60)%float
                            (Magna.Longitude_a (fst x) + Magna.Longitude_b (fst x) / 60)%float
                            (Emlid.lat (row_of x)) (Emlid.lon (row_of x))) kept).
    split; [| split].
    + unfold Magna.magnaprobe_get_gps_correction.
      rewrite Hread, bind_returned. cbn [or_raise]. rewrite bind_ret.
      rewrite Hb, bind_ret, He, bind_ret.
      rewrite (assign_apply_Forall2 _ _ rows ts Hrows Hstamp), bind_ret.
      cbv zeta. cbn [try_except ret]. rewrite bind_ret. cbn [or_raise]. rewrite bind_ret.
      fold kept. rewrite !assign_apply_rows by exact Hkept.
      rewrite (apply_rows_ret _ (fun x => Emlid.lat (row_of x)))
        by (intros x Hx; rewrite magna_get_lat_emlid_eq;
            fold (Closed.nearest df (Some (snd x))); rewrite (Hnear x Hx); reflexivity).
      rewrite bind_ret.
      rewrite (apply_rows_ret _ (fun x => Emlid.lon (row_of x)))
        by (intros x Hx; rewrite magna_get_lon_emlid_eq;
            fold (Closed.nearest df (Some (snd x))); rewrite (Hnear x Hx); reflexivity).
      rewrite bind_ret. rewrite combine_map_pair, map_map.
      cbn [print bind ret Magna.except_ValueError fst snd app].
      unfold Closed.output_named. do 3 f_equal.
      apply map_ext. intros [x t]. reflexivity.
    + rewrite map_map. unfold Closed.record_of. cbn [Magna.source Magna.timestamp_utc].
      rewrite <- (map_id kept) at 2. apply map_ext. intros [x t]. reflexivity.
    + intros o Ho. apply in_map_iff in Ho. destruct Ho as (x & <- & Hx).
      cbn [Magna.timestamp_utc Magna.lat_emlid Magna.lon_emlid].
      exists (row_of x). split; [apply Hnear; exact Hx | split; reflexivity].
Qed.

(** C4.  With a track loaded and every record stamped, the records that the
    run retains are the stamped records whose instant [t] has
    [begin < t < end], in the order of the input: all of them and no others.
    [begin] and [end] are the first and last instants of the track.  A record
    whose instant equals [begin] or equals [end] is dropped; so a record at
    [begin] lies in the half-open span from [begin] to [end] and still is
    dropped.  When some record is retained the run writes exactly the retained
    records; when none is, it prints that it failed and writes nothing. *)
Theorem stream_is_trimmed_strictly :
  forall rows pos output_csv_name mode out0 df b rest ts,
    Magna.read_correction pos mode = (out0, inr (Some df)) ->
    Emlid.timestamps df = b :: rest ->
    rows <> [] ->
    Forall2 (fun x t => Magna.timestamp_magna (Magna.TIMESTAMP x) (Magna.ThisUTCtime x) = ret t)
            rows ts ->
    let e := List.last (Emlid.timestamps df) b in
    let stamped := combine rows ts in
    let retained := filter (fun x => (b <? snd x) && (snd x <? e)) stamped in
    let run := Magna.magnaprobe_get_gps_correction rows pos output_csv_name mode in
    Pandas.iloc (Emlid.timestamps df) 0 = ret b
    /\ Pandas.iloc_last (Emlid.timestamps df) = ret e
    /\ (forall x, In x retained <-> In x stamped /\ b < snd x < e)
    /\ (forall x, In x stamped -> snd x = b \/ snd x = e -> ~ In x retained)
    /\ (forall x, In x stamped -> snd x = b -> b < e -> (b <= snd x < e) /\ ~ In x retained)
    /\ (retained <> [] ->
        exists written,
          run = ((out0 ++ [Closed.output_named output_csv_name])%list, inr (Some written))
          /\ map Closed.record_of written = retained)
    /\ (retained = [] -> run = ((out0 ++ Closed.failed_lines)%list, inr None)).
Proof.
  intros rows pos name mode out0 df b rest ts Hread Hts Hrows Hstamp e stamped retained run.
  destruct (begin_and_end _ b rest Hts) as [Hb He].
  split; [exact Hb |]. split; [exact He |].
  assert (Hiff : forall x, In x retained <-> In x stamped /\ b < snd x < e).
  { intros x. apply trim_In. }
  split; [exact Hiff |]. split; [| split].
  - intros x _ Hedge Hin. apply Hiff in Hin. lia.
  - intros x _ Hx Hbe. split; [lia |]. intros Hin. apply Hiff in Hin. lia.
  - destruct (magna_run rows pos name mode out0 df b rest ts Hread Hts Hrows Hstamp)
      as [Hnone Hsome].
    split.
    + intros Hne. destruct (Hsome Hne) as (written & Hrun & Hrec & _).
      exists written. split; [exact Hrun | exact Hrec].
    + exact Hnone.
Qed.

Lemma stream_is_trimmed_strictly_witness :
  exists written,
    Magna.magnaprobe_get_gps_correction Sample.stream Sample.pos_ppk "out.csv" "PPK_correction"
    = (["output csv file named : out.csv"], inr (Some written))
    /\ map Closed.record_of written
       = [(Magna.mk_magna_row "2023-12-15 17:11:17" "171119"
                              45%float 30%float 75%float 30%float,
           1702660297)].
Proof.
  refine (proj1 (proj2 (proj2 (proj2 (proj2 (proj2
            (stream_is_trimmed_strictly Sample.stream Sample.pos_ppk "out.csv" "PPK_correction"
               [] Sample.track_ppk 1702660260 [1702660320]
               [1702660260; 1702660297; 1702660320; 1702660327] _ _ _ _)))))) _).
  - vm_compute. reflexivity.
  - reflexivity.
  - intros H. discriminate H.
  - repeat (constructor; [vm_compute; reflexivity |]). constructor.
  - vm_compute. intros H. discriminate H.
Defined.

(** ** The event path as a whole *)

Lemma when_eq b line : Smp.when b line = (Closed.lines_if b line, inr tt).
Proof. destruct b; reflexivity. Qed.

Lemma matching_rows_eq smp_df df_excel :
  smp_df <> [] ->
  apply_rows (Smp.matching_row smp_df) df_excel = ret (map (Closed.selected smp_df) df_excel).
Proof.
  intros Hne. apply apply_rows_ret. intros x _.
  unfold Smp.matching_row. destruct smp_df; [congruence | reflexivity].
Qed.

Lemma pd_concat_eq (list_rows : list (list Smp.smp_row)) :
  list_rows <> [] -> Smp.pd_concat list_rows = ret (List.concat list_rows).
Proof. destruct list_rows; [congruence | reflexivity]. Qed.

(** With a track loaded, at least one profile and at least one catalogue
    entry, the function runs to its end and writes the file: the warnings are
    printed lines, not exceptions. *)
Lemma smp_run path_smp_dir path_emlid output_csv_file correction_file_type out0 df_emlid :
  Smp.read_correction path_emlid correction_file_type = (out0, inr (Some df_emlid)) ->
  Smp.load_profiles path_smp_dir <> [] ->
  Smp.files output_csv_file <> [] ->
  let rows := Closed.df_smp_excel (Smp.load_profiles path_smp_dir) (Smp.files output_csv_file) in
  let cells := map (Closed.looked_up df_emlid) rows in
  Smp.smp_get_gps_correction path_smp_dir path_emlid output_csv_file correction_file_type =
  ((out0
    ++ Closed.lines_if
         (negb (Nat.eqb (List.length rows) (List.length (Smp.files output_csv_file))))
         Closed.missing_files
    ++ Closed.lines_if
         (Pandas.any_null (map Smp.lat_emlid cells) || Pandas.any_null (map Smp.lat_emlid cells))
         Closed.not_matched
    ++ [Closed.created (Smp.path output_csv_file)])%list,
   inr (Smp.mk_improved
          (Closed.improved_name (Smp.path output_csv_file))
          (Smp.files output_csv_file)
          cells)).
Proof.
  intros Hread Hdir Hxl rows cells.
  unfold Smp.smp_get_gps_correction.
  rewrite Hread, bind_returned. cbv zeta.
  rewrite (matching_rows_eq _ _ Hdir), bind_ret.
  rewrite pd_concat_eq by (destruct (Smp.files output_csv_file); [congruence | discriminate]).
  rewrite bind_ret. fold (Closed.df_smp_excel (Smp.load_profiles path_smp_dir)
                                               (Smp.files output_csv_file)).
  fold rows.
  rewrite when_eq, bind_returned.
  rewrite (assign_apply_ret _ (fun x => Smp.lat_emlid (Closed.looked_up df_emlid x)) _
             (option_map Emlid.lat (Closed.nearest df_emlid None)))
    by (try intros x _; cbn [or_raise]; rewrite bind_ret; apply smp_get_lat_emlid_eq).
  rewrite bind_ret.
  rewrite (assign_apply_ret _ (fun x => Smp.lon_emlid (Closed.looked_up df_emlid x)) _
             (option_map Emlid.lon (Closed.nearest df_emlid None)))
    by (try intros x _; cbn [or_raise]; rewrite bind_ret; apply smp_get_lon_emlid_eq).
  rewrite bind_ret.
  rewrite when_eq, bind_returned.
  rewrite combine_map_pair, map_map.
  unfold cells. rewrite map_map.
  cbn [fst snd print bind ret app]. reflexivity.
Qed.

(** C5.  In the event path a look-up whose instant is later than every fix
    of the track, or is absent, answers [None] for the latitude and for the
    longitude instead of raising.  The look-ups over a batch of events, few or
    none, never raise, and each event gets the answer of its own look-up.
    With a track loaded the run goes on to write its file, in which every
    such event has both corrected coordinates unset. *)
Theorem event_beyond_track_is_left_unset :
  forall path_smp_dir path_emlid output_csv_file correction_file_type out0 df_emlid,
    Smp.read_correction path_emlid correction_file_type = (out0, inr (Some df_emlid)) ->
    Smp.load_profiles path_smp_dir <> [] ->
    Smp.files output_csv_file <> [] ->
    (forall key,
        Closed.beyond_track df_emlid key = true ->
        Smp.get_lat_emlid key df_emlid = ret None
        /\ Smp.get_lon_emlid key df_emlid = ret None)
    /\ (forall events,
           assign_apply (fun x => Smp.get_lat_emlid (Smp.timestamp x) df_emlid)
                        (Smp.get_lat_emlid None df_emlid) events
           = ret (map (fun x => Smp.lat_emlid (Closed.looked_up df_emlid x)) events)
           /\ assign_apply (fun x => Smp.get_lon_emlid (Smp.timestamp x) df_emlid)
                           (Smp.get_lon_emlid None df_emlid) events
              = ret (map (fun x => Smp.lon_emlid (Closed.looked_up df_emlid x)) events))
    /\ exists out written,
        Smp.smp_get_gps_correction path_smp_dir path_emlid output_csv_file correction_file_type
        = (out, inr written)
        /\ map Smp.event (Smp.right_columns written)
           = Closed.df_smp_excel (Smp.load_profiles path_smp_dir) (Smp.files output_csv_file)
        /\ forall o,
            In o (Smp.right_columns written) ->
            Closed.beyond_track df_emlid (Smp.timestamp (Smp.event o)) = true ->
            Smp.lat_emlid o = None /\ Smp.lon_emlid o = None.
Proof.
  intros dir pos xl mode out0 df Hread Hdir Hxl.
  split; [| split].
  - intros key Hb. rewrite smp_get_lat_emlid_eq, smp_get_lon_emlid_eq.
    fold (Closed.nearest df key). rewrite (beyond_track_past_the_end df key Hb).
    split; reflexivity.
  - intros events. split.
    + apply (assign_apply_ret _ _ _ _ events (smp_get_lat_emlid_eq None df)).
      intros x _. apply smp_get_lat_emlid_eq.
    + apply (assign_apply_ret _ _ _ _ events (smp_get_lon_emlid_eq None df)).
      intros x _. apply smp_get_lon_emlid_eq.
  - rewrite (smp_run dir pos xl mode out0 df Hread Hdir Hxl).
    eexists _, _. split; [reflexivity |]. cbn [Smp.right_columns]. split.
    + rewrite map_map. cbn [Closed.looked_up Smp.event]. apply map_id.
    + intros o Ho Hb. apply in_map_iff in Ho. destruct Ho as (x & <- & _).
      cbn [Closed.looked_up Smp.event Smp.lat_emlid Smp.lon_emlid] in *.
      rewrite (beyond_track_past_the_end df _ Hb). split; reflexivity.
Qed.

Lemma event_beyond_track_is_left_unset_witness :
  exists out written,
    Smp.smp_get_gps_correction Sample.profiles Sample.pos_ppk Sample.catalogue "PPK_correction"
    = (out, inr written)
    /\ map Smp.event (Smp.right_columns written)
       = Closed.df_smp_excel (Smp.load_profiles Sample.profiles) (Smp.files Sample.catalogue)
    /\ forall o,
        In o (Smp.right_columns written) ->
        Closed.beyond_track Sample.track_ppk (Smp.timestamp (Smp.event o)) = true ->
        Smp.lat_emlid o = None /\ Smp.lon_emlid o = None.
Proof.
  refine (proj2 (proj2 (event_beyond_track_is_left_unset
            Sample.profiles Sample.pos_ppk Sample.catalogue "PPK_correction"
            ["enter a valid correction file"] Sample.track_ppk _ _ _))).
  - vm_compute. reflexivity.
  - vm_compute. intros H. discriminate H.
  - vm_compute. intros H. discriminate H.
Defined.

Lemma length_concat_sum {A} (ls : list (list A)) :
  List.length (List.concat ls) = list_sum (map (@List.length A) ls).
Proof.
  induction ls as [| l ls IH]; [reflexivity |].
  cbn [List.concat map list_sum]. rewrite length_app, IH. reflexivity.
Qed.

Lemma list_sum_all_ones {A} (f : A -> nat) (l : list A) :
  (forall x, In x l -> f x = 1%nat) -> list_sum (map f l) = List.length l.
Proof.
  induction l as [| a l IH]; intros H; [reflexivity |].
  cbn [map List.length].
  change (list_sum (f a :: map f l)) with (f a + list_sum (map f l))%nat.
  rewrite (H a) by (left; reflexivity).
  rewrite IH by (intros x Hx; apply H; right; exact Hx). reflexivity.
Qed.

(** The functions that read the track print nothing themselves; the one
    line that the branch on the correction type can print is its
    invalid-type message. *)
Lemma printed_bind {A B} (c : Py A) (k : A -> Py B) :
  printed (bind c k)
  = (printed c ++ match outcome c with inr x => printed (k x) | inl _ => [] end)%list.
Proof.
  destruct c as [out [e | x]]; cbn [bind printed outcome fst snd].
  - rewrite app_nil_r. reflexivity.
  - destruct (k x) as [out' r]. reflexivity.
Qed.

Lemma bind_silent {A B} (c : Py A) (k : A -> Py B) :
  printed c = [] -> (forall x, printed (k x) = []) -> printed (bind c k) = [].
Proof.
  intros Hc Hk. rewrite printed_bind, Hc. destruct (outcome c); [reflexivity | apply Hk].
Qed.

Lemma or_raise_silent {A} e (o : option A) : printed (or_raise e o) = [].
Proof. destruct o; reflexivity. Qed.

Lemma row_to_time_silent date_str time_str :
  printed (Magna.row_to_time date_str time_str) = [].
Proof.
  unfold Magna.row_to_time.
  apply bind_silent; [apply or_raise_silent | intros date].
  apply bind_silent; [apply or_raise_silent | intros time].
  apply or_raise_silent.
Qed.

Lemma apply_rows_silent {A B} (f : A -> Py B) rows :
  (forall x, printed (f x) = []) -> printed (apply_rows f rows) = [].
Proof.
  intros Hf. induction rows as [| r rest IH]; [reflexivity |].
  cbn [apply_rows]. apply bind_silent; [apply Hf | intros y].
  apply bind_silent; [exact IH | reflexivity].
Qed.

Lemma assign_apply_silent {A B} (f : A -> Py B) probe rows :
  printed probe = [] -> (forall x, printed (f x) = []) ->
  printed (assign_apply f probe rows) = [].
Proof.
  intros Hp Hf. destruct rows as [| r rest].
  - cbn [assign_apply]. destruct probe as [out [e | y]]; exact Hp.
  - rewrite assign_apply_rows by discriminate. apply apply_rows_silent, Hf.
Qed.

Lemma load_fixed_silent rows : printed (Magna.load_fixed rows) = [].
Proof.
  unfold Magna.load_fixed. apply bind_silent; [| reflexivity].
  apply assign_apply_silent; [reflexivity | intros x; apply row_to_time_silent].
Qed.

Lemma load_report_silent rows : printed (Magna.load_report rows) = [].
Proof.
  unfold Magna.load_report.
  apply bind_silent; [apply assign_apply_silent; reflexivity | intros lat].
  apply bind_silent; [apply assign_apply_silent; reflexivity | intros lon].
  apply bind_silent; [| reflexivity].
  apply assign_apply_silent; [reflexivity | intros x; apply row_to_time_silent].
Qed.

Lemma loader_prints_only_invalid pos mode line :
  In line (printed (Smp.read_correction pos mode)) -> line = "enter a valid correction file".
Proof.
  unfold Smp.read_correction. rewrite printed_bind.
  assert (H1 : printed (if String.eqb mode "PPK_correction"
                        then df <- Magna.load_fixed (Emlid.read_fixed pos) ;; ret (Some df)
                        else ret None) = []).
  { destruct (String.eqb mode "PPK_correction"); [| reflexivity].
    apply bind_silent; [apply load_fixed_silent | reflexivity]. }
  rewrite H1. cbn [app].
  destruct (outcome _) as [e | after_first]; [intros [] |].
  destruct (String.eqb mode "PPP_correction").
  - rewrite bind_silent; [intros [] | apply load_report_silent | reflexivity].
  - cbn. intros [H | []]. symmetry. exact H.
Qed.

(** With no track assigned the run still selects the events and makes its
    count test, and stops at the look-ups. *)
Lemma smp_run_unassigned path_smp_dir path_emlid output_csv_file correction_file_type out0 :
  Smp.read_correction path_emlid correction_file_type = (out0, inr None) ->
  Smp.load_profiles path_smp_dir <> [] ->
  Smp.files output_csv_file <> [] ->
  let rows := Closed.df_smp_excel (Smp.load_profiles path_smp_dir) (Smp.files output_csv_file) in
  Smp.smp_get_gps_correction path_smp_dir path_emlid output_csv_file correction_file_type =
  ((out0
    ++ Closed.lines_if
         (negb (Nat.eqb (List.length rows) (List.length (Smp.files output_csv_file))))
         Closed.missing_files)%list,
   inl (match rows with [] => ValueError | _ => NameError end)).
Proof.
  intros Hread Hdir Hxl rows. unfold Smp.smp_get_gps_correction.
  rewrite Hread, bind_returned. cbv zeta.
  rewrite (matching_rows_eq _ _ Hdir), bind_ret.
  rewrite pd_concat_eq by (destruct (Smp.files output_csv_file); [congruence | discriminate]).
  rewrite bind_ret.
  fold (Closed.df_smp_excel (Smp.load_profiles path_smp_dir) (Smp.files output_csv_file)).
  fold rows.
  rewrite when_eq, bind_returned.
  destruct rows as [| r rest] eqn:E.
  - cbn [assign_apply or_raise bind raise fst snd app]. rewrite app_nil_r. reflexivity.
  - rewrite assign_apply_rows by discriminate.
    rewrite (apply_rows_raises _ _ NameError) by (try discriminate; reflexivity).
    cbn [bind raise fst snd app]. rewrite app_nil_r. reflexivity.
Qed.

(** A directory without events ends the run at the first catalogue entry, a
    catalogue without entries at the concatenation. *)
Lemma smp_run_no_events path_smp_dir path_emlid output_csv_file correction_file_type
      out0 assigned :
  Smp.read_correction path_emlid correction_file_type = (out0, inr assigned) ->
  Smp.load_profiles path_smp_dir = [] ->
  Smp.files output_csv_file <> [] ->
  Smp.smp_get_gps_correction path_smp_dir path_emlid output_csv_file correction_file_type
  = (out0, inl AttributeError).
Proof.
  intros Hread Hdir Hxl.
  unfold Smp.smp_get_gps_correction. rewrite Hread, bind_returned, Hdir. cbv zeta.
  destruct (Smp.files output_csv_file) as [| f rest]; [congruence |].
  cbn. rewrite app_nil_r. reflexivity.
Qed.

Lemma smp_run_no_entries path_smp_dir path_emlid output_csv_file correction_file_type
      out0 assigned :
  Smp.read_correction path_emlid correction_file_type = (out0, inr assigned) ->
  Smp.files output_csv_file = [] ->
  Smp.smp_get_gps_correction path_smp_dir path_emlid output_csv_file correction_file_type
  = (out0, inl ValueError).
Proof.
  intros Hread Hxl.
  unfold Smp.smp_get_gps_correction. rewrite Hread, bind_returned, Hxl. cbv zeta.
  cbn. rewrite app_nil_r. reflexivity.
Qed.

Lemma lines_if_In b line x : In x (Closed.lines_if b line) <-> b = true /\ x = line.
Proof.
  destruct b; cbn; split.
  - intros [H | []]. split; [reflexivity | symmetry; exact H].
  - intros [_ H]. left. symmetry. exact H.
  - intros [].
  - intros [H _]. discriminate H.
Qed.

(** C8, as the code has it.  Every catalogue entry selects the events whose
    name has the entry's fragment somewhere in its last eight characters, and
    keeps all of them; no entry is tested for the number of events it
    selects.  Once the correction type has been dealt with, and when the
    directory holds an event and the catalogue holds an entry, the run prints
    the integrity warning exactly when the number of selected events, summed
    over all entries, differs from the number of entries, so it prints none
    when every entry selects exactly one event; the warning ends nothing, and
    with a track loaded the run goes on and writes its file with all the
    selected events.  A directory without events ends the run with
    [AttributeError] at the first entry, although the numbers differ, and a
    catalogue without entries ends it with [ValueError] at the concatenation;
    in neither case is the warning printed. *)
Theorem catalogue_matching_and_count_warning :
  forall path_smp_dir path_emlid output_csv_file correction_file_type out0 assigned,
    Smp.read_correction path_emlid correction_file_type = (out0, inr assigned) ->
    let smp_df := Smp.load_profiles path_smp_dir in
    let df_excel := Smp.files output_csv_file in
    let total := list_sum (map (fun row_file => List.length (Closed.selected smp_df row_file))
                               df_excel) in
    let run := Smp.smp_get_gps_correction path_smp_dir path_emlid output_csv_file
                                          correction_file_type in
    (forall row_file,
        (smp_df <> [] ->
         Smp.matching_row smp_df row_file = ret (Closed.selected smp_df row_file))
        /\ forall r, In r (Closed.selected smp_df row_file) <->
                     In r smp_df
                     /\ PyStr.str_in row_file (PyStr.last_chars 8 (Smp.name r)) = true)
    /\ (smp_df <> [] -> df_excel <> [] ->
        (In Closed.missing_files (printed run) <-> total <> List.length df_excel)
        /\ (forall df_emlid, assigned = Some df_emlid ->
              exists written,
                outcome run = inr written
                /\ map Smp.event (Smp.right_columns written)
                   = List.concat (map (Closed.selected smp_df) df_excel)))
    /\ (smp_df = [] -> df_excel <> [] ->
        run = (out0, inl AttributeError)
        /\ ~ In Closed.missing_files (printed run)
        /\ total <> List.length df_excel)
    /\ (df_excel = [] ->
        run = (out0, inl ValueError) /\ ~ In Closed.missing_files (printed run))
    /\ ((forall row_file, In row_file df_excel ->
                          List.length (Closed.selected smp_df row_file) = 1%nat) ->
        total = List.length df_excel).
Proof.
  intros dir pos xl mode out0 assigned Hread smp_df df_excel total run.
  assert (Hout0 : ~ In Closed.missing_files out0).
  { intros Hin. pose proof (loader_prints_only_invalid pos mode Closed.missing_files) as H.
    rewrite Hread in H. specialize (H Hin). discriminate H. }
  assert (Htotal : List.length (Closed.df_smp_excel smp_df df_excel) = total).
  { unfold Closed.df_smp_excel. rewrite length_concat_sum, map_map. reflexivity. }
  split; [| split; [| split; [| split]]].
  - intros row_file. split.
    + intros Hdir. unfold Smp.matching_row. destruct smp_df; [congruence | reflexivity].
    + intros r. unfold Closed.selected. apply filter_In.
  - intros Hdir Hxl.
    assert (Hprinted : In Closed.missing_files (printed run)
                       <-> total <> List.length df_excel).
    { assert (Hshape : exists rest,
                 printed run
                 = (out0 ++ Closed.lines_if (negb (Nat.eqb total (List.length df_excel)))
                                            Closed.missing_files ++ rest)%list
                 /\ ~ In Closed.missing_files rest).
      { unfold run. destruct assigned as [df |].
        - rewrite (smp_run dir pos xl mode out0 df Hread Hdir Hxl). cbv zeta.
          fold smp_df. fold df_excel. rewrite Htotal. eexists. split; [reflexivity |].
          intros Hin. apply in_app_or in Hin. destruct Hin as [Hin | Hin].
          + apply lines_if_In in Hin. destruct Hin as [_ Hin]. discriminate Hin.
          + destruct Hin as [Hin | []]. discriminate Hin.
        - rewrite (smp_run_unassigned dir pos xl mode out0 Hread Hdir Hxl). cbv zeta.
          fold smp_df. fold df_excel. rewrite Htotal. exists []. rewrite app_nil_r.
          split; [reflexivity | intros []]. }
      destruct Hshape as (rest & -> & Hrest). rewrite !in_app_iff, lines_if_In.
      rewrite negb_true_iff, Nat.eqb_neq. tauto. }
    split; [exact Hprinted |].
    intros df ->. unfold run.
    rewrite (smp_run dir pos xl mode out0 df Hread Hdir Hxl). cbv zeta.
    eexists. split; [reflexivity |].
    cbn [Smp.right_columns]. rewrite map_map. cbn [Closed.looked_up Smp.event].
    rewrite map_id. reflexivity.
  - intros Hdir Hxl. unfold run.
    rewrite (smp_run_no_events dir pos xl mode out0 assigned Hread Hdir Hxl).
    split; [reflexivity |]. split; [exact Hout0 |].
    rewrite <- Htotal. unfold Closed.df_smp_excel.
    replace (map (Closed.selected smp_df) df_excel) with (map (fun _ : string => @nil Smp.smp_row) df_excel)
      by (apply map_ext; intros f; unfold Closed.selected; rewrite Hdir; reflexivity).
    assert (E : forall l : list string,
               List.concat (map (fun _ : string => @nil Smp.smp_row) l) = [])
      by (induction l; [reflexivity | assumption]).
    rewrite E. destruct df_excel; [congruence | discriminate].
  - intros Hxl. unfold run.
    rewrite (smp_run_no_entries dir pos xl mode out0 assigned Hread Hxl).
    split; [reflexivity | exact Hout0].
  - intros Hone. unfold total. apply (list_sum_all_ones _ df_excel Hone).
Qed.

Lemma catalogue_matching_and_count_warning_witness :
  ~ In Closed.missing_files
       (printed (Smp.smp_get_gps_correction Sample.profile_one Sample.pos_ppp
                                            Sample.catalogue_one "PPP_correction")).
Proof.
  pose proof (catalogue_matching_and_count_warning
                Sample.profile_one Sample.pos_ppp Sample.catalogue_one "PPP_correction"
                [] (Some Sample.track_ppk) eq_refl) as H.
  cbv zeta in H. destruct H as (_ & Hcount & _ & _ & Hone).
  destruct Hcount as [Hiff _].
  - vm_compute. intros H. discriminate H.
  - vm_compute. intros H. discriminate H.
  - intros Hin. apply Hiff in Hin. apply Hin. apply Hone.
    vm_compute. intros row_file [<- | []]. reflexivity.
Defined.

(** C8 as stated fails: the first of two catalogue entries selects two
    events and the second selects none, and the run prints no integrity
    warning at all. *)
Lemma duplicate_and_missing_match_unreported :
  List.length (Closed.selected (Smp.load_profiles Sample.profiles_alike) "0001") = 2%nat
  /\ List.length (Closed.selected (Smp.load_profiles Sample.profiles_alike) "0002") = 0%nat
  /\ printed (Smp.smp_get_gps_correction Sample.profiles_alike Sample.pos_ppp
                                         Sample.catalogue_two "PPP_correction")
     = [Closed.created "smp.xlsx"].
Proof. vm_compute. repeat split. Qed.

(** The test before the second warning reads the latitude column twice.  An
    event left without a latitude is reported, and the file is written all
    the same. *)
Lemma unset_latitude_is_reported
      path_smp_dir path_emlid output_csv_file correction_file_type out0 df_emlid :
  Smp.read_correction path_emlid correction_file_type = (out0, inr (Some df_emlid)) ->
  Smp.load_profiles path_smp_dir <> [] ->
  Smp.files output_csv_file <> [] ->
  let run := Smp.smp_get_gps_correction path_smp_dir path_emlid output_csv_file
                                        correction_file_type in
  exists written,
    outcome run = inr written
    /\ (Pandas.any_null (map Smp.lat_emlid (Smp.right_columns written)) = true ->
        In Closed.not_matched (printed run)).
Proof.
  intros Hread Hdir Hxl run. unfold run.
  rewrite (smp_run _ _ _ _ out0 df_emlid Hread Hdir Hxl). cbv zeta.
  eexists. split; [reflexivity |].
  cbn [Smp.right_columns printed fst]. intros Hnull. rewrite Hnull.
  apply in_or_app. right. apply in_or_app. right. left. reflexivity.
Qed.

(** C9 at a failing input.  The second fix of the track has no longitude
    (an empty field of the PPK file).  The one event of the catalogue is
    matched to that fix: its corrected latitude is set, its corrected
    longitude is null, and the run prints no warning about an unmatched
    position: the test reads [lat_emlid] on both sides of its [or].  The one
    other line printed besides the closing message is the invalid-mode
    message that the PPK mode also gets. *)
Theorem unset_longitude_goes_unreported :
  let run := Smp.smp_get_gps_correction Sample.profile_one Sample.pos_ppk_blank
                                        Sample.catalogue_one "PPK_correction" in
  exists written o,
    outcome run = inr written
    /\ Smp.right_columns written = [o]
    /\ Pandas.isnull (Smp.lat_emlid o) = false
    /\ Pandas.isnull (Smp.lon_emlid o) = true
    /\ printed run = ["enter a valid correction file"; Closed.created "smp.xlsx"]
    /\ ~ In Closed.not_matched (printed run).
Proof.
  cbv zeta. eexists _, _.
  split; [vm_compute; reflexivity |].
  split; [reflexivity |].
  split; [vm_compute; reflexivity |].
  split; [vm_compute; reflexivity |].
  split; [vm_compute; reflexivity |].
  vm_compute. intros [H | [H | []]]; discriminate H.
Qed.

(** ** An unrecognised correction type *)

(** C6 on the code.  For a correction type that is neither of the two names,
    the branch that reads the correction file raises nothing: it prints
    [enter a valid correction file], assigns no track, and the function goes
    on.  The stream script then stops at its next statement, the read of
    [begin], on the unassigned [df_emlid]; the event script first reads the
    catalogue, selects the events and prints its count warning, and stops on
    the unassigned track at the look-ups: at the first one when an event is
    selected, at the column assignment when none is.  Neither writes a file. *)
Theorem unknown_mode_is_printed_not_raised :
  forall mode : string,
    mode <> "PPK_correction" ->
    mode <> "PPP_correction" ->
    (forall pos, Magna.read_correction pos mode = (["enter a valid correction file"], inr None))
    /\ (forall rows pos output_csv_name,
           Magna.magnaprobe_get_gps_correction rows pos output_csv_name mode
           = (["enter a valid correction file"], inl UnboundLocalError))
    /\ (forall pos, Smp.read_correction pos mode = (["enter a valid correction file"], inr None))
    /\ (forall dir pos xl,
           Smp.load_profiles dir <> [] ->
           Smp.files xl <> [] ->
           let rows := Closed.df_smp_excel (Smp.load_profiles dir) (Smp.files xl) in
           Smp.smp_get_gps_correction dir pos xl mode
           = (("enter a valid correction file"
               :: Closed.lines_if
                    (negb (Nat.eqb (List.length rows) (List.length (Smp.files xl))))
                    Closed.missing_files)%list,
              inl (match rows with [] => ValueError | _ => NameError end))).
Proof.
  intros mode Hppk Hppp.
  apply String.eqb_neq in Hppk, Hppp.
  assert (Hm : forall pos, Magna.read_correction pos mode
                           = (["enter a valid correction file"], inr None)).
  { intros pos. unfold Magna.read_correction. rewrite Hppk, Hppp. reflexivity. }
  assert (Hs : forall pos, Smp.read_correction pos mode
                           = (["enter a valid correction file"], inr None)).
  { intros pos. unfold Smp.read_correction. rewrite Hppk, Hppp. reflexivity. }
  split; [exact Hm |]. split; [| split; [exact Hs |]].
  - intros rows pos name. unfold Magna.magnaprobe_get_gps_correction.
    rewrite Hm. reflexivity.
  - intros dir pos xl Hdir Hxl rows. unfold Smp.smp_get_gps_correction.
    rewrite Hs, bind_returned. cbv zeta.
    rewrite (matching_rows_eq _ _ Hdir), bind_ret.
    rewrite pd_concat_eq by (destruct (Smp.files xl); [congruence | discriminate]).
    rewrite bind_ret.
    fold (Closed.df_smp_excel (Smp.load_profiles dir) (Smp.files xl)). fold rows.
    rewrite when_eq, bind_returned.
    destruct rows as [| r rest] eqn:E.
    + cbn [assign_apply or_raise bind raise fst snd app]. rewrite app_nil_r. reflexivity.
    + rewrite assign_apply_rows by discriminate.
      rewrite (apply_rows_raises _ _ NameError) by (try discriminate; reflexivity).
      cbn [bind raise fst snd app]. rewrite app_nil_r. reflexivity.
Qed.

Lemma unknown_mode_is_printed_not_raised_witness :
  Magna.magnaprobe_get_gps_correction [] Sample.pos_ppk "out.csv" "RTK_correction"
  = (["enter a valid correction file"], inl UnboundLocalError).
Proof.
  refine (proj1 (proj2 (unknown_mode_is_printed_not_raised "RTK_correction" _ _)) _ _ _).
  - intros H. discriminate H.
  - intros H. discriminate H.
Defined.

(** * Further properties of the two scripts *)

(** ** Reading an instant from two texts *)

Lemma parse_fields text a :
  Dateutil.parse text = Some a ->
  exists y m d hh mi ss,
    Dateutil.ymd a = (y, m, d) /\ Dateutil.hms a = (hh, mi, ss)
    /\ Calendar.valid_date y m d = true /\ Calendar.valid_time hh mi ss = true.
Proof.
  unfold Dateutil.parse.
  destruct (Pandas.read_date _ text) as [[[y m] d] |] eqn:Hd.
  - intros H. inversion H; subst. exists y, m, d, 0, 0, 0. cbn.
    repeat split. exact (read_date_valid _ _ _ _ _ Hd).
  - destruct (Pandas.read_time _) as [[[hh mi] ss] |] eqn:Ht; [| discriminate].
    pose proof (read_time_valid _ _ _ _ Ht) as Hv.
    intros H. exists 2024, 1, 1, hh, mi, ss.
    destruct (PyStr.slice_from 8 text) as [| c frac].
    + inversion H; subst. cbn. repeat split. exact Hv.
    + destruct (_ && _); [| discriminate]. inversion H; subst. cbn. repeat split. exact Hv.
Qed.

Lemma to_datetime_of_date_and_clock y m d hh mi ss :
  Calendar.valid_date y m d = true ->
  1678 <= y <= 2261 ->
  Calendar.valid_time hh mi ss = true ->
  Pandas.to_datetime (Pandas.strftime_Ymd (y, m, d) ++ "T" ++ Pandas.strftime_HMS (hh, mi, ss))
  = Some (Pandas.timestamp_of y m d hh mi ss).
Proof.
  intros Hd Hy Ht. pose proof (valid_time_bounds _ _ _ Ht) as Hb.
  unfold Pandas.strftime_HMS, PyStr.fmt2.
  cbn [String.append].
  apply to_datetime_of_text; try assumption; apply num2_fmt2; lia.
Qed.

(** X1.  [row_to_time] takes the calendar date from what [parse] makes of its
    first text and the clock time from what [parse] makes of its second text,
    and nothing else from either: for a date of the years 1678 to 2261 it
    returns the instant of that date at that clock time, whole seconds. *)
Theorem row_to_time_combines_date_and_clock :
  forall date_str time_str a b y m d hh mi ss,
    Dateutil.parse date_str = Some a ->
    Dateutil.parse time_str = Some b ->
    Dateutil.ymd a = (y, m, d) ->
    Dateutil.hms b = (hh, mi, ss) ->
    1678 <= y <= 2261 ->
    Magna.row_to_time date_str time_str = ret (Pandas.timestamp_of y m d hh mi ss)
    /\ Smp.row_to_time date_str time_str = ret (Pandas.timestamp_of y m d hh mi ss)
    /\ Pandas.date (Pandas.timestamp_of y m d hh mi ss) = (y, m, d)
    /\ Pandas.time_of_day (Pandas.timestamp_of y m d hh mi ss) = hh * 3600 + mi * 60 + ss.
Proof.
  intros date_str time_str a b y m d hh mi ss Ha Hb Hymd Hhms Hy.
  destruct (parse_fields _ _ Ha) as (y' & m' & d' & ? & ? & ? & E1 & _ & Hvd & _).
  destruct (parse_fields _ _ Hb) as (? & ? & ? & hh' & mi' & ss' & _ & E2 & _ & Hvt).
  rewrite Hymd in E1. rewrite Hhms in E2. inversion E1; inversion E2; subst.
  assert (Hrun : Magna.row_to_time date_str time_str
                 = ret (Pandas.timestamp_of y' m' d' hh' mi' ss')).
  { unfold Magna.row_to_time. rewrite Ha, Hb. cbn [or_raise]. rewrite !bind_ret.
    rewrite Hymd, Hhms.
    rewrite (to_datetime_of_date_and_clock _ _ _ _ _ _ Hvd Hy Hvt). reflexivity. }
  split; [exact Hrun |]. split; [exact Hrun |].
  apply date_timestamp_of; assumption.
Qed.

Lemma row_to_time_combines_date_and_clock_witness :
  Magna.row_to_time "2023/12/15" "17:11:19.200" = ret (Pandas.timestamp_of 2023 12 15 17 11 19).
Proof.
  refine (proj1 (row_to_time_combines_date_and_clock "2023/12/15" "17:11:19.200"
            (Dateutil.mk_datetime (2023, 12, 15) (0, 0, 0))
            (Dateutil.mk_datetime Dateutil.today (17, 11, 19))
            2023 12 15 17 11 19 _ _ _ _ _)).
  - vm_compute. reflexivity.
  - vm_compute. reflexivity.
  - reflexivity.
  - reflexivity.
  - lia.
Defined.

Lemma substring_all s : substring 0 (String.length s) s = s.
Proof. induction s as [| c s IH]; [reflexivity |]. cbn. rewrite IH. reflexivity. Qed.

Lemma digit_is_no_date_separator c d :
  PyStr.digit_of_char c = Some d -> Pandas.is_sep ["-"%char; "/"%char] c = false.
Proof.
  intros H. unfold Pandas.is_sep. cbn [existsb].
  destruct (Ascii.eqb c "-") eqn:E1; [apply Ascii.eqb_eq in E1; subst; discriminate H |].
  destruct (Ascii.eqb c "/") eqn:E2; [apply Ascii.eqb_eq in E2; subst; discriminate H |].
  reflexivity.
Qed.

(** A clock text, with or without a fraction of a second, reads as its hours,
    minutes and whole seconds. *)
Lemma parse_clock_text clock frac hh mi ss :
  Pandas.read_time clock = Some (hh, mi, ss) ->
  PyStr.all_digits frac = true ->
  Dateutil.parse clock = Some (Dateutil.mk_datetime Dateutil.today (hh, mi, ss))
  /\ Dateutil.parse (clock ++ "." ++ frac)
     = Some (Dateutil.mk_datetime Dateutil.today (hh, mi, ss)).
Proof.
  intros Ht Hf.
  assert (Hshape : exists h1 h2 c1 m1 m2 c2 s1 s2 dm,
            clock = String h1 (String h2 (String c1 (String m1 (String m2
                      (String c2 (String s1 (String s2 "")))))))
            /\ PyStr.digit_of_char m2 = Some dm).
  { pose proof (string_of_list_ascii_of_string clock) as E.
    revert Ht. unfold Pandas.read_time.
    destruct (list_ascii_of_string clock) as [| h1 l]; [discriminate |].
    destruct l as [| h2 l]; [discriminate |].
    destruct l as [| c1 l]; [discriminate |].
    destruct l as [| m1 l]; [discriminate |].
    destruct l as [| m2 l]; [discriminate |].
    destruct l as [| c2 l]; [discriminate |].
    destruct l as [| s1 l]; [discriminate |].
    destruct l as [| s2 l]; [discriminate |].
    destruct l; [| discriminate].
    destruct (_ && _); [| discriminate].
    destruct (PyStr.num2 h1 h2); [| discriminate].
    unfold PyStr.num2 at 1.
    destruct (PyStr.digit_of_char m1); [| discriminate].
    destruct (PyStr.digit_of_char m2) as [dm |] eqn:Em; [| discriminate].
    intros _. exists h1, h2, c1, m1, m2, c2, s1, s2, dm.
    split; [symmetry; exact E | exact Em]. }
  destruct Hshape as (h1 & h2 & c1 & m1 & m2 & c2 & s1 & s2 & dm & -> & Hm2).
  pose proof (digit_is_no_date_separator m2 dm Hm2) as Hsep.
  split.
  - unfold Dateutil.parse. cbn [Pandas.read_date list_ascii_of_string].
    unfold PyStr.slice_to, PyStr.slice_from.
    cbn [substring String.length Nat.sub]. rewrite Ht. reflexivity.
  - unfold Dateutil.parse.
    assert (Hdate : Pandas.read_date ["-"%char; "/"%char]
                      (String h1 (String h2 (String c1 (String m1 (String m2
                         (String c2 (String s1 (String s2 ""))))))) ++ "." ++ frac) = None).
    { unfold Pandas.read_date. cbn [String.append list_ascii_of_string].
      destruct (list_ascii_of_string frac) as [| f1 [| f2 l]]; try reflexivity.
      rewrite Hsep. reflexivity. }
    rewrite Hdate.
    unfold PyStr.slice_to, PyStr.slice_from.
    cbn [String.append substring String.length Nat.sub]. rewrite Ht.
    rewrite substring_all, Hf. reflexivity.
Qed.

(** X2.  The fraction of a second in the time text has no effect:
    [row_to_time] gives a clock text followed by [.] and digits the same
    instant, or the same failure, as the clock text alone.  Fixes logged
    several times a second thus share one instant in the track. *)
Theorem row_to_time_drops_fraction :
  forall date_str clock frac hh mi ss,
    Pandas.read_time clock = Some (hh, mi, ss) ->
    PyStr.all_digits frac = true ->
    Magna.row_to_time date_str (clock ++ "." ++ frac) = Magna.row_to_time date_str clock.
Proof.
  intros date_str clock frac hh mi ss Ht Hf.
  destruct (parse_clock_text clock frac hh mi ss Ht Hf) as [H1 H2].
  unfold Magna.row_to_time. rewrite H1, H2. reflexivity.
Qed.

Lemma row_to_time_drops_fraction_witness :
  Magna.row_to_time "2023/12/15" ("17:11:19" ++ "." ++ "800")
  = Magna.row_to_time "2023/12/15" "17:11:19".
Proof.
  apply (row_to_time_drops_fraction "2023/12/15" "17:11:19" "800" 17 11 19).
  - vm_compute. reflexivity.
  - vm_compute. reflexivity.
Defined.

(** X3.  Of the logger's [TIMESTAMP] text [timestamp_magna] keeps the calendar
    date and nothing else: two texts of the same date give the same result
    for every [ThisUTCtime], be it an instant or a failure.  The clock time
    always comes from [ThisUTCtime]. *)
Theorem timestamp_magna_reads_only_the_date :
  forall s1 s2 t1 t2 thisUTCtime,
    Pandas.to_datetime s1 = Some t1 ->
    Pandas.to_datetime s2 = Some t2 ->
    Pandas.date t1 = Pandas.date t2 ->
    Magna.timestamp_magna s1 thisUTCtime = Magna.timestamp_magna s2 thisUTCtime.
Proof.
  intros s1 s2 t1 t2 u H1 H2 Hd.
  unfold Magna.timestamp_magna. rewrite H1, H2. cbn [or_raise].
  rewrite !bind_ret. cbv zeta. rewrite Hd. reflexivity.
Qed.

Lemma timestamp_magna_reads_only_the_date_witness :
  Magna.timestamp_magna "2023-12-15 23:59:59" "000001"
  = Magna.timestamp_magna "2023-12-15" "000001".
Proof.
  apply (timestamp_magna_reads_only_the_date
           "2023-12-15 23:59:59" "2023-12-15" 1702684799 1702598400 "000001").
  - vm_compute. reflexivity.
  - vm_compute. reflexivity.
  - vm_compute. reflexivity.
Defined.

(** ** The two loaders side by side *)

(** X4.  The two scripts read the correction file alike: for every file and
    every correction type they end with the same track or the same exception.
    They differ in what they print and only for the PPK type: the event
    script tests the PPP name in a separate [if] whose [else] also takes the
    PPK name, so after loading a PPK track it prints the invalid-type line
    that the stream script keeps for unknown types. *)
Theorem both_scripts_load_the_same_track :
  forall (pos : Emlid.pos_file) (mode : string),
    outcome (Smp.read_correction pos mode) = outcome (Magna.read_correction pos mode)
    /\ printed (Smp.read_correction pos mode)
       = (printed (Magna.read_correction pos mode)
          ++ Closed.lines_if
               (String.eqb mode "PPK_correction"
                && Closed2.returned (Magna.read_correction pos mode))
               "enter a valid correction file")%list.
Proof.
  intros pos mode. unfold Smp.read_correction, Magna.read_correction.
  destruct (String.eqb mode "PPK_correction") eqn:Ek.
  - apply String.eqb_eq in Ek. subst mode.
    change (String.eqb "PPK_correction" "PPP_correction") with false. cbv iota.
    destruct (Magna.load_fixed (Emlid.read_fixed pos)) as [out [e | df]].
    + cbn. rewrite app_nil_r. split; reflexivity.
    + cbn. rewrite !app_nil_r. split; reflexivity.
  - rewrite bind_ret.
    destruct (String.eqb mode "PPP_correction").
    + cbn [andb Closed.lines_if]. rewrite app_nil_r. split; reflexivity.
    + split; reflexivity.
Qed.

(** ** Look-ups at and beyond the ends of the track *)

(** X5.  The look-ups of the stream script have no [try]: for an instant later
    than every fix of the track, and on a track without fixes, both raise
    [IndexError], whatever the order of the fixes. *)
Theorem stream_lookup_beyond_track_raises :
  forall (df_emlid : list Emlid.reference_fix) (key : option Z),
    Closed.beyond_track df_emlid key = true ->
    Magna.get_lat_emlid key df_emlid = raise IndexError
    /\ Magna.get_lon_emlid key df_emlid = raise IndexError.
Proof.
  intros df key Hb.
  rewrite magna_get_lat_emlid_eq, magna_get_lon_emlid_eq.
  fold (Closed.nearest df key). rewrite (beyond_track_past_the_end df key Hb).
  split; reflexivity.
Qed.

Lemma stream_lookup_beyond_track_raises_witness :
  Magna.get_lat_emlid (Some 121) Sample2.track_three = raise IndexError
  /\ Magna.get_lon_emlid (Some 121) Sample2.track_three = raise IndexError.
Proof.
  apply (stream_lookup_beyond_track_raises Sample2.track_three (Some 121)).
  vm_compute. reflexivity.
Defined.

(** X6.  An instant that is not later than the last fix of the track always
    finds a fix, in both scripts and whatever the order of the fixes: the
    search cannot pass a last entry that is not before the key. *)
Theorem lookup_up_to_last_fix_returns :
  forall (df_emlid : list Emlid.reference_fix) (last : Emlid.reference_fix) (q : Z),
    nth_error df_emlid (List.length df_emlid - 1) = Some last ->
    q <= Emlid.timestamp last ->
    exists f,
      In f df_emlid
      /\ Magna.get_lat_emlid (Some q) df_emlid = ret (Emlid.lat f)
      /\ Magna.get_lon_emlid (Some q) df_emlid = ret (Emlid.lon f)
      /\ Smp.get_lat_emlid (Some q) df_emlid = ret (Some (Emlid.lat f))
      /\ Smp.get_lon_emlid (Some q) df_emlid = ret (Some (Emlid.lon f)).
Proof.
  intros df last q Hlast Hq.
  assert (Hne : Emlid.timestamps df <> []).
  { destruct df; [discriminate | discriminate]. }
  assert (Hin : (Pandas.searchsorted (Emlid.timestamps df) (Some q)
                 < List.length (Emlid.timestamps df))%nat).
  { apply searchsorted_inside; [exact Hne |].
    rewrite length_timestamps, (nth_timestamps df _ last Hlast).
    cbn [Pandas.before_key]. apply Z.ltb_ge. exact Hq. }
  rewrite length_timestamps in Hin.
  destruct (nth_error df (Pandas.searchsorted (Emlid.timestamps df) (Some q)))
    as [f |] eqn:Hf; [| apply nth_error_None in Hf; lia].
  exists f. split; [exact (nth_error_In _ _ Hf) |].
  rewrite magna_get_lat_emlid_eq, magna_get_lon_emlid_eq,
    smp_get_lat_emlid_eq, smp_get_lon_emlid_eq, Hf.
  repeat split.
Qed.

Lemma lookup_up_to_last_fix_returns_witness :
  exists f,
    In f Sample2.track_backwards
    /\ Magna.get_lat_emlid (Some 1702660250) Sample2.track_backwards = ret (Emlid.lat f)
    /\ Magna.get_lon_emlid (Some 1702660250) Sample2.track_backwards = ret (Emlid.lon f)
    /\ Smp.get_lat_emlid (Some 1702660250) Sample2.track_backwards
       = ret (Some (Emlid.lat f))
    /\ Smp.get_lon_emlid (Some 1702660250) Sample2.track_backwards
       = ret (Some (Emlid.lon f)).
Proof.
  apply (lookup_up_to_last_fix_returns Sample2.track_backwards
           (Emlid.mk_fix 1702660260 45%float (-75)%float) 1702660250).
  - reflexivity.
  - simpl. lia.
Defined.

(** X7.  On a track in ascending order the look-up of the event script answers
    [None] exactly when the instant is absent or later than every fix; every
    other instant gets a latitude and a longitude. *)
Theorem event_lookup_unset_iff_beyond_track :
  forall (df_emlid : list Emlid.reference_fix) (key : option Z),
    Pandas.is_monotonic_increasing (Emlid.timestamps df_emlid) = true ->
    (Smp.get_lat_emlid key df_emlid = ret None <-> Closed.beyond_track df_emlid key = true)
    /\ (Smp.get_lon_emlid key df_emlid = ret None <-> Closed.beyond_track df_emlid key = true).
Proof.
  intros df key Hs.
  assert (Hnone : Closed.nearest df key = None -> Closed.beyond_track df key = true).
  { destruct key as [q |]; [| reflexivity].
    unfold Closed.nearest. intros Hn. apply nth_error_None in Hn.
    destruct (searchsorted_insertion_point (Emlid.timestamps df) q Hs) as (Hr & Hlo & _).
    rewrite length_timestamps in Hr.
    cbn [Closed.beyond_track]. apply forallb_forall. intros f Hf.
    apply In_nth_error in Hf. destruct Hf as [j Hj].
    assert (j < List.length df)%nat by (apply nth_error_Some; congruence).
    apply Z.ltb_lt. rewrite <- (nth_timestamps df j f Hj). apply Hlo. lia. }
  rewrite smp_get_lat_emlid_eq, smp_get_lon_emlid_eq. fold (Closed.nearest df key).
  split; split.
  - intros H. apply Hnone. destruct (Closed.nearest df key); [discriminate | reflexivity].
  - intros H. rewrite (beyond_track_past_the_end df key H). reflexivity.
  - intros H. apply Hnone. destruct (Closed.nearest df key); [discriminate | reflexivity].
  - intros H. rewrite (beyond_track_past_the_end df key H). reflexivity.
Qed.

Lemma event_lookup_unset_iff_beyond_track_witness :
  Smp.get_lat_emlid (Some 121) Sample2.track_three = ret None
  <-> Closed.beyond_track Sample2.track_three (Some 121) = true.
Proof.
  refine (proj1 (event_lookup_unset_iff_beyond_track Sample2.track_three (Some 121) _)).
  reflexivity.
Defined.

(** X8.  The event script does not trim: on a track in ascending order an
    event whose instant is not later than the first fix, however much
    earlier, is given the coordinates of the first fix. *)
Theorem event_before_track_gets_first_fix :
  forall (first : Emlid.reference_fix) (rest : list Emlid.reference_fix) (q : Z),
    Pandas.is_monotonic_increasing (Emlid.timestamps (first :: rest)) = true ->
    q <= Emlid.timestamp first ->
    Smp.get_lat_emlid (Some q) (first :: rest) = ret (Some (Emlid.lat first))
    /\ Smp.get_lon_emlid (Some q) (first :: rest) = ret (Some (Emlid.lon first)).
Proof.
  intros first rest q Hs Hq.
  destruct (searchsorted_insertion_point _ q Hs) as (_ & Hlo & _).
  assert (E : Pandas.searchsorted (Emlid.timestamps (first :: rest)) (Some q) = 0%nat).
  { destruct (Pandas.searchsorted (Emlid.timestamps (first :: rest)) (Some q)) as [| r];
      [reflexivity |].
    specialize (Hlo 0%nat ltac:(lia)). cbn in Hlo. lia. }
  rewrite smp_get_lat_emlid_eq, smp_get_lon_emlid_eq, E. split; reflexivity.
Qed.

Lemma event_before_track_gets_first_fix_witness :
  Smp.get_lat_emlid (Some 0) Sample2.track_three = ret (Some 45%float)
  /\ Smp.get_lon_emlid (Some 0) Sample2.track_three = ret (Some (-75)%float).
Proof.
  apply (event_before_track_gets_first_fix
           (Emlid.mk_fix 100 45%float (-75)%float)
           [Emlid.mk_fix 110 45.5%float (-75.5)%float; Emlid.mk_fix 120 46%float (-76)%float]
           0).
  - reflexivity.
  - simpl. lia.
Defined.

(** ** What the stream script writes *)

(** X9.  On a track in ascending order every row that the stream script
    writes carries the latitude and the longitude of one fix of the track, the
    first fix whose instant is not earlier than the corrected instant of the
    record: no earlier fix qualifies, and a fix of exactly the record's
    instant is preferred to any later one. *)
Theorem stream_rows_carry_the_next_fix :
  forall rows pos output_csv_name mode out0 df b rest ts,
    Magna.read_correction pos mode = (out0, inr (Some df)) ->
    Emlid.timestamps df = b :: rest ->
    Pandas.is_monotonic_increasing (Emlid.timestamps df) = true ->
    rows <> [] ->
    Forall2 (fun x t => Magna.timestamp_magna (Magna.TIMESTAMP x) (Magna.ThisUTCtime x) = ret t)
            rows ts ->
    Magna.trim b (List.last (Emlid.timestamps df) b) (combine rows ts) <> [] ->
    exists out written,
      Magna.magnaprobe_get_gps_correction rows pos output_csv_name mode
      = (out, inr (Some written))
      /\ forall o, In o written ->
           exists i f,
             nth_error df i = Some f
             /\ Magna.lat_emlid o = Emlid.lat f
             /\ Magna.lon_emlid o = Emlid.lon f
             /\ Magna.timestamp_utc o <= Emlid.timestamp f
             /\ forall j g, (j < i)%nat -> nth_error df j = Some g ->
                            Emlid.timestamp g < Magna.timestamp_utc o.
Proof.
  intros rows pos name mode out0 df b rest ts Hread Hts Hs Hrows Hstamp Hkept.
  destruct (magna_run rows pos name mode out0 df b rest ts Hread Hts Hrows Hstamp)
    as [_ Hsome].
  destruct (Hsome Hkept) as (written & Hrun & _ & Hfix).
  exists (out0 ++ [Closed.output_named name])%list, written.
  split; [exact Hrun |].
  intros o Ho. destruct (Hfix o Ho) as (f & Hf & Hlat & Hlon).
  unfold Closed.nearest in Hf.
  destruct (searchsorted_insertion_point (Emlid.timestamps df) (Magna.timestamp_utc o) Hs)
    as (_ & Hlo & Hhi).
  set (i := Pandas.searchsorted (Emlid.timestamps df) (Some (Magna.timestamp_utc o))) in *.
  exists i, f. split; [exact Hf |]. split; [exact Hlat |]. split; [exact Hlon |]. split.
  - rewrite <- (nth_timestamps df i f Hf). apply Hhi. rewrite length_timestamps.
    split; [lia |]. apply nth_error_Some. congruence.
  - intros j g Hj Hg. rewrite <- (nth_timestamps df j g Hg). apply Hlo. exact Hj.
Qed.

Lemma stream_rows_carry_the_next_fix_witness :
  exists out written,
    Magna.magnaprobe_get_gps_correction Sample.stream Sample.pos_ppk "out.csv" "PPK_correction"
    = (out, inr (Some written))
    /\ forall o, In o written ->
         exists i f,
           nth_error Sample.track_ppk i = Some f
           /\ Magna.lat_emlid o = Emlid.lat f
           /\ Magna.lon_emlid o = Emlid.lon f
           /\ Magna.timestamp_utc o <= Emlid.timestamp f
           /\ forall j g, (j < i)%nat -> nth_error Sample.track_ppk j = Some g ->
                          Emlid.timestamp g < Magna.timestamp_utc o.
Proof.
  apply (stream_rows_carry_the_next_fix Sample.stream Sample.pos_ppk "out.csv" "PPK_correction"
           [] Sample.track_ppk 1702660260 [1702660320]
           [1702660260; 1702660297; 1702660320; 1702660327]).
  - vm_compute. reflexivity.
  - reflexivity.
  - reflexivity.
  - intros H. discriminate H.
  - repeat (constructor; [vm_compute; reflexivity |]). constructor.
  - vm_compute. intros H. discriminate H.
Defined.

(** X10.  When the last instant of the loaded track is not later than its
    first, as on a track of a single fix or on one whose rows run backwards,
    no record can lie strictly between the two.  For a stream of at least one
    record, every record of which gets its instant, the stream script then
    retains nothing, prints its two failure lines after the lines of the
    loading and writes no file. *)
Theorem stream_on_track_without_span_writes_nothing :
  forall rows pos output_csv_name mode out0 df b rest ts,
    Magna.read_correction pos mode = (out0, inr (Some df)) ->
    Emlid.timestamps df = b :: rest ->
    List.last (Emlid.timestamps df) b <= b ->
    rows <> [] ->
    Forall2 (fun x t => Magna.timestamp_magna (Magna.TIMESTAMP x) (Magna.ThisUTCtime x) = ret t)
            rows ts ->
    Magna.trim b (List.last (Emlid.timestamps df) b) (combine rows ts) = []
    /\ Magna.magnaprobe_get_gps_correction rows pos output_csv_name mode
       = ((out0 ++ Closed.failed_lines)%list, inr None).
Proof.
  intros rows pos name mode out0 df b rest ts Hread Hts Hspan Hrows Hstamp.
  assert (Hnone : Magna.trim b (List.last (Emlid.timestamps df) b) (combine rows ts) = []).
  { destruct (Magna.trim _ _ _) as [| x l] eqn:E; [reflexivity |].
    assert (Hx : In x (Magna.trim b (List.last (Emlid.timestamps df) b) (combine rows ts)))
      by (rewrite E; left; reflexivity).
    apply trim_In in Hx. lia. }
  split; [exact Hnone |].
  destruct (magna_run rows pos name mode out0 df b rest ts Hread Hts Hrows Hstamp)
    as [Hfail _].
  apply Hfail. exact Hnone.
Qed.

Lemma stream_on_track_without_span_writes_nothing_witness :
  Magna.magnaprobe_get_gps_correction Sample.stream Sample2.pos_single "out.csv" "PPK_correction"
  = (Closed.failed_lines, inr None).
Proof.
  refine (proj2 (stream_on_track_without_span_writes_nothing
            Sample.stream Sample2.pos_single "out.csv" "PPK_correction"
            [] [Emlid.mk_fix 1702660260 45%float (-75)%float] 1702660260 []
            [1702660260; 1702660297; 1702660320; 1702660327] _ _ _ _ _)).
  - vm_compute. reflexivity.
  - reflexivity.
  - simpl. lia.
  - intros H. discriminate H.
  - repeat (constructor; [vm_compute; reflexivity |]). constructor.
Defined.

(** ** The event script on empty inputs *)

(** X11.  When the directory holds no file with [.PNT] or [.pnt] in its name
    and the catalogue has an entry, the event script stops with
    [AttributeError] at the first entry, [smp_df] having no [name] column:
    it prints nothing after the loading of the track and writes no file. *)
Theorem event_run_without_profiles_raises :
  forall path_smp_dir path_emlid output_csv_file correction_file_type out0 assigned,
    Smp.read_correction path_emlid correction_file_type = (out0, inr assigned) ->
    Smp.load_profiles path_smp_dir = [] ->
    Smp.files output_csv_file <> [] ->
    Smp.smp_get_gps_correction path_smp_dir path_emlid output_csv_file correction_file_type
    = (out0, inl AttributeError).
Proof.
  intros dir pos xl mode out0 assigned Hread Hdir Hxl.
  unfold Smp.smp_get_gps_correction. rewrite Hread, bind_returned, Hdir. cbv zeta.
  destruct (Smp.files xl) as [| f rest]; [congruence |].
  cbn. rewrite app_nil_r. reflexivity.
Qed.

Lemma event_run_without_profiles_raises_witness :
  Smp.smp_get_gps_correction [Smp.mk_profile "notes.txt" None None] Sample.pos_ppp
                             Sample.catalogue "PPP_correction"
  = ([], inl AttributeError).
Proof.
  apply (event_run_without_profiles_raises
           [Smp.mk_profile "notes.txt" None None] Sample.pos_ppp Sample.catalogue
           "PPP_correction" [] (Some Sample.track_ppk)).
  - vm_compute. reflexivity.
  - vm_compute. reflexivity.
  - intros H. discriminate H.
Defined.

(** X12.  With a catalogue that has no entry the event script stops with
    [ValueError] at [pd.concat], which is given nothing to concatenate,
    whatever the directory holds; it writes no file. *)
Theorem event_run_without_catalogue_raises :
  forall path_smp_dir path_emlid output_csv_file correction_file_type out0 assigned,
    Smp.read_correction path_emlid correction_file_type = (out0, inr assigned) ->
    Smp.files output_csv_file = [] ->
    Smp.smp_get_gps_correction path_smp_dir path_emlid output_csv_file correction_file_type
    = (out0, inl ValueError).
Proof.
  intros dir pos xl mode out0 assigned Hread Hxl.
  unfold Smp.smp_get_gps_correction. rewrite Hread, bind_returned, Hxl. cbv zeta.
  cbn. rewrite app_nil_r. reflexivity.
Qed.

Lemma event_run_without_catalogue_raises_witness :
  Smp.smp_get_gps_correction Sample.profiles Sample.pos_ppp
                             (Smp.mk_excel_file "smp.xlsx" []) "PPP_correction"
  = ([], inl ValueError).
Proof.
  apply (event_run_without_catalogue_raises
           Sample.profiles Sample.pos_ppp (Smp.mk_excel_file "smp.xlsx" [])
           "PPP_correction" [] (Some Sample.track_ppk)).
  - vm_compute. reflexivity.
  - reflexivity.
Defined.

(** ** Catalogue entries and file names *)

Lemma prefix_length a b : prefix a b = true -> (String.length a <= String.length b)%nat.
Proof.
  revert b. induction a as [| c a IH]; intros b H; [cbn; lia |].
  destruct b as [| c' b]; [discriminate |].
  cbn in H. destruct (ascii_dec c c'); [| discriminate].
  cbn. specialize (IH b H). lia.
Qed.

Lemma str_in_length needle hay :
  PyStr.str_in needle hay = true -> (String.length needle <= String.length hay)%nat.
Proof.
  induction hay as [| c hay IH]; cbn [PyStr.str_in]; intros H.
  - rewrite orb_false_r in H. exact (prefix_length _ _ H).
  - apply orb_true_iff in H. destruct H as [H | H].
    + exact (prefix_length _ _ H).
    + specialize (IH H). cbn. lia.
Qed.

Lemma substring_length_le n m s : (String.length (substring n m s) <= m)%nat.
Proof.
  revert n m. induction s as [| c s IH]; intros n m.
  - destruct n, m; cbn; lia.
  - destruct n as [| n].
    + destruct m as [| m]; cbn; [lia |]. specialize (IH 0%nat m). lia.
    + cbn. apply IH.
Qed.

(** X13.  A catalogue entry is looked for in the last eight characters of a
    file name only, so an entry longer than eight characters, such as a whole
    file name with its extension, selects no event at all. *)
Theorem long_fragment_selects_nothing :
  forall (smp_df : list Smp.smp_row) (row_file : string),
    smp_df <> [] ->
    (8 < String.length row_file)%nat ->
    Smp.matching_row smp_df row_file = ret [].
Proof.
  intros smp_df row_file Hne Hlen.
  assert (Hsel : filter (fun r => PyStr.str_in row_file (PyStr.last_chars 8 (Smp.name r)))
                        smp_df = []).
  { clear Hne. induction smp_df as [| r l IH]; [reflexivity |].
    cbn [filter].
    destruct (PyStr.str_in row_file (PyStr.last_chars 8 (Smp.name r))) eqn:Hin; [| exact IH].
    apply str_in_length in Hin. unfold PyStr.last_chars in Hin.
    pose proof (substring_length_le (String.length (Smp.name r) - 8) 8 (Smp.name r)).
    lia. }
  unfold Smp.matching_row. rewrite Hsel.
  destruct smp_df; [congruence | reflexivity].
Qed.

Lemma long_fragment_selects_nothing_witness :
  Smp.matching_row (Smp.load_profiles Sample.profiles) "S43M0001.pnt" = ret [].
Proof.
  apply (long_fragment_selects_nothing (Smp.load_profiles Sample.profiles) "S43M0001.pnt").
  - vm_compute. intros H. discriminate H.
  - vm_compute. lia.
Defined.

Lemma append_assoc_string (a b c : string) : ((a ++ b) ++ c = a ++ (b ++ c))%string.
Proof. induction a as [| x a IH]; [reflexivity |]. cbn. rewrite IH. reflexivity. Qed.

Lemma prefix_split a b : prefix a b = true <-> exists s, b = (a ++ s)%string.
Proof.
  revert b. induction a as [| c a IH]; intros b.
  - split; [intros _; exists b; reflexivity | intros _; destruct b; reflexivity].
  - destruct b as [| c' b].
    + split; [discriminate | intros [s Hs]; discriminate Hs].
    + cbn [prefix]. destruct (ascii_dec c c') as [-> | Hne].
      * rewrite IH. split; intros [s Hs]; exists s.
        -- cbn. rewrite Hs. reflexivity.
        -- cbn in Hs. inversion Hs. reflexivity.
      * split; [discriminate |]. intros [s Hs]. cbn in Hs. inversion Hs. congruence.
Qed.

Lemma str_in_split needle hay :
  PyStr.str_in needle hay = true <-> exists p s, hay = (p ++ needle ++ s)%string.
Proof.
  induction hay as [| c hay IH]; cbn [PyStr.str_in].
  - rewrite orb_false_r, prefix_split. split.
    + intros [s Hs]. exists "", s. exact Hs.
    + intros (p & s & H). destruct p; [exists s; exact H | discriminate H].
  - rewrite orb_true_iff, prefix_split, IH. split.
    + intros [[s Hs] | (p & s & H)].
      * exists "", s. exact Hs.
      * exists (String c p), s. cbn. rewrite H. reflexivity.
    + intros (p & s & H). destruct p as [| c' p].
      * left. exists s. exact H.
      * right. cbn in H. inversion H. exists p, s. reflexivity.
Qed.

Lemma str_in_trans a b c :
  PyStr.str_in a b = true -> PyStr.str_in b c = true -> PyStr.str_in a c = true.
Proof.
  rewrite !str_in_split. intros (p & s & ->) (p' & s' & ->).
  exists (p' ++ p)%string, (s ++ s')%string.
  rewrite !append_assoc_string. reflexivity.
Qed.

Lemma nth_error_two_split {A} (l : list A) (i j : nat) (a b : A) :
  (i < j)%nat -> nth_error l i = Some a -> nth_error l j = Some b ->
  exists before between after, l = (before ++ a :: between ++ b :: after)%list.
Proof.
  intros Hij Ha Hb.
  apply nth_error_split in Ha. destruct Ha as (l1 & l2 & -> & Hlen).
  rewrite nth_error_app2 in Hb by lia.
  destruct (j - List.length l1)%nat as [| k] eqn:E; [lia |].
  cbn [nth_error] in Hb.
  apply nth_error_split in Hb. destruct Hb as (l3 & l4 & -> & _).
  exists l1, l3, l4. reflexivity.
Qed.

Lemma two_entries_select_twice (smp_df : list Smp.smp_row) (a b : string) (r : Smp.smp_row)
      (before between after : list string) :
  In r (Closed.selected smp_df a) -> In r (Closed.selected smp_df b) ->
  exists l1 l2 l3,
    Closed.df_smp_excel smp_df (before ++ a :: between ++ b :: after)
    = (l1 ++ r :: l2 ++ r :: l3)%list.
Proof.
  intros Ha Hb.
  apply in_split in Ha. destruct Ha as (a1 & a2 & Ea).
  apply in_split in Hb. destruct Hb as (b1 & b2 & Eb).
  unfold Closed.df_smp_excel.
  rewrite map_app, concat_app. cbn [map List.concat].
  rewrite map_app, concat_app. cbn [map List.concat].
  rewrite Ea, Eb.
  exists (List.concat (map (Closed.selected smp_df) before) ++ a1)%list,
         (a2 ++ List.concat (map (Closed.selected smp_df) between) ++ b1)%list,
         (b2 ++ List.concat (map (Closed.selected smp_df) after))%list.
  repeat (rewrite <- app_assoc; cbn [app]). reflexivity.
Qed.

(** X14.  Entries are matched as texts, not as numbers or whole names: when
    one catalogue entry occurs inside another, as [1] does in [11], every
    event that the longer entry selects is selected by the shorter one as
    well, and so stands at two places among the matched rows whenever the two
    entries stand at two rows of the catalogue, whichever comes first. *)
Theorem nested_fragments_share_events :
  forall (smp_df : list Smp.smp_row) (short long : string) (r : Smp.smp_row),
    PyStr.str_in short long = true ->
    In r (Closed.selected smp_df long) ->
    In r (Closed.selected smp_df short)
    /\ forall (df_excel : list string) (i j : nat),
         i <> j ->
         nth_error df_excel i = Some short ->
         nth_error df_excel j = Some long ->
         exists l1 l2 l3,
           Closed.df_smp_excel smp_df df_excel = (l1 ++ r :: l2 ++ r :: l3)%list.
Proof.
  intros smp_df short long r Hnest Hlong.
  assert (Hshort : In r (Closed.selected smp_df short)).
  { unfold Closed.selected in *. apply filter_In in Hlong. destruct Hlong as [Hr Hin].
    apply filter_In. split; [exact Hr |]. exact (str_in_trans _ _ _ Hnest Hin). }
  split; [exact Hshort |].
  intros df_excel i j Hij Hi Hj.
  destruct (Nat.lt_ge_cases i j) as [Hlt | Hge].
  - destruct (nth_error_two_split df_excel i j short long Hlt Hi Hj)
      as (before & between & after & ->).
    apply two_entries_select_twice; assumption.
  - destruct (nth_error_two_split df_excel j i long short ltac:(lia) Hj Hi)
      as (before & between & after & ->).
    apply two_entries_select_twice; assumption.
Qed.

Lemma nested_fragments_share_events_witness :
  exists l1 l2 l3,
    Closed.df_smp_excel [Smp.mk_smp_row "S43M0011.pnt" None None None] ["11"; "1"]
    = (l1 ++ Smp.mk_smp_row "S43M0011.pnt" None None None
          :: l2 ++ Smp.mk_smp_row "S43M0011.pnt" None None None :: l3)%list.
Proof.
  refine (proj2 (nested_fragments_share_events
            [Smp.mk_smp_row "S43M0011.pnt" None None None] "1" "11"
            (Smp.mk_smp_row "S43M0011.pnt" None None None) _ _)
            ["11"; "1"] 1%nat 0%nat _ _ _).
  - vm_compute. reflexivity.
  - vm_compute. left. reflexivity.
  - intros H. discriminate H.
  - reflexivity.
  - reflexivity.
Defined.

(** ** Catalogue rows and matched rows side by side *)

Lemma one_each_aligned (smp_df : list Smp.smp_row) (df_excel : list string) :
  (forall f, In f df_excel -> exists r, Closed.selected smp_df f = [r]) ->
  Forall2 (fun f r => Closed.selected smp_df f = [r]) df_excel
          (Closed.df_smp_excel smp_df df_excel).
Proof.
  induction df_excel as [| f rest IH]; intros H; [constructor |].
  destruct (H f (or_introl eq_refl)) as [r Hr].
  unfold Closed.df_smp_excel. cbn [map List.concat]. rewrite Hr. cbn [app].
  constructor; [exact Hr |]. apply IH. intros g Hg. apply H. right. exact Hg.
Qed.

(** X15.  The written file sets the matched rows beside the catalogue rows by
    position.  With a track loaded and a catalogue of at least one entry,
    when every entry selects exactly one event the run writes its file, the
    two sides have the same number of rows and the event beside each entry is
    the one that the entry selects. *)
Theorem one_event_per_entry_is_aligned :
  forall path_smp_dir path_emlid output_csv_file correction_file_type out0 df_emlid,
    Smp.read_correction path_emlid correction_file_type = (out0, inr (Some df_emlid)) ->
    Smp.files output_csv_file <> [] ->
    (forall f, In f (Smp.files output_csv_file) ->
               exists r, Closed.selected (Smp.load_profiles path_smp_dir) f = [r]) ->
    exists out written,
      Smp.smp_get_gps_correction path_smp_dir path_emlid output_csv_file correction_file_type
      = (out, inr written)
      /\ Smp.left_columns written = Smp.files output_csv_file
      /\ Forall2 (fun f o => Closed.selected (Smp.load_profiles path_smp_dir) f = [Smp.event o])
                 (Smp.left_columns written) (Smp.right_columns written).
Proof.
  intros dir pos xl mode out0 df Hread Hxl Hone.
  assert (Hdir : Smp.load_profiles dir <> []).
  { destruct (Smp.files xl) as [| f rest]; [congruence |].
    destruct (Hone f (or_introl eq_refl)) as [r Hr].
    intros E. rewrite E in Hr. discriminate Hr. }
  rewrite (smp_run dir pos xl mode out0 df Hread Hdir Hxl). cbv zeta.
  eexists _, _. split; [reflexivity |].
  cbn [Smp.left_columns Smp.right_columns]. split; [reflexivity |].
  pose proof (one_each_aligned _ _ Hone) as Hal.
  clear - Hal. revert Hal.
  generalize (Closed.df_smp_excel (Smp.load_profiles dir) (Smp.files xl)) as rs.
  generalize (Smp.files xl) as fs.
  induction 1 as [| f r fs rs Hfr _ IH]; [constructor |].
  cbn [map]. constructor; [exact Hfr | exact IH].
Qed.

Lemma one_event_per_entry_is_aligned_witness :
  exists out written,
    Smp.smp_get_gps_correction Sample2.profiles_two Sample.pos_ppp Sample2.catalogue_each
                               "PPP_correction"
    = (out, inr written)
    /\ Smp.left_columns written = Smp.files Sample2.catalogue_each
    /\ Forall2 (fun f o => Closed.selected (Smp.load_profiles Sample2.profiles_two) f
                           = [Smp.event o])
               (Smp.left_columns written) (Smp.right_columns written).
Proof.
  apply (one_event_per_entry_is_aligned Sample2.profiles_two Sample.pos_ppp
           Sample2.catalogue_each "PPP_correction" [] Sample.track_ppk).
  - vm_compute. reflexivity.
  - vm_compute. intros H. discriminate H.
  - vm_compute. intros f [<- | [<- | []]]; eexists; reflexivity.
Defined.

(** X16.  The matched rows are not held at the row of their entry.  When the
    first catalogue entry selects no event, the matched rows are those of the
    catalogue without that entry, in the same places, while the catalogue
    rows keep the entry: every event stands one row above its own entry. *)
Theorem entry_without_event_shifts_the_matched_rows :
  forall path_smp_dir path_emlid (path : string) (first : string) (others : list string)
         correction_file_type out0 df_emlid,
    Smp.read_correction path_emlid correction_file_type = (out0, inr (Some df_emlid)) ->
    Smp.load_profiles path_smp_dir <> [] ->
    others <> [] ->
    Closed.selected (Smp.load_profiles path_smp_dir) first = [] ->
    exists out1 written1 out2 written2,
      Smp.smp_get_gps_correction path_smp_dir path_emlid
        (Smp.mk_excel_file path (first :: others)) correction_file_type
      = (out1, inr written1)
      /\ Smp.smp_get_gps_correction path_smp_dir path_emlid
           (Smp.mk_excel_file path others) correction_file_type
         = (out2, inr written2)
      /\ Smp.left_columns written1 = first :: Smp.left_columns written2
      /\ Smp.right_columns written1 = Smp.right_columns written2.
Proof.
  intros dir pos path first others mode out0 df Hread Hdir Hothers Hnone.
  rewrite (smp_run dir pos (Smp.mk_excel_file path (first :: others)) mode out0 df Hread Hdir)
    by discriminate.
  rewrite (smp_run dir pos (Smp.mk_excel_file path others) mode out0 df Hread Hdir)
    by exact Hothers.
  cbv zeta. eexists _, _, _, _. split; [reflexivity |]. split; [reflexivity |].
  cbn [Smp.left_columns Smp.right_columns Smp.files]. split; [reflexivity |].
  unfold Closed.df_smp_excel. cbn [map List.concat]. rewrite Hnone. reflexivity.
Qed.

Lemma entry_without_event_shifts_the_matched_rows_witness :
  exists out1 written1 out2 written2,
    Smp.smp_get_gps_correction Sample2.profiles_two Sample.pos_ppp
      (Smp.mk_excel_file "smp.xlsx" ("0009" :: ["0001"; "0002"])) "PPP_correction"
    = (out1, inr written1)
    /\ Smp.smp_get_gps_correction Sample2.profiles_two Sample.pos_ppp
         (Smp.mk_excel_file "smp.xlsx" ["0001"; "0002"]) "PPP_correction"
       = (out2, inr written2)
    /\ Smp.left_columns written1 = "0009" :: Smp.left_columns written2
    /\ Smp.right_columns written1 = Smp.right_columns written2.
Proof.
  apply (entry_without_event_shifts_the_matched_rows Sample2.profiles_two Sample.pos_ppp
           "smp.xlsx" "0009" ["0001"; "0002"] "PPP_correction" [] Sample.track_ppk).
  - vm_compute. reflexivity.
  - vm_compute. intros H. discriminate H.
  - intros H. discriminate H.
  - vm_compute. reflexivity.
Defined.

(** ** The name of the written catalogue *)

Lemma length_append_string (a b : string) :
  String.length (a ++ b) = (String.length a + String.length b)%nat.
Proof. induction a as [| c a IH]; [reflexivity |]. cbn. rewrite IH. reflexivity. Qed.

Lemma substring_prefix_of_append (a b : string) :
  substring 0 (String.length a) (a ++ b) = a.
Proof. induction a as [| c a IH]; [destruct b; reflexivity |]. cbn. rewrite IH. reflexivity. Qed.

(** X17.  The written catalogue is named after the one that was read, with
    its last five characters replaced by [_improved.xlsx]: a path that ends
    in a dot and four letters, as [.xlsx] does, keeps all that stands
    before the dot. *)
Theorem improved_file_is_named_after_the_catalogue :
  forall path_smp_dir path_emlid (base ext : string) (df_excel : list string)
         correction_file_type out0 df_emlid,
    Smp.read_correction path_emlid correction_file_type = (out0, inr (Some df_emlid)) ->
    Smp.load_profiles path_smp_dir <> [] ->
    df_excel <> [] ->
    String.length ext = 5%nat ->
    exists out written,
      Smp.smp_get_gps_correction path_smp_dir path_emlid
        (Smp.mk_excel_file (base ++ ext) df_excel) correction_file_type
      = (out, inr written)
      /\ Smp.written_to written = (base ++ "_improved.xlsx")%string.
Proof.
  intros dir pos base ext df_excel mode out0 df Hread Hdir Hxl Hext.
  rewrite (smp_run dir pos (Smp.mk_excel_file (base ++ ext) df_excel) mode out0 df Hread Hdir)
    by exact Hxl.
  cbv zeta. eexists _, _. split; [reflexivity |].
  cbn [Smp.written_to Smp.path]. unfold Closed.improved_name, PyStr.slice_to.
  rewrite length_append_string, Hext, Nat.add_sub, substring_prefix_of_append. reflexivity.
Qed.

Lemma improved_file_is_named_after_the_catalogue_witness :
  exists out written,
    Smp.smp_get_gps_correction Sample2.profiles_two Sample.pos_ppp
      (Smp.mk_excel_file ("survey/smp" ++ ".xlsx") ["0001"; "0002"]) "PPP_correction"
    = (out, inr written)
    /\ Smp.written_to written = ("survey/smp" ++ "_improved.xlsx")%string.
Proof.
  apply (improved_file_is_named_after_the_catalogue Sample2.profiles_two Sample.pos_ppp
           "survey/smp" ".xlsx" ["0001"; "0002"] "PPP_correction" [] Sample.track_ppk).
  - vm_compute. reflexivity.
  - vm_compute. intros H. discriminate H.
  - intros H. discriminate H.
  - reflexivity.
Defined.

(** ** Degrees on both sides of zero *)

(** X18.  In exact arithmetic [degree_dms2dec] is odd in the degrees as long
    as they are not zero: changing the sign of the degrees, minutes and
    seconds left as they are, changes the sign of the result.  At zero degrees
    the sign is lost: the binary64 number [-0.0] passes the test [dd >= 0],
    so the minutes and seconds of a position within one degree south of the
    equator or west of Greenwich are added, not subtracted. *)
Theorem degree_dms2dec_is_odd_off_zero :
  forall dd mn ss : Q,
    (~ dd == 0)%Q ->
    (Magna.degree_dms2dec (- dd) mn ss == - Magna.degree_dms2dec dd mn ss)%Q
    /\ (forall mn' ss' : float,
           Magna.degree_dms2dec (-0)%float mn' ss' = (-0 + mn' / 60 + ss' / 3600)%float).
Proof.
  intros dd mn ss Hnz. split.
  - rewrite !dms_Q_eq, Qabs_opp.
    destruct (Qle_bool 0 dd) eqn:E1; destruct (Qle_bool 0 (- dd)) eqn:E2.
    + apply Qle_bool_iff in E1, E2. exfalso. apply Hnz. lra.
    + ring.
    + ring.
    + exfalso.
      assert (Ha : ~ (0 <= dd)%Q) by (intros Hc; apply Qle_bool_iff in Hc; congruence).
      assert (Hb : ~ (0 <= - dd)%Q) by (intros Hc; apply Qle_bool_iff in Hc; congruence).
      lra.
  - intros mn' ss'. unfold Magna.degree_dms2dec.
    cbn [num_ge num_lit num_add num_div num_neg num_abs float_PyNumber].
    change (of_uint63 (Uint63.of_Z 0)) with 0%float.
    change (of_uint63 (Uint63.of_Z 60)) with 60%float.
    change (of_uint63 (Uint63.of_Z 3600)) with 3600%float.
    change (PrimFloat.leb 0 (-0)) with true. reflexivity.
Qed.

Lemma degree_dms2dec_is_odd_off_zero_witness :
  (Magna.degree_dms2dec (- (45 # 1)) (30 # 1) (15 # 1)
   == - Magna.degree_dms2dec (45 # 1) (30 # 1) (15 # 1))%Q.
Proof.
  refine (proj1 (degree_dms2dec_is_odd_off_zero (45 # 1) (30 # 1) (15 # 1) _)).
  vm_compute. discriminate.
Defined.

(** ** From the directory to the written rows *)

(** X19.  Every matched row that the event script writes stems from an entry
    of the directory whose name has [.PNT] or [.pnt] in it and whose last
    eight characters contain an entry of the catalogue; the instant that is
    looked up is the instant of the measurement plus 18 seconds, an absent
    instant staying absent; and both looked-up cells are read at that
    instant. *)
Theorem written_events_stem_from_the_directory :
  forall path_smp_dir path_emlid output_csv_file correction_file_type out0 df_emlid,
    Smp.read_correction path_emlid correction_file_type = (out0, inr (Some df_emlid)) ->
    Smp.load_profiles path_smp_dir <> [] ->
    Smp.files output_csv_file <> [] ->
    exists out written,
      Smp.smp_get_gps_correction path_smp_dir path_emlid output_csv_file correction_file_type
      = (out, inr written)
      /\ forall o, In o (Smp.right_columns written) ->
           exists p row_file,
             In p path_smp_dir
             /\ In row_file (Smp.files output_csv_file)
             /\ Smp.name (Smp.event o) = Smp.file p
             /\ PyStr.str_in ".PNT" (Smp.file p) || PyStr.str_in ".pnt" (Smp.file p) = true
             /\ PyStr.str_in row_file (PyStr.last_chars 8 (Smp.file p)) = true
             /\ Smp.timestamp (Smp.event o) = option_map (fun t => t + 18) (Smp.p_timestamp p)
             /\ Smp.get_lat_emlid (Smp.timestamp (Smp.event o)) df_emlid
                = ret (Smp.lat_emlid o)
             /\ Smp.get_lon_emlid (Smp.timestamp (Smp.event o)) df_emlid
                = ret (Smp.lon_emlid o).
Proof.
  intros dir pos xl mode out0 df Hread Hdir Hxl.
  rewrite (smp_run dir pos xl mode out0 df Hread Hdir Hxl). cbv zeta.
  eexists _, _. split; [reflexivity |].
  cbn [Smp.right_columns]. intros o Ho.
  apply in_map_iff in Ho. destruct Ho as (x & <- & Hx).
  unfold Closed.df_smp_excel in Hx. apply in_concat in Hx.
  destruct Hx as (sel & Hsel & Hx). apply in_map_iff in Hsel.
  destruct Hsel as (row_file & <- & Hrow).
  unfold Closed.selected in Hx. apply filter_In in Hx. destruct Hx as [Hx Hmatch].
  unfold Smp.load_profiles in Hx. apply in_map_iff in Hx. destruct Hx as (p & <- & Hp).
  apply filter_In in Hp. destruct Hp as [Hp Hext].
  exists p, row_file. cbn [Closed.looked_up Smp.event Smp.name Smp.timestamp
                            Smp.lat_emlid Smp.lon_emlid] in *.
  rewrite smp_get_lat_emlid_eq, smp_get_lon_emlid_eq.
  repeat split; assumption || reflexivity.
Qed.

Lemma written_events_stem_from_the_directory_witness :
  exists out written,
    Smp.smp_get_gps_correction Sample.profiles Sample.pos_ppp Sample.catalogue "PPP_correction"
    = (out, inr written)
    /\ List.length (Smp.right_columns written) = 3%nat.
Proof.
  destruct (written_events_stem_from_the_directory Sample.profiles Sample.pos_ppp
              Sample.catalogue "PPP_correction" [] Sample.track_ppk)
    as (out & written & Hrun & _).
  - vm_compute. reflexivity.
  - vm_compute. intros H. discriminate H.
  - vm_compute. intros H. discriminate H.
  - exists out, written. split; [exact Hrun |].
    assert (E : snd (Smp.smp_get_gps_correction Sample.profiles Sample.pos_ppp
                       Sample.catalogue "PPP_correction") = inr written)
      by (rewrite Hrun; reflexivity).
    vm_compute in E. inversion E. reflexivity.
Defined.

(** ** The scripts run from the command line *)

(** X20.  The [__main__] block of either script prints the path it was given
    and then runs the function under a bare [except] that raises [ValueError]:
    a run that returns is passed on as it is, a run that raises ends the
    script with [ValueError] whatever it raised, and in both cases all the
    lines of the run are printed. *)
Theorem scripts_turn_every_error_into_ValueError :
  forall filemagna path_magna filepos newfile correction dir path_smp_dir excel,
    (outcome (Script.magna_main filemagna path_magna filepos newfile correction)
     = Closed2.as_ValueError
         (outcome (Magna.magnaprobe_get_gps_correction path_magna filepos newfile correction))
     /\ printed (Script.magna_main filemagna path_magna filepos newfile correction)
        = ("processing the file " ++ filemagna)%string
          :: printed (Magna.magnaprobe_get_gps_correction path_magna filepos newfile correction))
    /\ (outcome (Script.smp_main dir path_smp_dir filepos excel correction)
        = Closed2.as_ValueError
            (outcome (Smp.smp_get_gps_correction path_smp_dir filepos excel correction))
        /\ printed (Script.smp_main dir path_smp_dir filepos excel correction)
           = ("processing the directory " ++ dir)%string
             :: printed (Smp.smp_get_gps_correction path_smp_dir filepos excel correction)).
Proof.
  intros filemagna path_magna filepos newfile correction dir path_smp_dir excel.
  unfold Script.magna_main, Script.smp_main. split.
  - destruct (Magna.magnaprobe_get_gps_correction path_magna filepos newfile correction)
      as [out [e | x]]; cbn; rewrite ?app_nil_r; split; reflexivity.
  - destruct (Smp.smp_get_gps_correction path_smp_dir filepos excel correction)
      as [out [e | x]]; cbn; rewrite ?app_nil_r; split; reflexivity.
Qed.
